(** * Dairy management: stock ledger, reports and access checks

    A shallow embedding of [app.py], the Flask application of the
    repository, and the properties of its stock balance, its report
    aggregation, its pagination and its ownership checks.

    Modelling conventions.
    - A [Decimal] is an exact rational number ([Qc]): sums, differences
      and products of the quantities and prices the application handles
      are exact in Python's decimal arithmetic.  The store is taken to keep
      the values it is given.
    - A [datetime.date] is its (year, month, day) triple, compared
      lexicographically as Python compares dates.
    - The tables of the store are lists of rows in insertion order; the
      primary key of a new row is one more than the largest key present.
    - A request handler returns the new store and a response; a handler
      that stops before [db.session.commit()] (redirect, abort, uncaught
      exception) leaves the store as it was.
    - What the Python runtime provides (string parsers, binary floating
      point) is gathered in the class [Runtime]; the theorems hold for
      every runtime. *)

From Stdlib Require Import ZArith QArith Qcanon List Lia String Ascii Bool.
From Stdlib Require Import Permutation Sorted.
Import ListNotations.

Open Scope string_scope.
Open Scope list_scope.
Open Scope Z_scope.

(* ================================================================== *)
(** ** Python values and runtime *)

(** [datetime.date]: ordered as the tuple (year, month, day). *)
Record date := mkdate { year : Z; month : Z; day : Z }.

Definition date_compare (a b : date) : comparison :=
  match year a ?= year b with
  | Eq => match month a ?= month b with
          | Eq => day a ?= day b
          | c => c
          end
  | c => c
  end.

(** [a <= b] on dates. *)
Definition date_leb (a b : date) : bool :=
  match date_compare a b with Gt => false | _ => true end.

(** [a < b] on dates. *)
Definition date_ltb (a b : date) : bool :=
  match date_compare a b with Lt => true | _ => false end.

Definition date_eqb (a b : date) : bool :=
  match date_compare a b with Eq => true | _ => false end.

(** [Decimal] values. *)
Abbreviation Decimal := Qc (only parsing).

(** The services of the Python runtime the handlers call.  A parser
    returns [None] where Python raises.  [Decimal] also reads the texts
    of its special values (NaN, Infinity), which are no numbers: they are
    outside this model. *)
Class Runtime := {
  (** binary floating point numbers, [0.0], [+] and [*] on them *)
  float : Type;
  float_zero : float;
  float_add : float -> float -> float;
  float_mul : float -> float -> float;
  (** [float(d)] for a Decimal [d] *)
  float_of_Decimal : Decimal -> float;
  (** [Decimal(s)]; [None]: decimal.InvalidOperation *)
  Decimal_of_str : string -> option Decimal;
  (** [int(s)]; [None]: ValueError *)
  int_of_str : string -> option Z;
  (** [s.isdigit()] *)
  str_isdigit : string -> bool;
  (** [datetime.strptime(s, '%Y-%m-%d').date()]; [None]: ValueError *)
  strptime_ymd : string -> option date
}.

(* ================================================================== *)
(** ** Models (the tables of the store) *)

Module Dairy.
Record t := mk {
  id : Z;
  name : string;
  username : string;
  password : string;
  logo_path : option string
}.
End Dairy.

Module Product.
Record t := mk {
  id : Z;
  dairy_id : Z;
  name : string;
  unit : string;
  cost_price : Decimal;
  sell_price : Decimal;
  min_stock : Decimal;
  current_stock : Decimal
}.

Definition set_current_stock (v : Decimal) (p : t) : t :=
  mk (id p) (dairy_id p) (name p) (unit p) (cost_price p) (sell_price p)
     (min_stock p) v.

Definition set_cost_price (v : Decimal) (p : t) : t :=
  mk (id p) (dairy_id p) (name p) (unit p) v (sell_price p)
     (min_stock p) (current_stock p).

Definition set_sell_price (v : Decimal) (p : t) : t :=
  mk (id p) (dairy_id p) (name p) (unit p) (cost_price p) v
     (min_stock p) (current_stock p).
End Product.

Module StockIn.
Record t := mk {
  id : Z;
  dairy_id : Z;
  product_id : Z;
  qty : Decimal;
  cost_price : Decimal;
  date : date;
  remarks : string
}.
End StockIn.

Module Sale.
Record t := mk {
  id : Z;
  dairy_id : Z;
  product_id : Z;
  qty : Decimal;
  selling_price : Decimal;
  date : date;
  remarks : string
}.
End Sale.

Record DB := mkDB {
  dairies : list Dairy.t;
  products : list Product.t;
  stock_in : list StockIn.t;
  sales : list Sale.t
}.

(** Primary key given to a new row: one more than the largest key. *)
Definition next_id (ids : list Z) : Z := 1 + fold_right Z.max 0 ids.

(** [Model.query.get(k)] *)
Definition get_dairy (db : DB) (k : Z) : option Dairy.t :=
  find (fun d => Dairy.id d =? k) (dairies db).

Definition get_product (db : DB) (k : Z) : option Product.t :=
  find (fun p => Product.id p =? k) (products db).

Definition get_stock_in (db : DB) (k : Z) : option StockIn.t :=
  find (fun e => StockIn.id e =? k) (stock_in db).

Definition get_sale (db : DB) (k : Z) : option Sale.t :=
  find (fun s => Sale.id s =? k) (sales db).

(** Writing back a changed row: the row fetched under that primary key
    is replaced. *)
Fixpoint replace_row {A} (is_row : A -> bool) (r' : A) (l : list A)
  : list A :=
  match l with
  | [] => []
  | r :: rest =>
      if is_row r then r' :: rest else r :: replace_row is_row r' rest
  end.

(** Deleting the row fetched under a primary key. *)
Fixpoint remove_row {A} (is_row : A -> bool) (l : list A) : list A :=
  match l with
  | [] => []
  | r :: rest => if is_row r then rest else r :: remove_row is_row rest
  end.

Definition update_product (p' : Product.t) (db : DB) : DB :=
  mkDB (dairies db)
       (replace_row (fun p => Product.id p =? Product.id p') p' (products db))
       (stock_in db) (sales db).

Definition update_stock_in (e' : StockIn.t) (db : DB) : DB :=
  mkDB (dairies db) (products db)
       (replace_row (fun e => StockIn.id e =? StockIn.id e') e' (stock_in db))
       (sales db).

Definition update_sale (s' : Sale.t) (db : DB) : DB :=
  mkDB (dairies db) (products db) (stock_in db)
       (replace_row (fun s => Sale.id s =? Sale.id s') s' (sales db)).

(** [db.session.add(row)]: the row gets a fresh key. *)
Definition add_product_row (dairy_id : Z) (name unit : string)
    (cost_price sell_price min_stock : Decimal) (db : DB) : DB :=
  mkDB (dairies db)
       (products db ++
        [Product.mk (next_id (map Product.id (products db))) dairy_id name
           unit cost_price sell_price min_stock (Q2Qc 0)])
       (stock_in db) (sales db).

Definition add_stock_in_row (dairy_id product_id : Z) (qty cost : Decimal)
    (d : date) (remarks : string) (db : DB) : DB :=
  mkDB (dairies db) (products db)
       (stock_in db ++
        [StockIn.mk (next_id (map StockIn.id (stock_in db))) dairy_id
           product_id qty cost d remarks])
       (sales db).

Definition add_sale_row (dairy_id product_id : Z) (qty price : Decimal)
    (d : date) (remarks : string) (db : DB) : DB :=
  mkDB (dairies db) (products db) (stock_in db)
       (sales db ++
        [Sale.mk (next_id (map Sale.id (sales db))) dairy_id product_id qty
           price d remarks]).

(** [db.session.delete(row)] *)
Definition delete_product_row (k : Z) (db : DB) : DB :=
  mkDB (dairies db)
       (remove_row (fun p => Product.id p =? k) (products db))
       (stock_in db) (sales db).

Definition delete_sale_row (k : Z) (db : DB) : DB :=
  mkDB (dairies db) (products db) (stock_in db)
       (remove_row (fun s => Sale.id s =? k) (sales db)).

(* ================================================================== *)
(** ** Requests, sessions and responses *)

Inductive http_method := GET | POST.

(** A request: its method, the form fields, the query arguments, and
    the day the clock shows ([date.today()]). *)
Record Request := mkRequest {
  method : http_method;
  form : list (string * string);
  args : list (string * string);
  today : date
}.

(** The session: whether an administrator is logged in
    ([current_user.is_authenticated]) and [session['dairy_id']]. *)
Record Session := mkSession {
  is_authenticated : bool;
  session_dairy_id : option Z
}.

Inductive response :=
| Redirect (endpoint : string)   (* redirect(url_for(endpoint)) *)
| Render (template : string)     (* render_template(template, ...) *)
| Abort (code : Z)               (* abort(code); a missing form key: 400 *)
| Raise (exn : string).          (* uncaught exception, HTTP 500 *)

(** A computation that yields a value or leaves the handler with a
    response. *)
Definition result (A : Type) : Type := (A + response)%type.

Definition ret {A} (a : A) : result A := inl a.
Definition fail {A} (r : response) : result A := inr r.

Definition bind {A B} (m : result A) (k : A -> result B) : result B :=
  match m with
  | inl a => k a
  | inr r => inr r
  end.

Notation "x <- m ;; k" := (bind m (fun x => k))
  (at level 61, m at next level, right associativity).

(** A mutating handler: its effects reach the store only when it gets
    to [db.session.commit()]. *)
Definition run (db : DB) (body : result (DB * response)) : DB * response :=
  match body with
  | inl out => out
  | inr r => (db, r)
  end.

(** [d.get(key)] on a multi-dict: the first value of the key. *)
Fixpoint lookup (key : string) (d : list (string * string)) : option string :=
  match d with
  | [] => None
  | (k, v) :: rest => if String.eqb k key then Some v else lookup key rest
  end.

(** Truth value of a string (or None): non-empty. *)
Definition truthy (s : option string) : option string :=
  match s with
  | Some EmptyString => None
  | other => other
  end.

(** [request.form[key]]: a missing key is a bad request. *)
Definition form_item (req : Request) (key : string) : result string :=
  match lookup key (form req) with
  | Some v => ret v
  | None => fail (Abort 400)
  end.

Section Handlers.
Context {rt : Runtime}.

(** [int(s)] *)
Definition int (s : string) : result Z :=
  match int_of_str s with
  | Some n => ret n
  | None => fail (Raise "ValueError")
  end.

(** [Decimal(s or 0)] *)
Definition Decimal_or_0 (s : string) : result Decimal :=
  match truthy (Some s) with
  | None => ret (Q2Qc 0)
  | Some s' =>
      match Decimal_of_str s' with
      | Some q => ret q
      | None => fail (Raise "InvalidOperation")
      end
  end.

(** [datetime.strptime(s, '%Y-%m-%d').date()] *)
Definition strptime (s : option string) : result date :=
  match s with
  | None => fail (Raise "TypeError")
  | Some s' =>
      match strptime_ymd s' with
      | Some d => ret d
      | None => fail (Raise "ValueError")
      end
  end.

(** [current_dairy()] *)
Definition current_dairy (sess : Session) (db : DB) : option Dairy.t :=
  match session_dairy_id sess with
  | Some did => if did =? 0 then None else get_dairy db did
  | None => None
  end.

(** The common opening of the tenant pages:
    [d = current_dairy(); if not d: return redirect(url_for('login'))]. *)
Definition acting_dairy (sess : Session) (db : DB) : result Dairy.t :=
  match current_dairy sess db with
  | Some d => ret d
  | None => fail (Redirect "login")
  end.

(** [Model.query.get_or_404(k)] *)
Definition get_or_404 {A} (row : option A) : result A :=
  match row with
  | Some r => ret r
  | None => fail (Abort 404)
  end.

(** Attribute access on the result of [Model.query.get(k)], [None] when
    there is no such row. *)
Definition deref {A} (row : option A) : result A :=
  match row with
  | Some r => ret r
  | None => fail (Raise "AttributeError")
  end.

(** A route declared with [methods=['POST']] answers another method
    with 405. *)
Definition post_only (req : Request) : result unit :=
  match method req with
  | POST => ret tt
  | GET => fail (Abort 405)
  end.

(** A column given as text by a product form ([request.form[key] or 0]),
    converted when the row is written. *)
Definition numeric_field (s : string) : result Decimal :=
  match truthy (Some s) with
  | None => ret (Q2Qc 0)
  | Some s' =>
      match Decimal_of_str s' with
      | Some q => ret q
      | None => fail (Raise "StatementError")
      end
  end.

(* ------------------------------------------------------------------ *)
(** *** Products *)

Definition add_product (sess : Session) (req : Request) (db : DB)
  : DB * response :=
  run db (
    d <- acting_dairy sess db ;;
    match method req with
    | POST =>
        name <- form_item req "name" ;;
        unit <- form_item req "unit" ;;
        cost_s <- form_item req "cost_price" ;;
        sell_s <- form_item req "sell_price" ;;
        let min_s := match truthy (lookup "min_stock" (form req)) with
                     | Some s => s
                     | None => EmptyString
                     end in
        cost_price <- numeric_field cost_s ;;
        sell_price <- numeric_field sell_s ;;
        min_stock <- numeric_field min_s ;;
        ret (add_product_row (Dairy.id d) name unit cost_price sell_price
               min_stock db,
             Redirect "products")
    | GET => ret (db, Render "product_form.html")
    end).

Definition edit_product (pid : Z) (sess : Session) (req : Request) (db : DB)
  : DB * response :=
  run db (
    d <- acting_dairy sess db ;;
    p <- get_or_404 (get_product db pid) ;;
    if negb (Product.dairy_id p =? Dairy.id d) then fail (Abort 403) else
    match method req with
    | POST =>
        name <- form_item req "name" ;;
        unit <- form_item req "unit" ;;
        cost_s <- form_item req "cost_price" ;;
        sell_s <- form_item req "sell_price" ;;
        let min_s := match truthy (lookup "min_stock" (form req)) with
                     | Some s => s
                     | None => EmptyString
                     end in
        cost_price <- numeric_field cost_s ;;
        sell_price <- numeric_field sell_s ;;
        min_stock <- numeric_field min_s ;;
        ret (update_product
               (Product.mk (Product.id p) (Product.dairy_id p) name unit
                  cost_price sell_price min_stock (Product.current_stock p))
               db,
             Redirect "products")
    | GET => ret (db, Render "product_form.html")
    end).

Definition delete_product (pid : Z) (sess : Session) (req : Request)
    (db : DB) : DB * response :=
  run db (
    _ <- post_only req ;;
    d <- acting_dairy sess db ;;
    p <- get_or_404 (get_product db pid) ;;
    if negb (Product.dairy_id p =? Dairy.id d) then fail (Abort 403) else
    ret (delete_product_row (Product.id p) db, Redirect "products")).

(* ------------------------------------------------------------------ *)
(** *** Stock in *)

Definition stock_in_page (sess : Session) (req : Request) (db : DB)
  : DB * response :=
  run db (
    d <- acting_dairy sess db ;;
    match method req with
    | POST =>
        pid_s <- form_item req "product_id" ;;
        pid <- int pid_s ;;
        qty_s <- form_item req "qty" ;;
        qty <- Decimal_or_0 qty_s ;;
        cost_s <- form_item req "cost_price" ;;
        cost_price <- Decimal_or_0 cost_s ;;
        let remarks := match truthy (lookup "remarks" (form req)) with
                       | Some s => s
                       | None => EmptyString
                       end in
        (* date_str = request.form.get('date') or date.today().isoformat();
           the ISO form of today parses back to today *)
        dt <- match truthy (lookup "date" (form req)) with
              | Some s => strptime (Some s)
              | None => ret (today req)
              end ;;
        let db1 := add_stock_in_row (Dairy.id d) pid qty cost_price dt
                     remarks db in
        prod <- deref (get_product db1 pid) ;;
        let prod1 := Product.set_current_stock
                       (Product.current_stock prod + qty)%Qc prod in
        let prod2 := Product.set_cost_price cost_price prod1 in
        ret (update_product prod2 db1, Redirect "stock_in_page")
    | GET => ret (db, Render "stock_in.html")
    end).

Definition edit_stock_in (sid : Z) (sess : Session) (req : Request)
    (db : DB) : DB * response :=
  run db (
    d <- acting_dairy sess db ;;
    st <- get_or_404 (get_stock_in db sid) ;;
    if negb (StockIn.dairy_id st =? Dairy.id d) then fail (Abort 403) else
    match method req with
    | POST =>
        let old_qty := StockIn.qty st in
        qty_s <- form_item req "qty" ;;
        qty <- Decimal_or_0 qty_s ;;
        cost_s <- form_item req "cost_price" ;;
        cost_price <- Decimal_or_0 cost_s ;;
        dt <- strptime (lookup "date" (form req)) ;;
        let remarks := match truthy (lookup "remarks" (form req)) with
                       | Some s => s
                       | None => EmptyString
                       end in
        let st' := StockIn.mk (StockIn.id st) (StockIn.dairy_id st)
                     (StockIn.product_id st) qty cost_price dt remarks in
        let db1 := update_stock_in st' db in
        prod <- deref (get_product db1 (StockIn.product_id st')) ;;
        let prod' := Product.set_current_stock
                       (Product.current_stock prod - old_qty + qty)%Qc
                       prod in
        ret (update_product prod' db1, Redirect "stock_in_page")
    | GET => ret (db, Render "stock_in_form.html")
    end).

(* ------------------------------------------------------------------ *)
(** *** Sales *)

Definition sales_page (sess : Session) (req : Request) (db : DB)
  : DB * response :=
  run db (
    d <- acting_dairy sess db ;;
    match method req with
    | POST =>
        pid_s <- form_item req "product_id" ;;
        pid <- int pid_s ;;
        qty_s <- form_item req "qty" ;;
        qty <- Decimal_or_0 qty_s ;;
        price_s <- form_item req "selling_price" ;;
        selling_price <- Decimal_or_0 price_s ;;
        let remarks := match truthy (lookup "remarks" (form req)) with
                       | Some s => s
                       | None => EmptyString
                       end in
        dt <- match truthy (lookup "date" (form req)) with
              | Some s => strptime (Some s)
              | None => ret (today req)
              end ;;
        let db1 := add_sale_row (Dairy.id d) pid qty selling_price dt
                     remarks db in
        prod <- deref (get_product db1 pid) ;;
        let prod1 := Product.set_current_stock
                       (Product.current_stock prod - qty)%Qc prod in
        let prod2 := Product.set_sell_price selling_price prod1 in
        ret (update_product prod2 db1, Redirect "sales_page")
    | GET => ret (db, Render "sales.html")
    end).

Definition edit_sale (sid : Z) (sess : Session) (req : Request) (db : DB)
  : DB * response :=
  run db (
    d <- acting_dairy sess db ;;
    sale <- get_or_404 (get_sale db sid) ;;
    if negb (Sale.dairy_id sale =? Dairy.id d) then fail (Abort 403) else
    match method req with
    | POST =>
        let old_qty := Sale.qty sale in
        qty_s <- form_item req "qty" ;;
        qty <- Decimal_or_0 qty_s ;;
        price_s <- form_item req "selling_price" ;;
        selling_price <- Decimal_or_0 price_s ;;
        dt <- strptime (lookup "date" (form req)) ;;
        let remarks := match truthy (lookup "remarks" (form req)) with
                       | Some s => s
                       | None => EmptyString
                       end in
        let sale' := Sale.mk (Sale.id sale) (Sale.dairy_id sale)
                       (Sale.product_id sale) qty selling_price dt remarks in
        let db1 := update_sale sale' db in
        prod <- deref (get_product db1 (Sale.product_id sale')) ;;
        let prod' := Product.set_current_stock
                       (Product.current_stock prod + old_qty - qty)%Qc
                       prod in
        ret (update_product prod' db1, Redirect "sales_page")
    | GET => ret (db, Render "sale_form.html")
    end).

Definition delete_sale (sid : Z) (sess : Session) (req : Request) (db : DB)
  : DB * response :=
  run db (
    _ <- post_only req ;;
    d <- acting_dairy sess db ;;
    sale <- get_or_404 (get_sale db sid) ;;
    if negb (Sale.dairy_id sale =? Dairy.id d) then fail (Abort 403) else
    let db1 := match get_product db (Sale.product_id sale) with
               | Some prod =>
                   update_product
                     (Product.set_current_stock
                        (Product.current_stock prod + Sale.qty sale)%Qc prod)
                     db
               | None => db
               end in
    ret (delete_sale_row (Sale.id sale) db1, Redirect "sales_page")).

End Handlers.

(* ================================================================== *)
(** ** Sorting, slicing and pagination *)

(** [sorted(rows, key=lambda x: x['date'], reverse=True)].  Python's sort
    is stable, also under [reverse=True]: rows with equal keys keep the
    order they had.  A row is therefore placed before the first row whose
    key is not greater than its own. *)
Fixpoint insert_desc {A} (key : A -> date) (x : A) (l : list A) : list A :=
  match l with
  | [] => [x]
  | y :: rest =>
      if date_ltb (key x) (key y) then y :: insert_desc key x rest
      else x :: y :: rest
  end.

Definition sorted_reverse {A} (key : A -> date) (l : list A) : list A :=
  fold_right (insert_desc key) [] l.

(** Latest first: the order of the dates of two neighbours in a list
    sorted by [sorted_reverse]. *)
Definition latest_first {A} (key : A -> date) (a b : A) : Prop :=
  date_leb (key b) (key a) = true.

(** A slice bound [i] of [l[i:j]] on a list of length [len]: a negative
    bound counts from the end, and bounds are clamped to the list. *)
Definition slice_bound (len i : Z) : Z :=
  if i <? 0 then Z.max 0 (i + len) else Z.min i len.

(** [l[start:stop]] *)
Definition slice {A} (l : list A) (start stop : Z) : list A :=
  let len := Z.of_nat (List.length l) in
  let lo := slice_bound len start in
  let hi := slice_bound len stop in
  firstn (Z.to_nat (hi - lo)) (skipn (Z.to_nat lo) l).

Definition per_page : Z := 10.

(** [ceil(n / per_page)] for a list length [n]: the quotient is exact
    in floating point for any length a list can have. *)
Definition ceil_div (n d : Z) : Z := (n + d - 1) / d.

(** [total_pages = ceil(len(rows) / per_page) if rows else 1] *)
Definition total_pages {A} (rows : list A) : Z :=
  match rows with
  | [] => 1
  | _ => ceil_div (Z.of_nat (List.length rows)) per_page
  end.

(** [paginated_rows = rows[start:end]] with [start = (page - 1) * per_page]
    and [end = start + per_page]. *)
Definition paginated_rows {A} (rows : list A) (page : Z) : list A :=
  let start := (page - 1) * per_page in
  let end_ := start + per_page in
  slice rows start end_.


(* ================================================================== *)
(** ** Reports *)

Module ReportRow.
(** One row of the report (the dict built per entry). *)
Record t {rt : Runtime} := mk {
  dairy : string;
  logo : option string;
  date : date;
  product : string;
  in_qty : float;
  out_qty : float;
  cost_price : float;
  sell_price : option float;     (* [''] on a stock-in row *)
  profit : float;
  remarks : string
}.
End ReportRow.

Module Totals.
Record t {rt : Runtime} := mk {
  in_qty : float;
  out_qty : float;
  cost_val : float;
  sell_val : float;
  profit : float
}.
End Totals.

(** A stock-in row has a blank selling price, a sale row has one. *)
Definition is_stock_in_row {rt : Runtime} (r : ReportRow.t) : bool :=
  match ReportRow.sell_price r with
  | None => true
  | Some _ => false
  end.

(** The value of [did]: a string of the request or the integer key of
    the acting dairy. *)
Inductive str_or_int := Str (s : string) | Int (n : Z).

(** The filters a report query ends up with. *)
Record Filters := mkFilters {
  by_dairy : option Z;
  date_from : option date;
  date_to : option date;
  by_product : option Z
}.

Definition opt_test {A} (f : A -> bool) (o : option A) : bool :=
  match o with
  | Some a => f a
  | None => true
  end.

Definition filter_stock_in (f : Filters) (db : DB) : list StockIn.t :=
  filter (fun e =>
            opt_test (fun k => StockIn.dairy_id e =? k) (by_dairy f)
            && opt_test (fun d => date_leb d (StockIn.date e)) (date_from f)
            && opt_test (fun d => date_leb (StockIn.date e) d) (date_to f)
            && opt_test (fun k => StockIn.product_id e =? k) (by_product f))
         (stock_in db).

Definition filter_sales (f : Filters) (db : DB) : list Sale.t :=
  filter (fun s =>
            opt_test (fun k => Sale.dairy_id s =? k) (by_dairy f)
            && opt_test (fun d => date_leb d (Sale.date s)) (date_from f)
            && opt_test (fun d => date_leb (Sale.date s) d) (date_to f)
            && opt_test (fun k => Sale.product_id s =? k) (by_product f))
         (sales db).

(** [sum(l)] on Decimals. *)
Definition sum (l : list Decimal) : Decimal :=
  fold_left Qcplus l (Q2Qc 0).

(** A loop whose body may raise. *)
Fixpoint foldM {A B} (f : A -> B -> result A) (l : list B) (a : A)
  : result A :=
  match l with
  | [] => ret a
  | b :: rest => a' <- f a b ;; foldM f rest a'
  end.

Section Reports.
Context {rt : Runtime}.

(** [if v and str(v).isdigit(): n = int(v)] for a string or integer
    [v]; [None] when the test fails.  The text of an integer is all
    digits exactly when the integer is not negative. *)
Definition digits_of (v : option str_or_int) : result (option Z) :=
  match v with
  | None => ret None
  | Some (Str s) =>
      match truthy (Some s) with
      | None => ret None
      | Some s' =>
          if str_isdigit s' then n <- int s' ;; ret (Some n) else ret None
      end
  | Some (Int n) =>
      if n =? 0 then ret None
      else if 0 <=? n then ret (Some n) else ret None
  end.

Definition opt_str (s : option string) : option str_or_int :=
  match truthy s with
  | Some s' => Some (Str s')
  | None => None
  end.

(** [a or b] on optional strings. *)
Definition or_else (a b : option string) : option string :=
  match truthy a with
  | Some s => Some s
  | None => b
  end.

(** The row of a stock-in entry. *)
Definition stock_in_row (with_logo : bool) (db : DB) (entry : StockIn.t)
  : result ReportRow.t :=
  dairy <- deref (get_dairy db (StockIn.dairy_id entry)) ;;
  product <- deref (get_product db (StockIn.product_id entry)) ;;
  ret (ReportRow.mk _ (Dairy.name dairy)
         (if with_logo then Dairy.logo_path dairy else None)
         (StockIn.date entry)
         (Product.name product)
         (float_of_Decimal (StockIn.qty entry))
         float_zero
         (float_of_Decimal (StockIn.cost_price entry))
         None
         float_zero
         (StockIn.remarks entry)).

(** The row of a sale: the profit is taken against the cost price the
    product has now. *)
Definition sale_row (with_logo : bool) (db : DB) (s : Sale.t)
  : result ReportRow.t :=
  product <- deref (get_product db (Sale.product_id s)) ;;
  let profit := float_of_Decimal
                  (Sale.qty s *
                   (Sale.selling_price s - Product.cost_price product))%Qc in
  dairy <- deref (get_dairy db (Sale.dairy_id s)) ;;
  ret (ReportRow.mk _ (Dairy.name dairy)
         (if with_logo then Dairy.logo_path dairy else None)
         (Sale.date s)
         (Product.name product)
         float_zero
         (float_of_Decimal (Sale.qty s))
         (float_of_Decimal (Product.cost_price product))
         (Some (float_of_Decimal (Sale.selling_price s)))
         profit
         (Sale.remarks s)).

(** Body of [for entry in sis]. *)
Definition add_stock_in_entry (with_logo : bool) (db : DB)
    (acc : list ReportRow.t * Totals.t) (entry : StockIn.t)
  : result (list ReportRow.t * Totals.t) :=
  r <- stock_in_row with_logo db entry ;;
  let totals := snd acc in
  ret (fst acc ++ [r],
       Totals.mk _
         (float_add (Totals.in_qty totals)
            (float_of_Decimal (StockIn.qty entry)))
         (Totals.out_qty totals)
         (float_add (Totals.cost_val totals)
            (float_mul (float_of_Decimal (StockIn.qty entry))
               (float_of_Decimal (StockIn.cost_price entry))))
         (Totals.sell_val totals)
         (Totals.profit totals)).

(** Body of [for s in ss]. *)
Definition add_sale_entry (with_logo : bool) (db : DB)
    (acc : list ReportRow.t * Totals.t) (s : Sale.t)
  : result (list ReportRow.t * Totals.t) :=
  r <- sale_row with_logo db s ;;
  let totals := snd acc in
  ret (fst acc ++ [r],
       Totals.mk _
         (Totals.in_qty totals)
         (float_add (Totals.out_qty totals)
            (float_of_Decimal (Sale.qty s)))
         (Totals.cost_val totals)
         (float_add (Totals.sell_val totals)
            (float_mul (float_of_Decimal (Sale.qty s))
               (float_of_Decimal (Sale.selling_price s))))
         (float_add (Totals.profit totals) (ReportRow.profit r))).

(** The two loops, then the sort: the rows of the report and its
    totals. *)
Definition build_rows (with_logo : bool) (db : DB) (sis : list StockIn.t)
    (ss : list Sale.t) : result (list ReportRow.t * Totals.t) :=
  let totals0 := Totals.mk _ float_zero float_zero float_zero float_zero
                   float_zero in
  acc1 <- foldM (add_stock_in_entry with_logo db) sis ([], totals0) ;;
  acc2 <- foldM (add_sale_entry with_logo db) ss acc1 ;;
  ret (sorted_reverse ReportRow.date (fst acc2), snd acc2).

(** [did] of [reports]:
    [form.get('dairy') or args.get('dairy') or (d['id'] if d else None)] *)
Definition reports_did (sess : Session) (req : Request) (db : DB)
  : option str_or_int :=
  match truthy (or_else (lookup "dairy" (form req))
                  (lookup "dairy" (args req))) with
  | Some s => Some (Str s)
  | None =>
      match current_dairy sess db with
      | Some d => Some (Int (Dairy.id d))
      | None => None
      end
  end.

(** A date filter of [reports]: the text of the request, today's date
    when there is none. *)
Definition reports_date (req : Request) (key : string) : option date :=
  match truthy (or_else (lookup key (form req)) (lookup key (args req))) with
  | Some s => strptime_ymd s
  | None => Some (today req)
  end.

(** The filters of [reports].  A date that does not parse drops both
    date filters ([except: f1d = f2d = None]). *)
Definition reports_filters (sess : Session) (req : Request) (db : DB)
  : result Filters :=
  let pid := or_else (lookup "product" (form req))
               (lookup "product" (args req)) in
  let did := reports_did sess req db in
  let dates := match reports_date req "from", reports_date req "to" with
               | Some f1d, Some f2d => (Some f1d, Some f2d)
               | _, _ => (None, None)
               end in
  did_int <- digits_of did ;;
  pid_int <- digits_of (opt_str pid) ;;
  ret (mkFilters did_int (fst dates) (snd dates) pid_int).

(** The rows (sorted, before pagination) and the totals of [reports]. *)
Definition reports_rows (sess : Session) (req : Request) (db : DB)
  : result (list ReportRow.t * Totals.t) :=
  f <- reports_filters sess req db ;;
  build_rows true db (filter_stock_in f db) (filter_sales f db).

(** What [reports] hands to its template, and the spreadsheet it
    writes. *)
Record ReportPage := mkReportPage {
  page_dairies : option (list Dairy.t);
  page_products : list Product.t;
  page_rows : list ReportRow.t;
  page_totals : Totals.t;
  page_out : bool;
  page_number : Z;
  page_total_pages : Z;
  excel : option (list ReportRow.t)     (* static/reports/report_v3.xlsx *)
}.

Definition reports (sess : Session) (req : Request) (db : DB)
  : result ReportPage :=
  let dairies := if is_authenticated sess then Some (dairies db) else None in
  rt_ <- reports_rows sess req db ;;
  let rows := fst rt_ in
  let totals := snd rt_ in
  page <- match lookup "page" (args req) with
          | Some s => int s
          | None => ret 1
          end ;;
  did_int <- digits_of (reports_did sess req db) ;;
  let products := match did_int with
                  | Some k =>
                      filter (fun p => Product.dairy_id p =? k) (products db)
                  | None => []
                  end in
  ret (mkReportPage dairies products (paginated_rows rows page) totals
         (match rows with [] => false | _ => true end)
         page (total_pages rows)
         (match rows with [] => None | _ => Some rows end)).

(** The filters of [reports_pdf].  The dairy and date filters are set
    one after the other inside one [try]: a failure keeps the filters
    set before it and skips the rest. *)
Definition reports_pdf_filters (req : Request) : result Filters :=
  let f1 := truthy (lookup "from" (args req)) in
  let f2 := truthy (lookup "to" (args req)) in
  let pid := lookup "product" (args req) in
  let did := lookup "dairy" (args req) in
  let tried :=
    match digits_of (opt_str did) with
    | inr _ => (None, None, None)
    | inl did_int =>
        match f1 with
        | Some s1 =>
            match strptime_ymd s1 with
            | None => (did_int, None, None)
            | Some f1d =>
                match f2 with
                | Some s2 =>
                    match strptime_ymd s2 with
                    | None => (did_int, Some f1d, None)
                    | Some f2d => (did_int, Some f1d, Some f2d)
                    end
                | None => (did_int, Some f1d, None)
                end
            end
        | None =>
            match f2 with
            | Some s2 =>
                match strptime_ymd s2 with
                | None => (did_int, None, None)
                | Some f2d => (did_int, None, Some f2d)
                end
            | None => (did_int, None, None)
            end
        end
    end in
  pid_int <- digits_of (opt_str pid) ;;
  ret (mkFilters (fst (fst tried)) (snd (fst tried)) (snd tried) pid_int).

(** The rows and totals [reports_pdf] lays out in the document.  Both
    queries are ordered by date, latest first. *)
Definition reports_pdf_rows (req : Request) (db : DB)
  : result (list ReportRow.t * Totals.t) :=
  f <- reports_pdf_filters req ;;
  build_rows false db
    (sorted_reverse StockIn.date (filter_stock_in f db))
    (sorted_reverse Sale.date (filter_sales f db)).

(* ------------------------------------------------------------------ *)
(** *** Dashboard *)

Record ProductSummary := mkProductSummary {
  summary_name : string;
  summary_stock_in : Decimal;
  summary_stock_out : Decimal;
  summary_closing_stock : Decimal
}.

Record DashboardPage := mkDashboardPage {
  dash_products : list Product.t;
  dash_total_stock_value : Decimal;
  dash_total_revenue : Decimal;
  dash_total_cogs : Decimal;
  dash_profit : Decimal;
  dash_product_stock_summary : list ProductSummary;
  dash_f1 : date;
  dash_f2 : date
}.

(** The date range of the dashboard: an absent bound is today, and a
    bound that does not parse makes both bounds today. *)
Definition dashboard_dates (req : Request) : date * date :=
  let bound key := match truthy (lookup key (args req)) with
                   | Some s => strptime_ymd s
                   | None => Some (today req)
                   end in
  match bound "from", bound "to" with
  | Some f1d, Some f2d => (f1d, f2d)
  | _, _ => (today req, today req)
  end.

Definition dashboard (sess : Session) (req : Request) (db : DB)
  : result DashboardPage :=
  d <- acting_dairy sess db ;;
  let dairy_id := Dairy.id d in
  let products := filter (fun p => Product.dairy_id p =? dairy_id)
                    (products db) in
  let '(f1d, f2d) := dashboard_dates req in
  let stock_ins :=
    filter (fun e => (StockIn.dairy_id e =? dairy_id)
                     && date_leb f1d (StockIn.date e)
                     && date_leb (StockIn.date e) f2d) (stock_in db) in
  let sales :=
    filter (fun s => (Sale.dairy_id s =? dairy_id)
                     && date_leb f1d (Sale.date s)
                     && date_leb (Sale.date s) f2d) (sales db) in
  let total_stock_value :=
    sum (map (fun p => (Product.current_stock p * Product.cost_price p)%Qc)
           products) in
  let total_revenue :=
    sum (map (fun s => (Sale.qty s * Sale.selling_price s)%Qc) sales) in
  cogs <- foldM (fun acc s =>
                   p <- deref (get_product db (Sale.product_id s)) ;;
                   ret (acc ++ [(Sale.qty s * Product.cost_price p)%Qc]))
            sales [] ;;
  let total_cogs := sum cogs in
  let profit := (total_revenue - total_cogs)%Qc in
  let product_stock_summary :=
    map (fun p =>
           mkProductSummary (Product.name p)
             (sum (map StockIn.qty
                     (filter (fun si => StockIn.product_id si =? Product.id p)
                        stock_ins)))
             (sum (map Sale.qty
                     (filter (fun s => Sale.product_id s =? Product.id p)
                        sales)))
             (Product.current_stock p))
        products in
  ret (mkDashboardPage products total_stock_value total_revenue total_cogs
         profit product_stock_summary f1d f2d).

End Reports.

(* ================================================================== *)
(** ** The stock balance over a history of requests *)

(** The requests that touch stock-in and sale records. *)
Inductive operation :=
| StockInCreate
| StockInEdit (sid : Z)
| SaleCreate
| SaleEdit (sid : Z)
| SaleDelete (sid : Z).

Definition handle {rt : Runtime} (op : operation)
  : Session -> Request -> DB -> DB * response :=
  match op with
  | StockInCreate => stock_in_page
  | StockInEdit sid => edit_stock_in sid
  | SaleCreate => sales_page
  | SaleEdit sid => edit_sale sid
  | SaleDelete sid => delete_sale sid
  end.

(** The store after a sequence of requests, each with its session. *)
Fixpoint replay {rt : Runtime}
    (history : list (operation * Session * Request)) (db : DB) : DB :=
  match history with
  | [] => db
  | (op, sess, req) :: rest => replay rest (fst (handle op sess req db))
  end.

(** Sum of the quantities of the events that name a product. *)
Definition event_total {A} (product_id : A -> Z) (qty : A -> Decimal)
    (events : list A) (pid : Z) : Decimal :=
  sum (map qty (filter (fun e => product_id e =? pid) events)).

(** Sum of the quantities of the stock-in events of a product. *)
Definition stock_in_total (db : DB) (pid : Z) : Decimal :=
  event_total StockIn.product_id StockIn.qty (stock_in db) pid.

(** Sum of the quantities of the sale events of a product. *)
Definition sales_total (db : DB) (pid : Z) : Decimal :=
  event_total Sale.product_id Sale.qty (sales db) pid.


(** Every product's running stock is what its events add up to. *)
Definition balanced (db : DB) : Prop :=
  forall p, In p (products db) ->
    Product.current_stock p
    = (stock_in_total db (Product.id p) - sales_total db (Product.id p))%Qc.

(** The primary keys of the products are unique. *)
Definition product_keys_unique (db : DB) : Prop :=
  NoDup (map Product.id (products db)).

(** Every event points to a dairy and a product of the store. *)
Definition references_resolve (db : DB) : Prop :=
  (forall e, In e (stock_in db) ->
     get_dairy db (StockIn.dairy_id e) <> None
     /\ get_product db (StockIn.product_id e) <> None)
  /\ (forall s, In s (sales db) ->
        get_dairy db (Sale.dairy_id s) <> None
        /\ get_product db (Sale.product_id s) <> None).

(** Left-to-right sum of floating point numbers, from [0.0]. *)
Definition float_sum {rt : Runtime} (l : list float) : float :=
  fold_left float_add l float_zero.

(* ================================================================== *)
(** ** A runtime for the examples

    Exact "floats" and parsers for plain decimal text: an optional
    minus sign and digits for [int], the same with an optional fraction
    for [Decimal], and [YYYY-MM-DD] for dates.  Python accepts these
    texts with the same values. *)

Definition digit_of (c : ascii) : option Z :=
  let n := Z.of_nat (nat_of_ascii c) in
  if (48 <=? n) && (n <=? 57) then Some (n - 48) else None.

Fixpoint digits_from (acc : Z) (s : string) : option Z :=
  match s with
  | EmptyString => Some acc
  | String c rest =>
      match digit_of c with
      | Some d => digits_from (10 * acc + d) rest
      | None => None
      end
  end.

(** A non-empty run of digits. *)
Definition natural_of (s : string) : option Z :=
  match s with
  | EmptyString => None
  | _ => digits_from 0 s
  end.

Definition example_isdigit (s : string) : bool :=
  match natural_of s with
  | Some _ => true
  | None => false
  end.

Definition example_int (s : string) : option Z :=
  match s with
  | String "-" rest => option_map Z.opp (natural_of rest)
  | _ => natural_of s
  end.

(** Splits at the first dot. *)
Fixpoint split_dot (s : string) : string * option string :=
  match s with
  | EmptyString => (EmptyString, None)
  | String "." rest => (EmptyString, Some rest)
  | String c rest =>
      let '(a, b) := split_dot rest in (String c a, b)
  end.

Definition unsigned_decimal (s : string) : option Decimal :=
  match split_dot s with
  | (whole, None) => option_map (fun n => Q2Qc (inject_Z n)) (natural_of whole)
  | (whole, Some frac) =>
      match natural_of whole, natural_of frac with
      | Some n, Some f =>
          Some (Q2Qc (inject_Z n)
                + Q2Qc (Qmake f
                          (Pos.pow 10 (Pos.of_nat (String.length frac)))))%Qc
      | _, _ => None
      end
  end.

Definition example_Decimal (s : string) : option Decimal :=
  match s with
  | String "-" rest => option_map Qcopp (unsigned_decimal rest)
  | _ => unsigned_decimal s
  end.

Definition is_leap (y : Z) : bool :=
  ((y mod 4 =? 0) && negb (y mod 100 =? 0)) || (y mod 400 =? 0).

Definition days_in_month (y m : Z) : Z :=
  if m =? 2 then (if is_leap y then 29 else 28)
  else if (m =? 4) || (m =? 6) || (m =? 9) || (m =? 11) then 30
  else 31.

Definition example_strptime (s : string) : option date :=
  if negb (String.length s =? 10)%nat then None else
  match natural_of (substring 0 4 s), natural_of (substring 5 2 s),
        natural_of (substring 8 2 s) with
  | Some y, Some m, Some d =>
      if String.eqb (substring 4 1 s) "-"
         && String.eqb (substring 7 1 s) "-"
         && (1 <=? y) && (1 <=? m) && (m <=? 12)
         && (1 <=? d) && (d <=? days_in_month y m)
      then Some (mkdate y m d) else None
  | _, _, _ => None
  end.

Definition example_runtime : Runtime :=
  {| float := Decimal;
     float_zero := Q2Qc 0;
     float_add := Qcplus;
     float_mul := Qcmult;
     float_of_Decimal := fun d => d;
     Decimal_of_str := example_Decimal;
     int_of_str := example_int;
     str_isdigit := example_isdigit;
     strptime_ymd := example_strptime |}.

(** A Decimal with an integer value. *)
Definition dec (n : Z) : Decimal := Q2Qc (inject_Z n).

(* ================================================================== *)
(** ** Ownership checks *)

(** The requests that change or delete an existing record. *)
Inductive mutation :=
| EditProduct (pid : Z)
| DeleteProduct (pid : Z)
| EditStockIn (sid : Z)
| EditSale (sid : Z)
| DeleteSale (sid : Z).

(** The dairy that owns the record a mutation is aimed at. *)
Definition owner (db : DB) (m : mutation) : option Z :=
  match m with
  | EditProduct pid | DeleteProduct pid =>
      option_map Product.dairy_id (get_product db pid)
  | EditStockIn sid => option_map StockIn.dairy_id (get_stock_in db sid)
  | EditSale sid | DeleteSale sid =>
      option_map Sale.dairy_id (get_sale db sid)
  end.

Definition perform {rt : Runtime} (m : mutation)
  : Session -> Request -> DB -> DB * response :=
  match m with
  | EditProduct pid => edit_product pid
  | DeleteProduct pid => delete_product pid
  | EditStockIn sid => edit_stock_in sid
  | EditSale sid => edit_sale sid
  | DeleteSale sid => delete_sale sid
  end.

(** The delete routes accept POST only; the edit routes show their form
    on GET and change the record on POST. *)
Definition routed (m : mutation) (req : Request) : Prop :=
  match m with
  | DeleteProduct _ | DeleteSale _ => method req = POST
  | _ => True
  end.

(** What a product holds apart from its running stock. *)
Definition product_frame (p : Product.t) :=
  (Product.id p, Product.dairy_id p, Product.name p, Product.unit p,
   Product.cost_price p, Product.sell_price p, Product.min_stock p).

(* ================================================================== *)
(** ** Forms of the event pages *)

Section Forms.
Context {rt : Runtime}.

(** The fields an edit form of an event must carry for the edit to go
    through, in the order the handler reads them: quantity, price, date,
    remarks. *)
Definition event_edit_form (price_key : string) (req : Request)
  : result (Decimal * Decimal * date * string) :=
  qty_s <- form_item req "qty" ;;
  qty <- Decimal_or_0 qty_s ;;
  price_s <- form_item req price_key ;;
  price <- Decimal_or_0 price_s ;;
  dt <- strptime (lookup "date" (form req)) ;;
  ret (qty, price, dt,
       match truthy (lookup "remarks" (form req)) with
       | Some s => s
       | None => EmptyString
       end).

(** The fields of an entry form: product, quantity, price, date
    (today when absent or empty), remarks. *)
Definition event_create_form (price_key : string) (req : Request)
  : result (Z * Decimal * Decimal * date * string) :=
  pid_s <- form_item req "product_id" ;;
  pid <- int pid_s ;;
  qty_s <- form_item req "qty" ;;
  qty <- Decimal_or_0 qty_s ;;
  price_s <- form_item req price_key ;;
  price <- Decimal_or_0 price_s ;;
  dt <- match truthy (lookup "date" (form req)) with
        | Some s => strptime (Some s)
        | None => ret (today req)
        end ;;
  ret (pid, qty, price, dt,
       match truthy (lookup "remarks" (form req)) with
       | Some s => s
       | None => EmptyString
       end).

End Forms.

(* ================================================================== *)
(** ** A small store for the examples

    Two dairies.  The first sells milk: 100 litres received on 1 January
    2024 at 40, 30 litres sold the next day at 55.  The second sells
    curd: 10 kg received, 5 kg sold. *)

Definition example_db : DB :=
  mkDB
    [Dairy.mk 1 "Gokul" "gokul" "secret" None;
     Dairy.mk 2 "Nandini" "nandini" "secret" (Some "static/logos/n.png")]
    [Product.mk 1 1 "Milk" "litre" (dec 40) (dec 55) (dec 0) (dec 70);
     Product.mk 2 2 "Curd" "kg" (dec 60) (dec 80) (dec 0) (dec 5)]
    [StockIn.mk 1 1 1 (dec 100) (dec 40) (mkdate 2024 1 1) EmptyString;
     StockIn.mk 2 2 2 (dec 10) (dec 60) (mkdate 2024 1 2) EmptyString]
    [Sale.mk 1 1 1 (dec 30) (dec 55) (mkdate 2024 1 2) EmptyString;
     Sale.mk 2 2 2 (dec 5) (dec 80) (mkdate 2024 1 3) EmptyString].

(** The first dairy logged in; the second dairy logged in; an
    administrator who impersonates no dairy. *)
Definition gokul_session : Session := mkSession false (Some 1).
Definition nandini_session : Session := mkSession false (Some 2).
Definition admin_session : Session := mkSession true None.

Definition example_today : date := mkdate 2024 1 20.

Definition post (fields : list (string * string)) : Request :=
  mkRequest POST fields [] example_today.

Definition get (arguments : list (string * string)) : Request :=
  mkRequest GET [] arguments example_today.

(* ================================================================== *)
(** ** Accounts and the session cookie *)

Module User.
Record t := mk {
  id : Z;
  username : string;
  password : string
}.
End User.

Module Cookie.
(** The keys of Flask's [session] the application uses: the key under
    which [login_user] keeps the administrator, and the three keys of
    the dairy.  [dairy_logo] may be present and hold [None]. *)
Record t := mk {
  user_id : option Z;
  dairy_id : option Z;
  dairy_name : option string;
  dairy_logo : option (option string)
}.
End Cookie.

(** [load_user(user_id)] *)
Definition load_user (users : list User.t) (user_id : Z) : option User.t :=
  find (fun u => User.id u =? user_id) users.

(** [current_user.is_authenticated]: the cookie names a user that
    loads. *)
Definition current_user_is_authenticated (users : list User.t)
    (c : Cookie.t) : bool :=
  match Cookie.user_id c with
  | Some k => match load_user users k with
              | Some _ => true
              | None => false
              end
  | None => false
  end.

(** What the handlers of the pages read of the cookie. *)
Definition session_of (users : list User.t) (c : Cookie.t) : Session :=
  mkSession (current_user_is_authenticated users c) (Cookie.dairy_id c).

(** [Model.query.filter_by(username=..., password=...).first()] *)
Definition first_user (username password : string) (users : list User.t)
  : option User.t :=
  find (fun u => String.eqb (User.username u) username
                 && String.eqb (User.password u) password) users.

Definition first_dairy (username password : string) (db : DB)
  : option Dairy.t :=
  find (fun d => String.eqb (Dairy.username d) username
                 && String.eqb (Dairy.password d) password) (dairies db).

(** [session['dairy_id'] = d.id] and the two keys that go with it. *)
Definition enter_dairy (d : Dairy.t) (c : Cookie.t) : Cookie.t :=
  Cookie.mk (Cookie.user_id c) (Some (Dairy.id d)) (Some (Dairy.name d))
    (Some (Dairy.logo_path d)).

(** A handler of the session: the cookie it leaves and its response.  A
    handler that aborts leaves the cookie as it was. *)
Definition run_session (c : Cookie.t) (body : result (Cookie.t * response))
  : Cookie.t * response :=
  match body with
  | inl out => out
  | inr r => (c, r)
  end.

Definition login (users : list User.t) (c : Cookie.t) (req : Request)
    (db : DB) : Cookie.t * response :=
  run_session c (
    match method req with
    | POST =>
        username <- form_item req "username" ;;
        password <- form_item req "password" ;;
        match first_user username password users with
        | Some user =>
            (* login_user(user); session.pop('dairy_id', None) *)
            ret (Cookie.mk (Some (User.id user)) None (Cookie.dairy_name c)
                   (Cookie.dairy_logo c),
                 Redirect "admin_dashboard")
        | None =>
            match first_dairy username password db with
            | Some dairy => ret (enter_dairy dairy c, Redirect "dashboard")
            | None => ret (c, Render "login.html")
            end
        end
    | GET => ret (c, Render "login.html")
    end).

Definition logout (users : list User.t) (c : Cookie.t)
  : Cookie.t * response :=
  (Cookie.mk
     (if current_user_is_authenticated users c then None
      else Cookie.user_id c)
     None None None,
   Redirect "login").

Definition index (users : list User.t) (c : Cookie.t) : response :=
  if current_user_is_authenticated users c then Redirect "admin_dashboard"
  else match Cookie.dairy_id c with
       | Some k => if k =? 0 then Redirect "login" else Redirect "dashboard"
       | None => Redirect "login"
       end.

(** [@login_required]: a caller who is not logged in as administrator
    is sent to the login view. *)
Definition login_required (users : list User.t) (c : Cookie.t)
  : result unit :=
  if current_user_is_authenticated users c then ret tt
  else fail (Redirect "login").

Definition admin_dashboard (users : list User.t) (c : Cookie.t) (db : DB)
  : result (list Dairy.t) :=
  _ <- login_required users c ;;
  ret (dairies db).

Definition admin_view_dairy (did : Z) (users : list User.t) (c : Cookie.t)
    (db : DB) : Cookie.t * response :=
  run_session c (
    _ <- login_required users c ;;
    d <- get_or_404 (get_dairy db did) ;;
    ret (enter_dairy d c, Redirect "dashboard")).

Definition add_dairy_row (name username password : string)
    (logo_path : option string) (db : DB) : DB :=
  mkDB (dairies db ++
        [Dairy.mk (next_id (map Dairy.id (dairies db))) name username
           password logo_path])
       (products db) (stock_in db) (sales db).

(** [add_dairy].  [upload] is the path the uploaded logo was saved
    under ([os.path.join(UPLOAD_FOLDER, secure_filename(logo.filename))]),
    [None] when the request carries no named file.  The user name of a
    dairy is unique in its table. *)
Definition add_dairy (users : list User.t) (c : Cookie.t) (req : Request)
    (upload : option string) (db : DB) : DB * response :=
  run db (
    _ <- login_required users c ;;
    match method req with
    | POST =>
        name <- form_item req "name" ;;
        username <- form_item req "username" ;;
        password <- form_item req "password" ;;
        if existsb (fun d => String.eqb (Dairy.username d) username)
             (dairies db)
        then fail (Raise "IntegrityError")
        else ret (add_dairy_row name username password upload db,
                  Redirect "admin_dashboard")
    | GET => ret (db, Render "add_dairy.html")
    end).

(** [initdb]: the default administrator when no user is called admin,
    and a sample dairy when there is no dairy. *)
Definition initdb (users : list User.t) (db : DB) : list User.t * DB :=
  let users' :=
    match find (fun u => String.eqb (User.username u) "admin") users with
    | Some _ => users
    | None => users ++ [User.mk (next_id (map User.id users)) "admin" "admin"]
    end in
  let db' :=
    match dairies db with
    | [] => add_dairy_row "Sample Dairy" "dairy" "dairy" None db
    | _ => db
    end in
  (users', db').

(* ================================================================== *)
(** ** Listings *)

Section Listings.
Context {rt : Runtime}.

(** The products page: the products of the acting dairy. *)
Definition products_view (sess : Session) (db : DB)
  : result (list Product.t) :=
  d <- acting_dairy sess db ;;
  ret (filter (fun p => Product.dairy_id p =? Dairy.id d) (products db)).

(** [trans] of the stock-in page:
    [filter_by(dairy_id=d['id']).order_by(StockIn.date.desc()).limit(200)] *)
Definition stock_in_trans (sess : Session) (db : DB)
  : result (list StockIn.t) :=
  d <- acting_dairy sess db ;;
  ret (firstn 200
         (sorted_reverse StockIn.date
            (filter (fun e => StockIn.dairy_id e =? Dairy.id d)
               (stock_in db)))).

(** [sales] of the sales page. *)
Definition sales_trans (sess : Session) (db : DB) : result (list Sale.t) :=
  d <- acting_dairy sess db ;;
  ret (firstn 200
         (sorted_reverse Sale.date
            (filter (fun s => Sale.dairy_id s =? Dairy.id d) (sales db)))).

End Listings.

(** Primary keys are unique in every table. *)
Definition all_keys_unique (db : DB) : Prop :=
  NoDup (map Dairy.id (dairies db))
  /\ NoDup (map Product.id (products db))
  /\ NoDup (map StockIn.id (stock_in db))
  /\ NoDup (map Sale.id (sales db)).

(** A report row without its logo: the rows of the PDF carry none. *)
Definition without_logo {rt : Runtime} (r : ReportRow.t) : ReportRow.t :=
  ReportRow.mk _ (ReportRow.dairy r) None (ReportRow.date r)
    (ReportRow.product r) (ReportRow.in_qty r) (ReportRow.out_qty r)
    (ReportRow.cost_price r) (ReportRow.sell_price r) (ReportRow.profit r)
    (ReportRow.remarks r).

(** The administrator of the examples, and cookies: nobody, the
    administrator, the first dairy. *)
Definition example_users : list User.t := [User.mk 1 "admin" "admin"].

Definition anonymous_cookie : Cookie.t := Cookie.mk None None None None.

Definition admin_cookie : Cookie.t := Cookie.mk (Some 1) None None None.

Definition gokul_cookie : Cookie.t :=
  Cookie.mk None (Some 1) (Some "Gokul") (Some None).

(** The fields of a product form, in the order they are read and
    converted: name, unit, cost price, selling price, minimum stock. *)
Definition product_form {rt : Runtime} (req : Request)
  : result (string * string * Decimal * Decimal * Decimal) :=
  name <- form_item req "name" ;;
  unit <- form_item req "unit" ;;
  cost_s <- form_item req "cost_price" ;;
  sell_s <- form_item req "sell_price" ;;
  cost_price <- numeric_field cost_s ;;
  sell_price <- numeric_field sell_s ;;
  min_stock <- numeric_field
                 match truthy (lookup "min_stock" (form req)) with
                 | Some s => s
                 | None => EmptyString
                 end ;;
  ret (name, unit, cost_price, sell_price, min_stock).

(** Nobody logged in. *)
Definition anonymous_session : Session := mkSession false None.

(** The example store after the milk product was deleted: its receipt
    and its sale are still there. *)
Definition example_db_without_milk : DB := delete_product_row 1 example_db.

(** January 2024, asked for by query arguments. *)
Definition january : Request :=
  get [("dairy", "1"); ("from", "2024-01-01"); ("to", "2024-01-31")].

(* ================================================================== *)
(** * Properties *)

(** ** Rows of a table *)

Lemma replace_row_absent {A} (f : A -> bool) (r' : A) (l : list A) :
  find f l = None -> replace_row f r' l = l.
Proof.
  induction l as [|r l IH]; simpl; [reflexivity|].
  destruct (f r); [discriminate|].
  intros H. now rewrite IH.
Qed.

Lemma replace_row_map {A B} (f : A -> bool) (g : A -> B) (r r' : A)
    (l : list A) :
  find f l = Some r -> g r' = g r ->
  map g (replace_row f r' l) = map g l.
Proof.
  intros Hfind Hg. induction l as [|x l IH]; simpl in *; [reflexivity|].
  destruct (f x).
  - injection Hfind as ->. simpl. now rewrite Hg.
  - simpl. now rewrite IH.
Qed.

Lemma find_replace_row {A} (f : A -> bool) (r r' : A) (l : list A) :
  find f l = Some r -> f r' = true ->
  find f (replace_row f r' l) = Some r'.
Proof.
  intros Hfind Hr'. induction l as [|x l IH]; simpl in *; [discriminate|].
  destruct (f x) eqn:Hx; simpl.
  - now rewrite Hr'.
  - rewrite Hx. now apply IH.
Qed.

Lemma find_key {A} (f : A -> bool) (r : A) (l : list A) :
  find f l = Some r -> f r = true /\ In r l.
Proof.
  intros H. apply find_some in H. tauto.
Qed.

(** ** Sums of quantities *)




Section EventTotals.
Variables (A : Type) (product_id : A -> Z) (qty : A -> Decimal).
Variable key : A -> Z.





End EventTotals.


(** ** Dates and the sort *)

Lemma date_compare_eq (a b : date) : date_compare a b = Eq <-> a = b.
Proof.
  destruct a as [ya ma da], b as [yb mb db]. unfold date_compare; simpl.
  destruct (Z.compare_spec ya yb); [|split; [discriminate | intros [=]; lia]..].
  destruct (Z.compare_spec ma mb); [|split; [discriminate | intros [=]; lia]..].
  destruct (Z.compare_spec da db); [|split; [discriminate | intros [=]; lia]..].
  subst. tauto.
Qed.

(** The rank of a date pair by pair, for arithmetic. *)
Lemma date_ltb_spec (a b : date) :
  date_ltb a b = true
  <-> (year a < year b
       \/ (year a = year b
           /\ (month a < month b
               \/ (month a = month b /\ day a < day b)))).
Proof.
  unfold date_ltb, date_compare.
  destruct (Z.compare_spec (year a) (year b));
    destruct (Z.compare_spec (month a) (month b));
    destruct (Z.compare_spec (day a) (day b));
    split; intros; try discriminate; try reflexivity; lia.
Qed.

Lemma date_leb_spec (a b : date) :
  date_leb a b = true
  <-> (year a < year b
       \/ (year a = year b
           /\ (month a < month b
               \/ (month a = month b /\ day a <= day b)))).
Proof.
  unfold date_leb, date_compare.
  destruct (Z.compare_spec (year a) (year b));
    destruct (Z.compare_spec (month a) (month b));
    destruct (Z.compare_spec (day a) (day b));
    split; intros; try discriminate; try reflexivity; lia.
Qed.

Lemma date_leb_trans (a b c : date) :
  date_leb a b = true -> date_leb b c = true -> date_leb a c = true.
Proof. rewrite !date_leb_spec. lia. Qed.

Lemma date_ltb_leb (a b : date) :
  date_ltb a b = true -> date_leb a b = true.
Proof. rewrite date_ltb_spec, date_leb_spec. lia. Qed.

Lemma date_not_ltb_leb (a b : date) :
  date_ltb a b = false -> date_leb b a = true.
Proof.
  intros H. apply date_leb_spec.
  assert (Hn : ~ date_ltb a b = true) by (rewrite H; discriminate).
  rewrite date_ltb_spec in Hn. lia.
Qed.

Lemma date_ltb_irrefl (a : date) : date_ltb a a = false.
Proof.
  destruct (date_ltb a a) eqn:H; [|reflexivity].
  apply date_ltb_spec in H. lia.
Qed.

Section Sorting.
Variables (A : Type) (key : A -> date).

Lemma insert_desc_perm (x : A) (l : list A) :
  Permutation (insert_desc key x l) (x :: l).
Proof.
  induction l as [|y l IH]; simpl; [reflexivity|].
  destruct (date_ltb (key x) (key y)); [|reflexivity].
  rewrite IH. apply perm_swap.
Qed.

Lemma sorted_reverse_perm (l : list A) : Permutation (sorted_reverse key l) l.
Proof.
  induction l as [|x l IH]; simpl; [reflexivity|].
  rewrite insert_desc_perm. now constructor.
Qed.

Lemma insert_desc_sorted (x : A) (l : list A) :
  StronglySorted (latest_first key) l ->
  StronglySorted (latest_first key) (insert_desc key x l).
Proof.
  induction 1 as [|y l Hl IH Hy]; simpl.
  - constructor; constructor.
  - destruct (date_ltb (key x) (key y)) eqn:Hxy.
    + constructor; [exact IH|].
      rewrite Forall_forall in *. intros z Hz.
      apply (Permutation_in _ (insert_desc_perm x l)) in Hz.
      destruct Hz as [<- | Hz].
      * now apply date_ltb_leb.
      * now apply Hy.
    + apply date_not_ltb_leb in Hxy.
      constructor; [now constructor|].
      constructor; [exact Hxy|].
      rewrite Forall_forall in *. intros z Hz.
      unfold latest_first. apply date_leb_trans with (b := key y); [|exact Hxy].
      now apply Hy.
Qed.

Lemma sorted_reverse_sorted (l : list A) :
  StronglySorted (latest_first key) (sorted_reverse key l).
Proof.
  induction l as [|x l IH]; simpl; [constructor|].
  now apply insert_desc_sorted.
Qed.

(** The sort is stable: the rows of one date come out in the order they
    went in. *)
Lemma insert_desc_same_date (d : date) (x : A) (l : list A) :
  filter (fun r => date_eqb (key r) d) (insert_desc key x l)
  = filter (fun r => date_eqb (key r) d) (x :: l).
Proof.
  induction l as [|y l IH]; [reflexivity|].
  cbn [insert_desc].
  destruct (date_ltb (key x) (key y)) eqn:Hxy; [|reflexivity].
  cbn [filter] in *. rewrite IH.
  destruct (date_eqb (key x) d) eqn:Hx; [|reflexivity].
  destruct (date_eqb (key y) d) eqn:Hy; [|reflexivity].
  exfalso. unfold date_eqb in Hx, Hy.
  destruct (date_compare (key x) d) eqn:Cx; try discriminate.
  destruct (date_compare (key y) d) eqn:Cy; try discriminate.
  apply date_compare_eq in Cx, Cy. rewrite Cx, Cy in Hxy.
  rewrite date_ltb_irrefl in Hxy. discriminate.
Qed.

Lemma sorted_reverse_same_date (d : date) (l : list A) :
  filter (fun r => date_eqb (key r) d) (sorted_reverse key l)
  = filter (fun r => date_eqb (key r) d) l.
Proof.
  induction l as [|x l IH]; [reflexivity|].
  cbn [sorted_reverse fold_right].
  rewrite insert_desc_same_date. cbn [filter].
  fold (sorted_reverse key l). now rewrite IH.
Qed.

(** In a list made of rows with [P] followed by rows without, sorted:
    among the rows of one date, a row with [P] is never behind a row
    without. *)
Lemma sorted_reverse_two_runs (P : A -> bool) (first second : list A)
    (l1 l2 l3 : list A) (a b : A) :
  Forall (fun r => P r = true) first ->
  Forall (fun r => P r = false) second ->
  sorted_reverse key (first ++ second) = l1 ++ a :: l2 ++ b :: l3 ->
  key a = key b ->
  P b = true -> P a = true.
Proof.
  intros Hfirst Hsecond Hsort Hkey Hb.
  pose proof (sorted_reverse_same_date (key b) (first ++ second)) as Hf.
  rewrite Hsort in Hf.
  assert (Hself : forall r, key r = key b -> date_eqb (key r) (key b) = true).
  { intros r ->. unfold date_eqb.
    now rewrite (proj2 (date_compare_eq (key b) (key b)) eq_refl). }
  rewrite !filter_app in Hf. cbn [filter] in Hf.
  rewrite filter_app in Hf. cbn [filter] in Hf.
  rewrite (Hself a Hkey), (Hself b eq_refl) in Hf.
  set (p := fun r => date_eqb (key r) (key b)) in *.
  change (filter p l1 ++ a :: filter p l2 ++ b :: filter p l3)
    with (filter p l1 ++ (a :: filter p l2) ++ b :: filter p l3) in Hf.
  rewrite app_assoc in Hf.
  apply app_eq_app in Hf as [l [[H1 H2] | [H1 H2]]].
  - (* [b] falls in the second run *)
    exfalso.
    assert (Hin : In b (filter p second)).
    { rewrite H2. apply in_or_app. right. now left. }
    apply filter_In in Hin as [Hin _].
    rewrite Forall_forall in Hsecond. rewrite (Hsecond b Hin) in Hb.
    discriminate.
  - (* [a] falls in the first run *)
    assert (Hin : In a (filter p first)).
    { rewrite H1. apply in_or_app. left. apply in_or_app. right. now left. }
    apply filter_In in Hin as [Hin _].
    rewrite Forall_forall in Hfirst. now apply Hfirst.
Qed.

End Sorting.

(** One step through the body of a handler: either the handler leaves
    here, with the store as it was, or it goes on. *)
Tactic Notation "branch" constr(t) "as" simple_intropattern(p) :=
  destruct t as p;
  cbn [bind run fst ret fail get_or_404 deref];
  try (left; reflexivity).

Tactic Notation "branch" constr(t) "as" simple_intropattern(p)
    "eqn" ":" ident(H) :=
  destruct t as p eqn:H;
  cbn [bind run fst ret fail get_or_404 deref];
  try (left; reflexivity).

Section Properties.
Context {rt : Runtime}.

(** ** Ownership *)

(** C5.  A request that edits or deletes a product, a stock-in event or
    a sale whose dairy is not the acting dairy is answered with 403 and
    leaves the store as it was. *)
Theorem foreign_mutation_forbidden :
  forall (m : mutation) (sess : Session) (req : Request) (db : DB)
         (d : Dairy.t) (k : Z),
    current_dairy sess db = Some d ->
    owner db m = Some k ->
    k <> Dairy.id d ->
    routed m req ->
    perform m sess req db = (db, Abort 403).
Proof.
  intros m sess req db d k Hd Hown Hk Hroute.
  assert (Hneq : forall x, x = k -> negb (x =? Dairy.id d) = true).
  { intros x ->. apply negb_true_iff, Z.eqb_neq, Hk. }
  destruct m as [pid|pid|sid|sid|sid]; simpl in *;
    unfold edit_product, delete_product, edit_stock_in, edit_sale,
      delete_sale, acting_dairy, post_only;
    rewrite Hd; try rewrite Hroute; simpl.
  - destruct (get_product db pid) as [p|]; [|discriminate]. simpl in *.
    injection Hown as Hown. now rewrite (Hneq _ Hown).
  - destruct (get_product db pid) as [p|]; [|discriminate]. simpl in *.
    injection Hown as Hown. now rewrite (Hneq _ Hown).
  - destruct (get_stock_in db sid) as [e|]; [|discriminate]. simpl in *.
    injection Hown as Hown. now rewrite (Hneq _ Hown).
  - destruct (get_sale db sid) as [s|]; [|discriminate]. simpl in *.
    injection Hown as Hown. now rewrite (Hneq _ Hown).
  - destruct (get_sale db sid) as [s|]; [|discriminate]. simpl in *.
    injection Hown as Hown. now rewrite (Hneq _ Hown).
Qed.

(** ** Effect of the handlers on the store *)

Lemma update_product_frame (db db1 : DB) (k : Z) (prod p' : Product.t) :
  products db1 = products db ->
  get_product db k = Some prod ->
  product_frame p' = product_frame prod ->
  map product_frame (products (update_product p' db1))
  = map product_frame (products db).
Proof.
  intros Hsame Hget Hframe. unfold update_product; simpl. rewrite Hsame.
  assert (Hid : Product.id p' = k).
  { apply find_key in Hget as [Hk _]. apply Z.eqb_eq in Hk.
    unfold product_frame in Hframe. congruence. }
  rewrite Hid. now apply replace_row_map with (r := prod).
Qed.

Lemma get_product_update (db : DB) (k : Z) (prod p' : Product.t) :
  get_product db k = Some prod ->
  Product.id p' = Product.id prod ->
  get_product (update_product p' db) k = Some p'.
Proof.
  intros Hget Hid. unfold get_product, update_product in *; simpl.
  pose proof (find_key _ _ _ Hget) as [Hk _]. apply Z.eqb_eq in Hk.
  rewrite Hid, Hk.
  apply find_replace_row with (r := prod); [exact Hget|].
  rewrite Hid, Hk. apply Z.eqb_refl.
Qed.



(** Whatever an edit of a sale does, the store it leaves is the old one
    or the old one with the sale rewritten and the stock of its product
    adjusted. *)
Lemma edit_sale_cases (sid : Z) (sess : Session) (req : Request) (db : DB) :
  fst (edit_sale sid sess req db) = db
  \/ exists sale prod q c dt rem,
       get_sale db sid = Some sale
       /\ get_product db (Sale.product_id sale) = Some prod
       /\ event_edit_form "selling_price" req = inl (q, c, dt, rem)
       /\ edit_sale sid sess req db
          = (update_product
               (Product.set_current_stock
                  (Product.current_stock prod + Sale.qty sale - q)%Qc prod)
               (update_sale
                  (Sale.mk (Sale.id sale) (Sale.dairy_id sale)
                     (Sale.product_id sale) q c dt rem) db),
             Redirect "sales_page").
Proof.
  unfold edit_sale, acting_dairy, event_edit_form.
  branch (current_dairy sess db) as [d|].
  branch (get_sale db sid) as [sale|] eqn:Hsale.
  branch (negb (Sale.dairy_id sale =? Dairy.id d)) as [|].
  branch (method req) as [|].
  branch (form_item req "qty") as [qty_s|].
  branch (Decimal_or_0 qty_s) as [q|].
  branch (form_item req "selling_price") as [price_s|].
  branch (Decimal_or_0 price_s) as [c|].
  branch (strptime (lookup "date" (form req))) as [dt|].
  change (get_product (update_sale ?s db)) with (get_product db).
  cbn [Sale.product_id].
  branch (get_product db (Sale.product_id sale)) as [prod|] eqn:Hprod.
  right.
  exists sale, prod, q, c, dt,
    (match truthy (lookup "remarks" (form req)) with
     | Some s => s
     | None => EmptyString
     end).
  repeat split; try reflexivity; exact Hprod.
Qed.

(** C10.  An edit of a sale leaves the selling price of every product,
    and all a product holds except its running stock, as it was;
    whatever the request and its outcome. *)
Theorem edit_sale_keeps_product_sell_price :
  forall (sid : Z) (sess : Session) (req : Request) (db : DB),
    map Product.sell_price (products (fst (edit_sale sid sess req db)))
    = map Product.sell_price (products db)
    /\ map product_frame (products (fst (edit_sale sid sess req db)))
       = map product_frame (products db).
Proof.
  intros sid sess req db.
  assert (Hframe : map product_frame
                     (products (fst (edit_sale sid sess req db)))
                   = map product_frame (products db)).
  { destruct (edit_sale_cases sid sess req db)
      as [-> | (sale & prod & q & c & dt & rem & _ & Hprod & _ & ->)];
      [reflexivity|]. simpl fst.
    apply update_product_frame
      with (k := Sale.product_id sale) (prod := prod);
      [reflexivity|exact Hprod|reflexivity]. }
  split; [|exact Hframe].
  apply (f_equal (map (fun x => snd (fst x)))) in Hframe.
  rewrite !map_map in Hframe. exact Hframe.
Qed.




(** A stock-in entry, when it goes through. *)
Lemma stock_in_page_commits (sess : Session) (req : Request) (db : DB)
    (d : Dairy.t) (prod : Product.t) (pid : Z) (q c : Decimal) (dt : date)
    (rem : string) :
  current_dairy sess db = Some d ->
  method req = POST ->
  event_create_form "cost_price" req = inl (pid, q, c, dt, rem) ->
  get_product db pid = Some prod ->
  stock_in_page sess req db
  = (update_product
       (Product.set_cost_price c
          (Product.set_current_stock (Product.current_stock prod + q)%Qc
             prod))
       (add_stock_in_row (Dairy.id d) pid q c dt rem db),
     Redirect "stock_in_page").
Proof.
  intros Hd Hm Hform Hprod.
  unfold stock_in_page, acting_dairy. rewrite Hd. cbn [bind]. rewrite Hm.
  unfold event_create_form in Hform.
  destruct (form_item req "product_id") as [pid_s|]; cbn [bind] in *;
    [|discriminate].
  destruct (int pid_s) as [pid'|]; cbn [bind] in *; [|discriminate].
  destruct (form_item req "qty") as [qty_s|]; cbn [bind] in *; [|discriminate].
  destruct (Decimal_or_0 qty_s) as [q'|]; cbn [bind] in *; [|discriminate].
  destruct (form_item req "cost_price") as [cost_s|]; cbn [bind] in *;
    [|discriminate].
  destruct (Decimal_or_0 cost_s) as [c'|]; cbn [bind] in *; [|discriminate].
  destruct (match truthy (lookup "date" (form req)) with
            | Some s => strptime (Some s)
            | None => ret (today req)
            end) as [dt'|]; cbn [bind] in *; [|discriminate].
  injection Hform as H1 H2 H3 H4 H5. subst pid' q' c' dt' rem.
  change (get_product (add_stock_in_row ?a ?b ?c ?d ?e ?f db))
    with (get_product db).
  rewrite Hprod. reflexivity.
Qed.

(** A sale entry, when it goes through. *)
Lemma sales_page_commits (sess : Session) (req : Request) (db : DB)
    (d : Dairy.t) (prod : Product.t) (pid : Z) (q c : Decimal) (dt : date)
    (rem : string) :
  current_dairy sess db = Some d ->
  method req = POST ->
  event_create_form "selling_price" req = inl (pid, q, c, dt, rem) ->
  get_product db pid = Some prod ->
  sales_page sess req db
  = (update_product
       (Product.set_sell_price c
          (Product.set_current_stock (Product.current_stock prod - q)%Qc
             prod))
       (add_sale_row (Dairy.id d) pid q c dt rem db),
     Redirect "sales_page").
Proof.
  intros Hd Hm Hform Hprod.
  unfold sales_page, acting_dairy. rewrite Hd. cbn [bind]. rewrite Hm.
  unfold event_create_form in Hform.
  destruct (form_item req "product_id") as [pid_s|]; cbn [bind] in *;
    [|discriminate].
  destruct (int pid_s) as [pid'|]; cbn [bind] in *; [|discriminate].
  destruct (form_item req "qty") as [qty_s|]; cbn [bind] in *; [|discriminate].
  destruct (Decimal_or_0 qty_s) as [q'|]; cbn [bind] in *; [|discriminate].
  destruct (form_item req "selling_price") as [cost_s|]; cbn [bind] in *;
    [|discriminate].
  destruct (Decimal_or_0 cost_s) as [c'|]; cbn [bind] in *; [|discriminate].
  destruct (match truthy (lookup "date" (form req)) with
            | Some s => strptime (Some s)
            | None => ret (today req)
            end) as [dt'|]; cbn [bind] in *; [|discriminate].
  injection Hform as H1 H2 H3 H4 H5. subst pid' q' c' dt' rem.
  change (get_product (add_sale_row ?a ?b ?c ?d ?e ?f db))
    with (get_product db).
  rewrite Hprod. reflexivity.
Qed.


(** ** The running stock *)


(** Whatever a stock-in entry does, the store it leaves is the old one
    or the old one with the event added and the product adjusted. *)
Lemma stock_in_page_cases (sess : Session) (req : Request) (db : DB) :
  fst (stock_in_page sess req db) = db
  \/ exists d prod pid q c dt rem,
       get_product db pid = Some prod
       /\ fst (stock_in_page sess req db)
          = update_product
              (Product.set_cost_price c
                 (Product.set_current_stock
                    (Product.current_stock prod + q)%Qc prod))
              (add_stock_in_row (Dairy.id d) pid q c dt rem db).
Proof.
  unfold stock_in_page, acting_dairy.
  branch (current_dairy sess db) as [d|].
  branch (method req) as [|].
  branch (form_item req "product_id") as [pid_s|].
  branch (int pid_s) as [pid|].
  branch (form_item req "qty") as [qty_s|].
  branch (Decimal_or_0 qty_s) as [q|].
  branch (form_item req "cost_price") as [cost_s|].
  branch (Decimal_or_0 cost_s) as [c|].
  branch (match truthy (lookup "date" (form req)) with
          | Some s => strptime (Some s)
          | None => ret (today req)
          end) as [dt|].
  change (get_product (add_stock_in_row ?a ?b ?c ?d ?e ?f db))
    with (get_product db).
  branch (get_product db pid) as [prod|] eqn:Hprod.
  right.
  exists d, prod, pid, q, c, dt,
    (match truthy (lookup "remarks" (form req)) with
     | Some s => s
     | None => EmptyString
     end).
  split; [exact Hprod | reflexivity].
Qed.

Lemma sales_page_cases (sess : Session) (req : Request) (db : DB) :
  fst (sales_page sess req db) = db
  \/ exists d prod pid q c dt rem,
       get_product db pid = Some prod
       /\ fst (sales_page sess req db)
          = update_product
              (Product.set_sell_price c
                 (Product.set_current_stock
                    (Product.current_stock prod - q)%Qc prod))
              (add_sale_row (Dairy.id d) pid q c dt rem db).
Proof.
  unfold sales_page, acting_dairy.
  branch (current_dairy sess db) as [d|].
  branch (method req) as [|].
  branch (form_item req "product_id") as [pid_s|].
  branch (int pid_s) as [pid|].
  branch (form_item req "qty") as [qty_s|].
  branch (Decimal_or_0 qty_s) as [q|].
  branch (form_item req "selling_price") as [price_s|].
  branch (Decimal_or_0 price_s) as [c|].
  branch (match truthy (lookup "date" (form req)) with
          | Some s => strptime (Some s)
          | None => ret (today req)
          end) as [dt|].
  change (get_product (add_sale_row ?a ?b ?c ?d ?e ?f db))
    with (get_product db).
  branch (get_product db pid) as [prod|] eqn:Hprod.
  right.
  exists d, prod, pid, q, c, dt,
    (match truthy (lookup "remarks" (form req)) with
     | Some s => s
     | None => EmptyString
     end).
  split; [exact Hprod | reflexivity].
Qed.

Lemma edit_stock_in_cases (sid : Z) (sess : Session) (req : Request)
    (db : DB) :
  fst (edit_stock_in sid sess req db) = db
  \/ exists st prod q c dt rem,
       get_stock_in db sid = Some st
       /\ get_product db (StockIn.product_id st) = Some prod
       /\ fst (edit_stock_in sid sess req db)
          = update_product
              (Product.set_current_stock
                 (Product.current_stock prod - StockIn.qty st + q)%Qc prod)
              (update_stock_in
                 (StockIn.mk (StockIn.id st) (StockIn.dairy_id st)
                    (StockIn.product_id st) q c dt rem) db).
Proof.
  unfold edit_stock_in, acting_dairy.
  branch (current_dairy sess db) as [d|].
  branch (get_stock_in db sid) as [st|] eqn:Hst.
  branch (negb (StockIn.dairy_id st =? Dairy.id d)) as [|].
  branch (method req) as [|].
  branch (form_item req "qty") as [qty_s|].
  branch (Decimal_or_0 qty_s) as [q|].
  branch (form_item req "cost_price") as [cost_s|].
  branch (Decimal_or_0 cost_s) as [c|].
  branch (strptime (lookup "date" (form req))) as [dt|].
  change (get_product (update_stock_in ?s db)) with (get_product db).
  cbn [StockIn.product_id].
  branch (get_product db (StockIn.product_id st)) as [prod|] eqn:Hprod.
  right.
  exists st, prod, q, c, dt,
    (match truthy (lookup "remarks" (form req)) with
     | Some s => s
     | None => EmptyString
     end).
  repeat split; try reflexivity; exact Hprod.
Qed.

Lemma delete_sale_cases (sid : Z) (sess : Session) (req : Request)
    (db : DB) :
  fst (delete_sale sid sess req db) = db
  \/ exists sale,
       get_sale db sid = Some sale
       /\ fst (delete_sale sid sess req db)
          = delete_sale_row (Sale.id sale)
              (match get_product db (Sale.product_id sale) with
               | Some prod =>
                   update_product
                     (Product.set_current_stock
                        (Product.current_stock prod + Sale.qty sale)%Qc prod)
                     db
               | None => db
               end).
Proof.
  unfold delete_sale, acting_dairy, post_only.
  branch (method req) as [|].
  branch (current_dairy sess db) as [d|].
  branch (get_sale db sid) as [sale|] eqn:Hsale.
  branch (negb (Sale.dairy_id sale =? Dairy.id d)) as [|].
  right. exists sale. split; reflexivity.
Qed.







(** A store without events in which every product has a stock of zero
    is balanced: this is where a history starts. *)
Lemma store_without_events_balanced (db : DB) :
  stock_in db = [] -> sales db = [] ->
  (forall p, In p (products db) -> Product.current_stock p = Q2Qc 0) ->
  balanced db.
Proof.
  intros Hin Hout Hzero p Hp.
  unfold stock_in_total, sales_total, event_total.
  rewrite Hin, Hout, (Hzero p Hp). reflexivity.
Qed.


(** ** The rows and totals of a report *)

Lemma stock_in_row_fields (with_logo : bool) (db : DB) (e : StockIn.t)
    (r : ReportRow.t) :
  stock_in_row with_logo db e = inl r ->
  ReportRow.profit r = float_zero
  /\ ReportRow.in_qty r = float_of_Decimal (StockIn.qty e)
  /\ ReportRow.out_qty r = float_zero
  /\ ReportRow.cost_price r = float_of_Decimal (StockIn.cost_price e)
  /\ ReportRow.sell_price r = None
  /\ ReportRow.date r = StockIn.date e.
Proof.
  unfold stock_in_row.
  destruct (get_dairy db (StockIn.dairy_id e)); simpl; [|discriminate].
  destruct (get_product db (StockIn.product_id e)); simpl; [|discriminate].
  intros [= <-]. simpl. repeat split.
Qed.

Lemma sale_row_fields (with_logo : bool) (db : DB) (s : Sale.t)
    (r : ReportRow.t) :
  sale_row with_logo db s = inl r ->
  exists p,
    get_product db (Sale.product_id s) = Some p
    /\ ReportRow.profit r
       = float_of_Decimal
           (Sale.qty s * (Sale.selling_price s - Product.cost_price p))%Qc
    /\ ReportRow.in_qty r = float_zero
    /\ ReportRow.out_qty r = float_of_Decimal (Sale.qty s)
    /\ ReportRow.cost_price r = float_of_Decimal (Product.cost_price p)
    /\ ReportRow.sell_price r = Some (float_of_Decimal (Sale.selling_price s))
    /\ ReportRow.date r = Sale.date s.
Proof.
  unfold sale_row.
  destruct (get_product db (Sale.product_id s)) as [p|]; simpl;
    [|discriminate].
  destruct (get_dairy db (Sale.dairy_id s)); simpl; [|discriminate].
  intros [= <-]. exists p. simpl. repeat split.
Qed.

Lemma stock_in_loop (with_logo : bool) (db : DB) (sis : list StockIn.t) :
  (forall e, In e sis ->
     get_dairy db (StockIn.dairy_id e) <> None
     /\ get_product db (StockIn.product_id e) <> None) ->
  forall (rows0 : list ReportRow.t) (t0 : Totals.t),
  exists in_rows,
    Forall2 (fun e r => stock_in_row with_logo db e = inl r) sis in_rows
    /\ foldM (add_stock_in_entry with_logo db) sis (rows0, t0)
       = inl (rows0 ++ in_rows,
              Totals.mk _
                (fold_left float_add
                   (map (fun e => float_of_Decimal (StockIn.qty e)) sis)
                   (Totals.in_qty t0))
                (Totals.out_qty t0)
                (fold_left float_add
                   (map (fun e => float_mul
                                    (float_of_Decimal (StockIn.qty e))
                                    (float_of_Decimal (StockIn.cost_price e)))
                      sis)
                   (Totals.cost_val t0))
                (Totals.sell_val t0)
                (Totals.profit t0)).
Proof.
  induction sis as [|e sis IH]; intros Hrefs rows0 t0.
  - exists []. split; [constructor|]. simpl. rewrite app_nil_r.
    now destruct t0.
  - destruct (Hrefs e (or_introl eq_refl)) as [Hd Hp].
    assert (Hrow : exists r, stock_in_row with_logo db e = inl r).
    { unfold stock_in_row.
      destruct (get_dairy db (StockIn.dairy_id e)); [|contradiction].
      destruct (get_product db (StockIn.product_id e)); [|contradiction].
      eexists; reflexivity. }
    destruct Hrow as [r Hr].
    cbn [foldM]. unfold add_stock_in_entry at 1. rewrite Hr. cbn [bind ret].
    destruct (IH (fun e' H => Hrefs e' (or_intror H)) (rows0 ++ [r])
                (Totals.mk _
                   (float_add (Totals.in_qty t0)
                      (float_of_Decimal (StockIn.qty e)))
                   (Totals.out_qty t0)
                   (float_add (Totals.cost_val t0)
                      (float_mul (float_of_Decimal (StockIn.qty e))
                         (float_of_Decimal (StockIn.cost_price e))))
                   (Totals.sell_val t0) (Totals.profit t0)))
      as (in_rows & Hall & Hfold).
    exists (r :: in_rows). split; [now constructor|].
    cbn [fst snd]. rewrite Hfold. cbn [Totals.in_qty Totals.out_qty
      Totals.cost_val Totals.sell_val Totals.profit map fold_left].
    now rewrite <- app_assoc.
Qed.

Lemma sale_loop (with_logo : bool) (db : DB) (ss : list Sale.t) :
  (forall s, In s ss ->
     get_dairy db (Sale.dairy_id s) <> None
     /\ get_product db (Sale.product_id s) <> None) ->
  forall (rows0 : list ReportRow.t) (t0 : Totals.t),
  exists out_rows,
    Forall2 (fun s r => sale_row with_logo db s = inl r) ss out_rows
    /\ foldM (add_sale_entry with_logo db) ss (rows0, t0)
       = inl (rows0 ++ out_rows,
              Totals.mk _
                (Totals.in_qty t0)
                (fold_left float_add
                   (map (fun s => float_of_Decimal (Sale.qty s)) ss)
                   (Totals.out_qty t0))
                (Totals.cost_val t0)
                (fold_left float_add
                   (map (fun s => float_mul
                                    (float_of_Decimal (Sale.qty s))
                                    (float_of_Decimal (Sale.selling_price s)))
                      ss)
                   (Totals.sell_val t0))
                (fold_left float_add (map ReportRow.profit out_rows)
                   (Totals.profit t0))).
Proof.
  induction ss as [|s ss IH]; intros Hrefs rows0 t0.
  - exists []. split; [constructor|]. simpl. rewrite app_nil_r.
    now destruct t0.
  - destruct (Hrefs s (or_introl eq_refl)) as [Hd Hp].
    assert (Hrow : exists r, sale_row with_logo db s = inl r).
    { unfold sale_row.
      destruct (get_product db (Sale.product_id s)); [|contradiction].
      destruct (get_dairy db (Sale.dairy_id s)); [|contradiction].
      eexists; reflexivity. }
    destruct Hrow as [r Hr].
    cbn [foldM]. unfold add_sale_entry at 1. rewrite Hr. cbn [bind ret].
    destruct (IH (fun s' H => Hrefs s' (or_intror H)) (rows0 ++ [r])
                (Totals.mk _
                   (Totals.in_qty t0)
                   (float_add (Totals.out_qty t0)
                      (float_of_Decimal (Sale.qty s)))
                   (Totals.cost_val t0)
                   (float_add (Totals.sell_val t0)
                      (float_mul (float_of_Decimal (Sale.qty s))
                         (float_of_Decimal (Sale.selling_price s))))
                   (float_add (Totals.profit t0) (ReportRow.profit r))))
      as (out_rows & Hall & Hfold).
    exists (r :: out_rows). split; [now constructor|].
    cbn [fst snd]. rewrite Hfold. cbn [Totals.in_qty Totals.out_qty
      Totals.cost_val Totals.sell_val Totals.profit map fold_left].
    now rewrite <- app_assoc.
Qed.

(** The two loops and the sort, when every entry points to a dairy and a
    product. *)
Lemma build_rows_result (with_logo : bool) (db : DB) (sis : list StockIn.t)
    (ss : list Sale.t) :
  (forall e, In e sis ->
     get_dairy db (StockIn.dairy_id e) <> None
     /\ get_product db (StockIn.product_id e) <> None) ->
  (forall s, In s ss ->
     get_dairy db (Sale.dairy_id s) <> None
     /\ get_product db (Sale.product_id s) <> None) ->
  exists in_rows out_rows,
    Forall2 (fun e r => stock_in_row with_logo db e = inl r) sis in_rows
    /\ Forall2 (fun s r => sale_row with_logo db s = inl r) ss out_rows
    /\ build_rows with_logo db sis ss
       = inl (sorted_reverse ReportRow.date (in_rows ++ out_rows),
              Totals.mk _
                (float_sum
                   (map (fun e => float_of_Decimal (StockIn.qty e)) sis))
                (float_sum (map (fun s => float_of_Decimal (Sale.qty s)) ss))
                (float_sum
                   (map (fun e => float_mul
                                    (float_of_Decimal (StockIn.qty e))
                                    (float_of_Decimal (StockIn.cost_price e)))
                      sis))
                (float_sum
                   (map (fun s => float_mul
                                    (float_of_Decimal (Sale.qty s))
                                    (float_of_Decimal (Sale.selling_price s)))
                      ss))
                (float_sum (map ReportRow.profit out_rows))).
Proof.
  intros Hsis Hss. unfold build_rows.
  destruct (stock_in_loop with_logo db sis Hsis []
              (Totals.mk _ float_zero float_zero float_zero float_zero
                 float_zero)) as (in_rows & Hin & ->).
  cbn [bind].
  destruct (sale_loop with_logo db ss Hss ([] ++ in_rows)
              (Totals.mk _
                (fold_left float_add
                   (map (fun e => float_of_Decimal (StockIn.qty e)) sis)
                   float_zero)
                float_zero
                (fold_left float_add
                   (map (fun e => float_mul
                                    (float_of_Decimal (StockIn.qty e))
                                    (float_of_Decimal (StockIn.cost_price e)))
                      sis)
                   float_zero)
                float_zero float_zero)) as (out_rows & Hout & Hfold).
  cbn [Totals.in_qty Totals.out_qty Totals.cost_val Totals.sell_val
       Totals.profit] in *.
  rewrite Hfold. cbn [bind ret fst snd app].
  exists in_rows, out_rows. repeat split; assumption.
Qed.

Lemma filtered_stock_in_resolve (db : DB) (f : Filters) :
  references_resolve db ->
  forall e, In e (filter_stock_in f db) ->
    get_dairy db (StockIn.dairy_id e) <> None
    /\ get_product db (StockIn.product_id e) <> None.
Proof.
  intros [H _] e He. apply H. unfold filter_stock_in in He.
  now apply filter_In in He.
Qed.

Lemma filtered_sales_resolve (db : DB) (f : Filters) :
  references_resolve db ->
  forall s, In s (filter_sales f db) ->
    get_dairy db (Sale.dairy_id s) <> None
    /\ get_product db (Sale.product_id s) <> None.
Proof.
  intros [_ H] s Hs. apply H. unfold filter_sales in Hs.
  now apply filter_In in Hs.
Qed.

(** C3.  Whatever the filters (dairy, product, date range), the report
    has one row per stock-in event and per sale the filters let through
    (the sort only permutes them).
    The profit of a stock-in row is 0.0; the profit of a sale row is
    [qty * (selling_price - cost_price)] with the cost price the product
    has now.  The totals are the sums, in floating point and in the
    order of the loops, over the events let through: received
    quantities, sold quantities, received quantity times cost, sold
    quantity times price, and the profits of the sale rows. *)
Theorem report_rows_and_totals :
  forall (sess : Session) (req : Request) (db : DB) (f : Filters),
    references_resolve db ->
    reports_filters sess req db = inl f ->
    exists in_rows out_rows totals,
      reports_rows sess req db
      = inl (sorted_reverse ReportRow.date (in_rows ++ out_rows), totals)
      /\ Permutation (sorted_reverse ReportRow.date (in_rows ++ out_rows))
           (in_rows ++ out_rows)
      /\ Forall2
           (fun e r =>
              ReportRow.profit r = float_zero
              /\ ReportRow.in_qty r = float_of_Decimal (StockIn.qty e)
              /\ ReportRow.out_qty r = float_zero
              /\ ReportRow.cost_price r
                 = float_of_Decimal (StockIn.cost_price e)
              /\ ReportRow.sell_price r = None
              /\ ReportRow.date r = StockIn.date e)
           (filter_stock_in f db) in_rows
      /\ Forall2
           (fun s r =>
              exists p,
                get_product db (Sale.product_id s) = Some p
                /\ ReportRow.profit r
                   = float_of_Decimal
                       (Sale.qty s
                        * (Sale.selling_price s - Product.cost_price p))%Qc
                /\ ReportRow.in_qty r = float_zero
                /\ ReportRow.out_qty r = float_of_Decimal (Sale.qty s)
                /\ ReportRow.cost_price r
                   = float_of_Decimal (Product.cost_price p)
                /\ ReportRow.sell_price r
                   = Some (float_of_Decimal (Sale.selling_price s))
                /\ ReportRow.date r = Sale.date s)
           (filter_sales f db) out_rows
      /\ Totals.in_qty totals
         = float_sum (map (fun e => float_of_Decimal (StockIn.qty e))
                        (filter_stock_in f db))
      /\ Totals.out_qty totals
         = float_sum (map (fun s => float_of_Decimal (Sale.qty s))
                        (filter_sales f db))
      /\ Totals.cost_val totals
         = float_sum
             (map (fun e => float_mul (float_of_Decimal (StockIn.qty e))
                              (float_of_Decimal (StockIn.cost_price e)))
                (filter_stock_in f db))
      /\ Totals.sell_val totals
         = float_sum
             (map (fun s => float_mul (float_of_Decimal (Sale.qty s))
                              (float_of_Decimal (Sale.selling_price s)))
                (filter_sales f db))
      /\ Totals.profit totals = float_sum (map ReportRow.profit out_rows).
Proof.
  intros sess req db f Hrefs Hf.
  unfold reports_rows. rewrite Hf. cbn [bind].
  destruct (build_rows_result true db (filter_stock_in f db)
              (filter_sales f db)
              (filtered_stock_in_resolve db f Hrefs)
              (filtered_sales_resolve db f Hrefs))
    as (in_rows & out_rows & Hin & Hout & ->).
  exists in_rows, out_rows. eexists. split; [reflexivity|].
  split; [apply sorted_reverse_perm|].
  split.
  { eapply Forall2_impl; [|exact Hin].
    intros e r. apply stock_in_row_fields. }
  split.
  { eapply Forall2_impl; [|exact Hout].
    intros s r. apply sale_row_fields. }
  cbn [Totals.in_qty Totals.out_qty Totals.cost_val Totals.sell_val
       Totals.profit].
  repeat split.
Qed.

Lemma stock_in_rows_kind (with_logo : bool) (db : DB)
    (sis : list StockIn.t) (in_rows : list ReportRow.t) :
  Forall2 (fun e r => stock_in_row with_logo db e = inl r) sis in_rows ->
  Forall (fun r => is_stock_in_row r = true) in_rows.
Proof.
  induction 1 as [|e r sis in_rows Hr _ IH]; constructor; [|exact IH].
  apply stock_in_row_fields in Hr as (_ & _ & _ & _ & Hsp & _).
  unfold is_stock_in_row. now rewrite Hsp.
Qed.

Lemma sale_rows_kind (with_logo : bool) (db : DB) (ss : list Sale.t)
    (out_rows : list ReportRow.t) :
  Forall2 (fun s r => sale_row with_logo db s = inl r) ss out_rows ->
  Forall (fun r => is_stock_in_row r = false) out_rows.
Proof.
  induction 1 as [|s r ss out_rows Hr _ IH]; constructor; [|exact IH].
  apply sale_row_fields in Hr as (p & _ & _ & _ & _ & _ & Hsp & _).
  unfold is_stock_in_row. now rewrite Hsp.
Qed.

(** The order of the rows [build_rows] returns. *)
Lemma build_rows_order (with_logo : bool) (db : DB) (sis : list StockIn.t)
    (ss : list Sale.t) :
  (forall e, In e sis ->
     get_dairy db (StockIn.dairy_id e) <> None
     /\ get_product db (StockIn.product_id e) <> None) ->
  (forall s, In s ss ->
     get_dairy db (Sale.dairy_id s) <> None
     /\ get_product db (Sale.product_id s) <> None) ->
  exists rows totals,
    build_rows with_logo db sis ss = inl (rows, totals)
    /\ StronglySorted (latest_first ReportRow.date) rows
    /\ (forall l1 a l2 b l3,
          rows = l1 ++ a :: l2 ++ b :: l3 ->
          ReportRow.date a = ReportRow.date b ->
          is_stock_in_row b = true -> is_stock_in_row a = true).
Proof.
  intros Hsis Hss.
  destruct (build_rows_result with_logo db sis ss Hsis Hss)
    as (in_rows & out_rows & Hin & Hout & ->).
  eexists. eexists. split; [reflexivity|]. split.
  - apply sorted_reverse_sorted.
  - intros l1 a l2 b l3 Hrows Hdate Hb.
    eapply (sorted_reverse_two_runs _ ReportRow.date is_stock_in_row in_rows
              out_rows l1 l2 l3 a b); eauto.
    + eapply stock_in_rows_kind; eauto.
    + eapply sale_rows_kind; eauto.
Qed.

(** C9.  The rows of a report, on the page and in the PDF, are sorted by
    date, latest first, and among the rows of one date no sale row comes
    before a stock-in row. *)
Theorem report_rows_sorted :
  (forall (sess : Session) (req : Request) (db : DB) (f : Filters),
      references_resolve db ->
      reports_filters sess req db = inl f ->
      exists rows totals,
        reports_rows sess req db = inl (rows, totals)
        /\ StronglySorted (latest_first ReportRow.date) rows
        /\ (forall l1 a l2 b l3,
              rows = l1 ++ a :: l2 ++ b :: l3 ->
              ReportRow.date a = ReportRow.date b ->
              is_stock_in_row b = true -> is_stock_in_row a = true))
  /\
  (forall (req : Request) (db : DB) (f : Filters),
      references_resolve db ->
      reports_pdf_filters req = inl f ->
      exists rows totals,
        reports_pdf_rows req db = inl (rows, totals)
        /\ StronglySorted (latest_first ReportRow.date) rows
        /\ (forall l1 a l2 b l3,
              rows = l1 ++ a :: l2 ++ b :: l3 ->
              ReportRow.date a = ReportRow.date b ->
              is_stock_in_row b = true -> is_stock_in_row a = true)).
Proof.
  split.
  - intros sess req db f Hrefs Hf.
    unfold reports_rows. rewrite Hf. cbn [bind].
    apply build_rows_order.
    + now apply filtered_stock_in_resolve.
    + now apply filtered_sales_resolve.
  - intros req db f Hrefs Hf.
    unfold reports_pdf_rows. rewrite Hf. cbn [bind].
    apply build_rows_order.
    + intros e He.
      apply (Permutation_in _ (sorted_reverse_perm _ StockIn.date _)) in He.
      now apply (filtered_stock_in_resolve db f).
    + intros s Hs.
      apply (Permutation_in _ (sorted_reverse_perm _ Sale.date _)) in Hs.
      now apply (filtered_sales_resolve db f).
Qed.

(** ** Slices and pages *)









(** ** Dates that do not parse *)

Lemma dashboard_dates_used (sess : Session) (req : Request) (db : DB)
    (pg : DashboardPage) :
  dashboard sess req db = inl pg ->
  (dash_f1 pg, dash_f2 pg) = dashboard_dates req.
Proof.
  unfold dashboard.
  destruct (acting_dairy sess db) as [d|]; cbn [bind]; [|discriminate].
  destruct (dashboard_dates req) as [f1d f2d].
  destruct (foldM _ _ _) as [cogs|]; cbn [bind]; [|discriminate].
  now intros [= <-].
Qed.

(** C8 (as the code has it).  A date text that does not parse fails
    neither the dashboard nor a report.  The dashboard then takes today
    for both ends of its range.  The report page does not put today in
    its place: it drops both date filters.  The PDF report drops the
    date filter that fails and the one after it.  On the entry pages a
    missing or empty date is today. *)
Theorem unparsed_date_handling :
  (forall (req : Request) (s : string),
      truthy (lookup "from" (args req)) = Some s
      \/ truthy (lookup "to" (args req)) = Some s ->
      strptime_ymd s = None ->
      dashboard_dates req = (today req, today req)
      /\ forall sess db,
           dashboard sess req db
           = dashboard sess
               (mkRequest (method req) (form req) [] (today req)) db)
  /\
  (forall (sess : Session) (req : Request) (db : DB) (s : string),
      truthy (or_else (lookup "from" (form req)) (lookup "from" (args req)))
      = Some s
      \/ truthy (or_else (lookup "to" (form req)) (lookup "to" (args req)))
         = Some s ->
      strptime_ymd s = None ->
      reports_filters sess req db
      = (did_int <- digits_of (reports_did sess req db) ;;
         pid_int <- digits_of
                      (opt_str (or_else (lookup "product" (form req))
                                  (lookup "product" (args req)))) ;;
         ret (mkFilters did_int None None pid_int)))
  /\
  (forall (req : Request) (f : Filters) (s : string),
      reports_pdf_filters req = inl f ->
      strptime_ymd s = None ->
      (truthy (lookup "from" (args req)) = Some s ->
       date_from f = None /\ date_to f = None)
      /\ (truthy (lookup "to" (args req)) = Some s -> date_to f = None))
  /\
  (forall (price_key : string) (req : Request) (pid : Z) (q c : Decimal)
          (dt : date) (rem : string),
      truthy (lookup "date" (form req)) = None ->
      event_create_form price_key req = inl (pid, q, c, dt, rem) ->
      dt = today req).
Proof.
  split; [|split; [|split]].
  - intros req s Hs Hbad.
    assert (Hdates : dashboard_dates req = (today req, today req)).
    { unfold dashboard_dates.
      destruct Hs as [Hs | Hs]; rewrite Hs, Hbad.
      - reflexivity.
      - now destruct (match truthy (lookup "from" (args req)) with
                      | Some s0 => strptime_ymd s0
                      | None => Some (today req)
                      end). }
    split; [exact Hdates|].
    intros sess db. unfold dashboard. rewrite Hdates. reflexivity.
  - intros sess req db s Hs Hbad. unfold reports_filters, reports_date.
    destruct Hs as [Hs | Hs]; rewrite Hs, Hbad.
    + reflexivity.
    + now destruct (match
                      truthy (or_else (lookup "from" (form req))
                                (lookup "from" (args req)))
                    with
                    | Some s0 => strptime_ymd s0
                    | None => Some (today req)
                    end).
  - intros req f s Hf Hbad. unfold reports_pdf_filters in Hf.
    destruct (digits_of (opt_str (lookup "product" (args req))))
      as [pid_int|]; [|now destruct (digits_of _)].
    cbn [bind ret] in Hf. injection Hf as <-. cbn [date_from date_to].
    split.
    + intros Hfrom. rewrite Hfrom, Hbad.
      now destruct (digits_of (opt_str (lookup "dairy" (args req)))).
    + intros Hto. rewrite Hto, Hbad.
      destruct (digits_of (opt_str (lookup "dairy" (args req))));
        [|reflexivity].
      destruct (truthy (lookup "from" (args req))) as [s1|]; [|reflexivity].
      now destruct (strptime_ymd s1).
  - intros price_key req pid q c dt rem Hdate Hform.
    unfold event_create_form in Hform. rewrite Hdate in Hform.
    destruct (form_item req "product_id") as [pid_s|]; cbn [bind] in Hform;
      [|discriminate].
    destruct (int pid_s); cbn [bind] in Hform; [|discriminate].
    destruct (form_item req "qty") as [qty_s|]; cbn [bind] in Hform;
      [|discriminate].
    destruct (Decimal_or_0 qty_s); cbn [bind] in Hform; [|discriminate].
    destruct (form_item req price_key) as [price_s|]; cbn [bind] in Hform;
      [|discriminate].
    destruct (Decimal_or_0 price_s); cbn [bind ret] in Hform;
      [|discriminate].
    now injection Hform.
Qed.

(** An entry or an edit whose date does not parse is not stored: the
    handler raises. *)
Lemma entry_with_unparsed_date_raises (sess : Session) (req : Request)
    (db : DB) (d : Dairy.t) (s pid_s qty_s cost_s : string) (pid : Z)
    (q c : Decimal) :
  current_dairy sess db = Some d ->
  method req = POST ->
  form_item req "product_id" = inl pid_s -> int pid_s = inl pid ->
  form_item req "qty" = inl qty_s -> Decimal_or_0 qty_s = inl q ->
  form_item req "cost_price" = inl cost_s -> Decimal_or_0 cost_s = inl c ->
  truthy (lookup "date" (form req)) = Some s ->
  strptime_ymd s = None ->
  stock_in_page sess req db = (db, Raise "ValueError").
Proof.
  intros Hd Hm H1 H2 H3 H4 H5 H6 H7 H8.
  unfold stock_in_page, acting_dairy. rewrite Hd. cbn [bind]. rewrite Hm.
  rewrite H1. cbn [bind]. rewrite H2. cbn [bind]. rewrite H3. cbn [bind].
  rewrite H4. cbn [bind]. rewrite H5. cbn [bind]. rewrite H6. cbn [bind].
  rewrite H7. unfold strptime. rewrite H8. reflexivity.
Qed.

End Properties.

(* ================================================================== *)
(** * Further properties of the handlers *)

(** ** Keys *)

Lemma next_id_above (ids : list Z) (k : Z) : In k ids -> k < next_id ids.
Proof.
  unfold next_id. induction ids as [|x ids IH]; cbn [fold_right In];
    [intros []|].
  intros [-> | Hin]; [lia|]. specialize (IH Hin). lia.
Qed.

Lemma next_id_fresh (ids : list Z) : ~ In (next_id ids) ids.
Proof. intros H. apply next_id_above in H. lia. Qed.

Lemma NoDup_added (ids : list Z) :
  NoDup ids -> NoDup (ids ++ [next_id ids]).
Proof.
  intros Hnd. apply NoDup_app; [exact Hnd | repeat constructor; intros [] |].
  intros k Hk [<- | []]. now apply next_id_fresh in Hk.
Qed.

Lemma remove_row_incl {A} (f : A -> bool) (l : list A) (x : A) :
  In x (remove_row f l) -> In x l.
Proof.
  induction l as [|y l IH]; simpl; [tauto|].
  destruct (f y); simpl; [tauto|]. intros [-> | H]; [now left|].
  right. now apply IH.
Qed.

Lemma remove_row_keys {A} (key : A -> Z) (f : A -> bool) (l : list A) :
  NoDup (map key l) -> NoDup (map key (remove_row f l)).
Proof.
  induction l as [|y l IH]; simpl; [trivial|].
  intros Hnd. inversion Hnd as [|? ? Hy Hl]; subst.
  destruct (f y); [exact Hl|]. simpl. constructor; [|now apply IH].
  intros Hin. apply Hy. apply in_map_iff in Hin as (x & Hx & Hin).
  apply in_map_iff. exists x. split; [exact Hx|].
  now apply remove_row_incl in Hin.
Qed.

Lemma find_remove_row {A} (key : A -> Z) (k : Z) (l : list A) :
  NoDup (map key l) ->
  find (fun x => key x =? k) (remove_row (fun x => key x =? k) l) = None.
Proof.
  induction l as [|y l IH]; simpl; [trivial|].
  intros Hnd. inversion Hnd as [|? ? Hy Hl]; subst.
  destruct (key y =? k) eqn:Hk.
  - apply Z.eqb_eq in Hk. subst k.
    destruct (find (fun x => key x =? key y) l) as [x|] eqn:Hx; [|trivial].
    apply find_key in Hx as [Hkx Hin]. apply Z.eqb_eq in Hkx.
    exfalso. apply Hy. rewrite <- Hkx. now apply in_map.
  - simpl. rewrite Hk. now apply IH.
Qed.

Lemma find_replace_other {A} (key : A -> Z) (k k' : Z) (r' : A)
    (l : list A) :
  key r' = k -> k' <> k ->
  find (fun x => key x =? k') (replace_row (fun x => key x =? k) r' l)
  = find (fun x => key x =? k') l.
Proof.
  intros Hr Hne. induction l as [|y l IH]; simpl; [trivial|].
  destruct (key y =? k) eqn:Hk; simpl.
  - apply Z.eqb_eq in Hk. rewrite Hr, Hk.
    apply not_eq_sym, Z.eqb_neq in Hne. now rewrite Hne.
  - now rewrite IH.
Qed.

Lemma find_replace_some {A} (key : A -> Z) (k k' : Z) (r' : A)
    (l : list A) :
  key r' = k ->
  find (fun x => key x =? k') l <> None ->
  find (fun x => key x =? k') (replace_row (fun x => key x =? k) r' l)
  <> None.
Proof.
  intros Hr Hsome. destruct (Z.eq_dec k' k) as [-> | Hne].
  - destruct (find (fun x => key x =? k) l) as [r|] eqn:Hfind;
      [|contradiction].
    rewrite (find_replace_row _ r r') by
      (try exact Hfind; rewrite Hr; apply Z.eqb_refl).
    discriminate.
  - now rewrite find_replace_other.
Qed.



Section Further.
Context {rt : Runtime}.

(** ** The gate in front of every page of a dairy *)

(** X1.  A GET request never changes the store, whatever page of a
    dairy it goes to; the delete routes answer it with 405. *)
Theorem get_leaves_store_unchanged :
  forall (sess : Session) (req : Request) (db : DB) (k : Z),
    method req = GET ->
    fst (add_product sess req db) = db
    /\ fst (edit_product k sess req db) = db
    /\ delete_product k sess req db = (db, Abort 405)
    /\ fst (stock_in_page sess req db) = db
    /\ fst (edit_stock_in k sess req db) = db
    /\ fst (sales_page sess req db) = db
    /\ fst (edit_sale k sess req db) = db
    /\ delete_sale k sess req db = (db, Abort 405).
Proof.
  intros sess req db k Hget.
  unfold add_product, edit_product, delete_product, stock_in_page,
    edit_stock_in, sales_page, edit_sale, delete_sale, acting_dairy,
    post_only.
  rewrite Hget.
  destruct (current_dairy sess db) as [d|]; cbn [bind run fst ret fail];
    [|repeat split].
  destruct (get_product db k) as [p|]; cbn [bind run fst ret fail get_or_404];
    destruct (get_stock_in db k) as [e|];
    cbn [bind run fst ret fail get_or_404];
    destruct (get_sale db k) as [s|];
    cbn [bind run fst ret fail get_or_404];
    repeat match goal with
           | |- context [negb ?b] =>
               destruct (negb b); cbn [bind run fst ret fail]
           end;
    repeat split.
Qed.

(** X2.  Without an acting dairy (nobody logged in, or a dairy key that
    names no dairy) every page of a dairy sends the caller to the login
    page and leaves the store as it was. *)
Theorem no_acting_dairy_sent_to_login :
  forall (sess : Session) (req : Request) (db : DB) (k : Z),
    current_dairy sess db = None ->
    add_product sess req db = (db, Redirect "login")
    /\ edit_product k sess req db = (db, Redirect "login")
    /\ stock_in_page sess req db = (db, Redirect "login")
    /\ edit_stock_in k sess req db = (db, Redirect "login")
    /\ sales_page sess req db = (db, Redirect "login")
    /\ edit_sale k sess req db = (db, Redirect "login")
    /\ (method req = POST ->
        delete_product k sess req db = (db, Redirect "login")
        /\ delete_sale k sess req db = (db, Redirect "login"))
    /\ dashboard sess req db = inr (Redirect "login")
    /\ products_view sess db = inr (Redirect "login")
    /\ stock_in_trans sess db = inr (Redirect "login")
    /\ sales_trans sess db = inr (Redirect "login").
Proof.
  intros sess req db k Hnone.
  unfold add_product, edit_product, delete_product, stock_in_page,
    edit_stock_in, sales_page, edit_sale, delete_sale, dashboard,
    products_view, stock_in_trans, sales_trans, acting_dairy, post_only.
  rewrite Hnone. cbn [bind run fst ret fail].
  do 6 (split; [reflexivity|]).
  split; [intros Hpost; rewrite Hpost; split; reflexivity|].
  repeat split.
Qed.

(** X3.  An edit or a deletion aimed at a key that names no record is
    answered with 404 and changes nothing. *)
Theorem unknown_record_not_found :
  forall (sess : Session) (req : Request) (db : DB) (d : Dairy.t) (k : Z),
    current_dairy sess db = Some d ->
    (get_product db k = None ->
     edit_product k sess req db = (db, Abort 404)
     /\ (method req = POST ->
         delete_product k sess req db = (db, Abort 404)))
    /\ (get_stock_in db k = None ->
        edit_stock_in k sess req db = (db, Abort 404))
    /\ (get_sale db k = None ->
        edit_sale k sess req db = (db, Abort 404)
        /\ (method req = POST ->
            delete_sale k sess req db = (db, Abort 404))).
Proof.
  intros sess req db d k Hd.
  unfold edit_product, delete_product, edit_stock_in, edit_sale,
    delete_sale, acting_dairy, post_only.
  rewrite Hd.
  repeat split; intros; repeat match goal with
                               | H : _ = None |- _ => rewrite H
                               | H : _ = POST |- _ => rewrite H
                               end; reflexivity.
Qed.

(** ** Products *)

Lemma add_product_cases (sess : Session) (req : Request) (db : DB) :
  fst (add_product sess req db) = db
  \/ exists d name unit c s m,
       current_dairy sess db = Some d
       /\ product_form req = inl (name, unit, c, s, m)
       /\ add_product sess req db
          = (add_product_row (Dairy.id d) name unit c s m db,
             Redirect "products").
Proof.
  unfold add_product, acting_dairy, product_form.
  branch (current_dairy sess db) as [d|] eqn:Hd.
  branch (method req) as [|].
  branch (form_item req "name") as [name|].
  branch (form_item req "unit") as [unit|].
  branch (form_item req "cost_price") as [cost_s|].
  branch (form_item req "sell_price") as [sell_s|].
  branch (numeric_field cost_s) as [c|].
  branch (numeric_field sell_s) as [s|].
  branch (numeric_field
            match truthy (lookup "min_stock" (form req)) with
            | Some s0 => s0
            | None => EmptyString
            end) as [m|].
  right. exists d, name, unit, c, s, m. repeat split.
Qed.

Lemma edit_product_cases (pid : Z) (sess : Session) (req : Request)
    (db : DB) :
  fst (edit_product pid sess req db) = db
  \/ exists d p name unit c s m,
       current_dairy sess db = Some d
       /\ get_product db pid = Some p
       /\ Product.dairy_id p = Dairy.id d
       /\ product_form req = inl (name, unit, c, s, m)
       /\ edit_product pid sess req db
          = (update_product
               (Product.mk (Product.id p) (Product.dairy_id p) name unit c s
                  m (Product.current_stock p)) db,
             Redirect "products").
Proof.
  unfold edit_product, acting_dairy, product_form.
  branch (current_dairy sess db) as [d|] eqn:Hd.
  branch (get_product db pid) as [p|] eqn:Hp.
  destruct (Product.dairy_id p =? Dairy.id d) eqn:Hown;
    cbn [negb bind run fst ret fail]; [|left; reflexivity].
  branch (method req) as [|].
  branch (form_item req "name") as [name|].
  branch (form_item req "unit") as [unit|].
  branch (form_item req "cost_price") as [cost_s|].
  branch (form_item req "sell_price") as [sell_s|].
  branch (numeric_field cost_s) as [c|].
  branch (numeric_field sell_s) as [s|].
  branch (numeric_field
            match truthy (lookup "min_stock" (form req)) with
            | Some s0 => s0
            | None => EmptyString
            end) as [m|].
  right. exists d, p, name, unit, c, s, m. apply Z.eqb_eq in Hown.
  repeat split; assumption.
Qed.

Lemma delete_product_cases (pid : Z) (sess : Session) (req : Request)
    (db : DB) :
  fst (delete_product pid sess req db) = db
  \/ exists d p,
       current_dairy sess db = Some d
       /\ method req = POST
       /\ get_product db pid = Some p
       /\ Product.dairy_id p = Dairy.id d
       /\ delete_product pid sess req db
          = (delete_product_row (Product.id p) db, Redirect "products").
Proof.
  unfold delete_product, acting_dairy, post_only.
  branch (method req) as [|] eqn:Hm.
  branch (current_dairy sess db) as [d|] eqn:Hd.
  branch (get_product db pid) as [p|] eqn:Hp.
  destruct (Product.dairy_id p =? Dairy.id d) eqn:Hown;
    cbn [negb bind run fst ret fail]; [|left; reflexivity].
  right. exists d, p. apply Z.eqb_eq in Hown. repeat split; assumption.
Qed.

Lemma in_replaced {A} (f : A -> bool) (r' x : A) (l : list A) :
  In x (replace_row f r' l) -> x = r' \/ In x l.
Proof.
  induction l as [|y l IH]; simpl; [tauto|].
  destruct (f y); simpl.
  - intros [<- | H]; [now left | right; now right].
  - intros [<- | H]; [right; now left|].
    destruct (IH H) as [-> | H']; [now left | right; now right].
Qed.

(** X4.  A product that goes through [add_product] is put behind the
    products already there, which stay as they were; it belongs to the
    acting dairy, starts with a stock of zero and has a key no product
    had. *)
Theorem add_product_appends_fresh_product :
  forall (sess : Session) (req : Request) (db : DB) (d : Dairy.t)
         (name unit : string) (c s m : Decimal),
    current_dairy sess db = Some d ->
    method req = POST ->
    product_form req = inl (name, unit, c, s, m) ->
    let key := next_id (map Product.id (products db)) in
    add_product sess req db
    = (mkDB (dairies db)
         (products db
          ++ [Product.mk key (Dairy.id d) name unit c s m (Q2Qc 0)])
         (stock_in db) (sales db),
       Redirect "products")
    /\ get_product db key = None
    /\ (forall p, In p (products db) -> Product.id p < key).
Proof.
  intros sess req db d name unit c s m Hd Hm Hform key.
  split; [|split].
  - destruct (add_product_cases sess req db)
      as [Hsame | (d' & n' & u' & c' & s' & m' & Hd' & Hform' & ->)].
    + exfalso. revert Hsame.
      unfold add_product, acting_dairy, product_form in *.
      rewrite Hd, Hm. cbn [bind run fst ret fail].
      destruct (form_item req "name"); cbn [bind] in *; [|discriminate].
      destruct (form_item req "unit"); cbn [bind] in *; [|discriminate].
      destruct (form_item req "cost_price") as [cost_s|]; cbn [bind] in *;
        [|discriminate].
      destruct (form_item req "sell_price") as [sell_s|]; cbn [bind] in *;
        [|discriminate].
      destruct (numeric_field cost_s); cbn [bind] in *; [|discriminate].
      destruct (numeric_field sell_s); cbn [bind] in *; [|discriminate].
      destruct (numeric_field _); cbn [bind run fst ret] in *;
        [|discriminate].
      unfold add_product_row. intros H.
      apply (f_equal (fun x => List.length (products x))) in H.
      cbn [products] in H. rewrite length_app in H. simpl in H. lia.
    + rewrite Hd in Hd'. injection Hd' as <-.
      rewrite Hform in Hform'. injection Hform' as <- <- <- <- <-.
      reflexivity.
  - unfold get_product.
    destruct (find _ (products db)) as [p|] eqn:Hfind; [|reflexivity].
    apply find_key in Hfind as [Hk Hin]. apply Z.eqb_eq in Hk.
    exfalso. apply (next_id_fresh (map Product.id (products db))).
    fold key. rewrite <- Hk. now apply in_map.
  - intros p Hp. apply next_id_above. now apply in_map.
Qed.

(** X5.  Whatever its request and outcome, [edit_product] leaves the
    key, the owner and the running stock of every product as they were:
    the stock is out of reach of the product form. *)
Theorem edit_product_keeps_stock_and_owner :
  forall (pid : Z) (sess : Session) (req : Request) (db : DB),
    map (fun p => (Product.id p, Product.dairy_id p, Product.current_stock p))
      (products (fst (edit_product pid sess req db)))
    = map (fun p => (Product.id p, Product.dairy_id p,
                     Product.current_stock p))
        (products db)
    /\ dairies (fst (edit_product pid sess req db)) = dairies db
    /\ stock_in (fst (edit_product pid sess req db)) = stock_in db
    /\ sales (fst (edit_product pid sess req db)) = sales db.
Proof.
  intros pid sess req db.
  destruct (edit_product_cases pid sess req db)
    as [-> | (d & p & n & u & c & s & m & _ & Hp & _ & _ & ->)];
    [repeat split|].
  cbn [fst]. split; [|repeat split].
  unfold update_product; cbn [products Product.id].
  pose proof (find_key _ _ _ Hp) as [Hk _]. apply Z.eqb_eq in Hk.
  rewrite Hk. apply replace_row_map with (r := p); [exact Hp|].
  cbn [Product.id Product.dairy_id Product.current_stock].
  now rewrite Hk.
Qed.

(** X6.  The product handlers keep the balance of running stock and
    events: [edit_product] and [delete_product] always, [add_product]
    when no event carries the key the new product gets. *)
Theorem product_handlers_keep_balance :
  forall (pid : Z) (sess : Session) (req : Request) (db : DB),
    balanced db ->
    balanced (fst (edit_product pid sess req db))
    /\ balanced (fst (delete_product pid sess req db))
    /\ (stock_in_total db (next_id (map Product.id (products db))) = Q2Qc 0 ->
        sales_total db (next_id (map Product.id (products db))) = Q2Qc 0 ->
        balanced (fst (add_product sess req db))).
Proof.
  intros pid sess req db Hbal. split; [|split].
  - destruct (edit_product_cases pid sess req db)
      as [-> | (d & p & n & u & c & s & m & _ & Hp & _ & _ & ->)];
      [exact Hbal|].
    cbn [fst]. intros q Hq. unfold update_product in Hq; cbn [products] in Hq.
    apply in_replaced in Hq as [-> | Hq]; [|exact (Hbal q Hq)].
    apply find_key in Hp as [_ Hin]. exact (Hbal p Hin).
  - destruct (delete_product_cases pid sess req db)
      as [-> | (d & p & _ & _ & Hp & _ & ->)]; [exact Hbal|].
    cbn [fst]. intros q Hq.
    unfold delete_product_row in Hq; cbn [products] in Hq.
    apply remove_row_incl in Hq. exact (Hbal q Hq).
  - intros Hin Hout.
    destruct (add_product_cases sess req db)
      as [-> | (d & n & u & c & s & m & _ & _ & ->)]; [exact Hbal|].
    cbn [fst]. intros q Hq.
    unfold add_product_row in Hq; cbn [products] in Hq.
    apply in_app_or in Hq as [Hq | [<- | []]]; [exact (Hbal q Hq)|].
    cbn [Product.current_stock Product.id].
    change (stock_in_total (add_product_row ?a ?b ?c ?d ?e ?f db))
      with (stock_in_total db).
    change (sales_total (add_product_row ?a ?b ?c ?d ?e ?f db))
      with (sales_total db).
    rewrite Hin, Hout. ring.
Qed.

(** ** Keys stay unique *)

Lemma update_product_ids (db db1 : DB) (k : Z) (prod p' : Product.t) :
  products db1 = products db ->
  get_product db k = Some prod ->
  Product.id p' = Product.id prod ->
  map Product.id (products (update_product p' db1))
  = map Product.id (products db).
Proof.
  intros Hsame Hget Hid. unfold update_product; cbn [products].
  rewrite Hsame, Hid.
  pose proof (find_key _ _ _ Hget) as [Hk _]. apply Z.eqb_eq in Hk.
  rewrite Hk. apply replace_row_map with (r := prod); assumption.
Qed.

Lemma stock_in_page_keys (sess : Session) (req : Request) (db : DB) :
  all_keys_unique db -> all_keys_unique (fst (stock_in_page sess req db)).
Proof.
  intros (Hd & Hp & He & Hs).
  destruct (stock_in_page_cases sess req db)
    as [-> | (d & prod & pid & q & c & dt & rem & Hprod & ->)];
    [repeat split; assumption|].
  unfold all_keys_unique.
  rewrite (update_product_ids db _ pid prod) by (reflexivity || assumption).
  cbn [dairies stock_in sales update_product add_stock_in_row].
  rewrite map_app. cbn [map StockIn.id].
  repeat split; try assumption. now apply NoDup_added.
Qed.

Lemma sales_page_keys (sess : Session) (req : Request) (db : DB) :
  all_keys_unique db -> all_keys_unique (fst (sales_page sess req db)).
Proof.
  intros (Hd & Hp & He & Hs).
  destruct (sales_page_cases sess req db)
    as [-> | (d & prod & pid & q & c & dt & rem & Hprod & ->)];
    [repeat split; assumption|].
  unfold all_keys_unique.
  rewrite (update_product_ids db _ pid prod) by (reflexivity || assumption).
  cbn [dairies stock_in sales update_product add_sale_row].
  rewrite map_app. cbn [map Sale.id].
  repeat split; try assumption. now apply NoDup_added.
Qed.

Lemma edit_stock_in_keys (sid : Z) (sess : Session) (req : Request)
    (db : DB) :
  all_keys_unique db -> all_keys_unique (fst (edit_stock_in sid sess req db)).
Proof.
  intros (Hd & Hp & He & Hs).
  destruct (edit_stock_in_cases sid sess req db)
    as [-> | (st & prod & q & c & dt & rem & Hst & Hprod & ->)];
    [repeat split; assumption|].
  unfold all_keys_unique.
  rewrite (update_product_ids db _ (StockIn.product_id st) prod)
    by (reflexivity || assumption).
  cbn [dairies stock_in sales update_product update_stock_in StockIn.id].
  pose proof (find_key _ _ _ Hst) as [Hk _]. apply Z.eqb_eq in Hk.
  rewrite Hk.
  rewrite (replace_row_map _ StockIn.id st)
    by (assumption || (symmetry; exact Hk)).
  repeat split; assumption.
Qed.

Lemma edit_sale_keys (sid : Z) (sess : Session) (req : Request) (db : DB) :
  all_keys_unique db -> all_keys_unique (fst (edit_sale sid sess req db)).
Proof.
  intros (Hd & Hp & He & Hs).
  destruct (edit_sale_cases sid sess req db)
    as [-> | (sale & prod & q & c & dt & rem & Hsale & Hprod & _ & ->)];
    [repeat split; assumption|].
  unfold all_keys_unique. cbn [fst].
  rewrite (update_product_ids db _ (Sale.product_id sale) prod)
    by (reflexivity || assumption).
  cbn [fst dairies stock_in sales update_product update_sale Sale.id].
  pose proof (find_key _ _ _ Hsale) as [Hk _]. apply Z.eqb_eq in Hk.
  rewrite Hk.
  rewrite (replace_row_map _ Sale.id sale)
    by (assumption || (symmetry; exact Hk)).
  repeat split; assumption.
Qed.

Lemma delete_sale_keys (sid : Z) (sess : Session) (req : Request) (db : DB) :
  all_keys_unique db -> all_keys_unique (fst (delete_sale sid sess req db)).
Proof.
  intros (Hd & Hp & He & Hs).
  destruct (delete_sale_cases sid sess req db) as [-> | (sale & Hsale & ->)];
    [repeat split; assumption|].
  unfold all_keys_unique.
  destruct (get_product db (Sale.product_id sale)) as [prod|] eqn:Hprod.
  - change (delete_sale_row (Sale.id sale) (update_product ?p db))
      with (update_product p (delete_sale_row (Sale.id sale) db)).
    rewrite (update_product_ids db _ (Sale.product_id sale) prod)
      by (reflexivity || assumption).
    cbn [dairies stock_in sales update_product delete_sale_row].
    repeat split; try assumption. now apply remove_row_keys.
  - cbn [dairies products stock_in sales delete_sale_row].
    repeat split; try assumption. now apply remove_row_keys.
Qed.

Lemma product_handlers_keys (pid : Z) (sess : Session) (req : Request)
    (db : DB) :
  all_keys_unique db ->
  all_keys_unique (fst (add_product sess req db))
  /\ all_keys_unique (fst (edit_product pid sess req db))
  /\ all_keys_unique (fst (delete_product pid sess req db)).
Proof.
  intros (Hd & Hp & He & Hs). split; [|split].
  - destruct (add_product_cases sess req db)
      as [-> | (d & n & u & c & s & m & _ & _ & ->)];
      [repeat split; assumption|].
    unfold all_keys_unique.
    cbn [fst dairies products stock_in sales add_product_row].
    rewrite map_app. cbn [map Product.id].
    repeat split; try assumption. now apply NoDup_added.
  - destruct (edit_product_keeps_stock_and_owner pid sess req db)
      as (Hmap & H1 & H2 & H3).
    apply (f_equal (map (fun x => fst (fst x)))) in Hmap.
    rewrite !map_map in Hmap. cbn [fst] in Hmap.
    assert (Hids : map Product.id
                     (products (fst (edit_product pid sess req db)))
                   = map Product.id (products db)) by exact Hmap.
    unfold all_keys_unique. rewrite Hids, H1, H2, H3.
    repeat split; assumption.
  - destruct (delete_product_cases pid sess req db)
      as [-> | (d & p & _ & _ & _ & _ & ->)]; [repeat split; assumption|].
    unfold all_keys_unique.
    cbn [fst dairies products stock_in sales delete_product_row].
    repeat split; try assumption. now apply remove_row_keys.
Qed.

Lemma add_dairy_cases (users : list User.t) (c : Cookie.t) (req : Request)
    (upload : option string) (db : DB) :
  fst (add_dairy users c req upload db) = db
  \/ exists name username password,
       current_user_is_authenticated users c = true
       /\ existsb (fun d => String.eqb (Dairy.username d) username)
            (dairies db) = false
       /\ add_dairy users c req upload db
          = (add_dairy_row name username password upload db,
             Redirect "admin_dashboard").
Proof.
  unfold add_dairy, login_required.
  branch (current_user_is_authenticated users c) as [|] eqn:Hauth.
  branch (method req) as [|].
  branch (form_item req "name") as [name|].
  branch (form_item req "username") as [username|].
  branch (form_item req "password") as [password|].
  branch (existsb (fun d => String.eqb (Dairy.username d) username)
            (dairies db)) as [|] eqn:Hdup.
  right. exists name, username, password. repeat split. exact Hdup.
Qed.

(** X7.  Every handler that writes to the store keeps the primary keys
    of all four tables unique, whatever the request: a new row gets a
    key above all keys of its table, an edit keeps the key, a deletion
    takes a row away. *)
Theorem handlers_keep_keys_unique :
  forall (k : Z) (sess : Session) (req : Request) (db : DB)
         (users : list User.t) (c : Cookie.t) (upload : option string),
    all_keys_unique db ->
    all_keys_unique (fst (add_product sess req db))
    /\ all_keys_unique (fst (edit_product k sess req db))
    /\ all_keys_unique (fst (delete_product k sess req db))
    /\ all_keys_unique (fst (stock_in_page sess req db))
    /\ all_keys_unique (fst (edit_stock_in k sess req db))
    /\ all_keys_unique (fst (sales_page sess req db))
    /\ all_keys_unique (fst (edit_sale k sess req db))
    /\ all_keys_unique (fst (delete_sale k sess req db))
    /\ all_keys_unique (fst (add_dairy users c req upload db)).
Proof.
  intros k sess req db users c upload Huniq.
  destruct (product_handlers_keys k sess req db Huniq) as (H1 & H2 & H3).
  split; [exact H1|]. split; [exact H2|]. split; [exact H3|].
  split; [now apply stock_in_page_keys|].
  split; [now apply edit_stock_in_keys|].
  split; [now apply sales_page_keys|].
  split; [now apply edit_sale_keys|].
  split; [now apply delete_sale_keys|].
  destruct Huniq as (Hd & Hp & He & Hs).
  destruct (add_dairy_cases users c req upload db)
    as [-> | (n & u & pw & _ & _ & ->)]; [repeat split; assumption|].
  unfold all_keys_unique.
  cbn [fst dairies products stock_in sales add_dairy_row].
  rewrite map_app. cbn [map Dairy.id].
  repeat split; try assumption. now apply NoDup_added.
Qed.

(** ** What an entry does to the product *)

Lemma get_product_update_other (db : DB) (p' : Product.t) (k : Z) :
  k <> Product.id p' ->
  get_product (update_product p' db) k = get_product db k.
Proof.
  intros Hne. unfold get_product, update_product; cbn [products].
  now apply (find_replace_other Product.id).
Qed.

(** X8.  A stock-in entry makes its cost the cost price of the product
    and leaves the selling price; a sale entry makes its price the
    selling price and leaves the cost price.  Name, unit, owner and
    minimum stock stay, and no other product is touched. *)
Theorem entry_sets_reference_price :
  (forall (sess : Session) (req : Request) (db : DB) (d : Dairy.t)
          (prod : Product.t) (pid : Z) (q c : Decimal) (dt : date)
          (rem : string),
      current_dairy sess db = Some d ->
      method req = POST ->
      event_create_form "cost_price" req = inl (pid, q, c, dt, rem) ->
      get_product db pid = Some prod ->
      let db' := fst (stock_in_page sess req db) in
      get_product db' pid
      = Some (Product.mk (Product.id prod) (Product.dairy_id prod)
                (Product.name prod) (Product.unit prod) c
                (Product.sell_price prod) (Product.min_stock prod)
                (Product.current_stock prod + q)%Qc)
      /\ forall k, k <> pid -> get_product db' k = get_product db k)
  /\
  (forall (sess : Session) (req : Request) (db : DB) (d : Dairy.t)
          (prod : Product.t) (pid : Z) (q price : Decimal) (dt : date)
          (rem : string),
      current_dairy sess db = Some d ->
      method req = POST ->
      event_create_form "selling_price" req = inl (pid, q, price, dt, rem) ->
      get_product db pid = Some prod ->
      let db' := fst (sales_page sess req db) in
      get_product db' pid
      = Some (Product.mk (Product.id prod) (Product.dairy_id prod)
                (Product.name prod) (Product.unit prod)
                (Product.cost_price prod) price (Product.min_stock prod)
                (Product.current_stock prod - q)%Qc)
      /\ forall k, k <> pid -> get_product db' k = get_product db k).
Proof.
  split.
  - intros sess req db d prod pid q c dt rem Hd Hm Hform Hprod db'.
    subst db'.
    rewrite (stock_in_page_commits sess req db d prod pid q c dt rem)
      by assumption.
    cbn [fst].
    pose proof (find_key _ _ _ Hprod) as [Hk _]. apply Z.eqb_eq in Hk.
    split.
    + apply get_product_update with (prod := prod); [exact Hprod|reflexivity].
    + intros k Hne. rewrite get_product_update_other; [reflexivity|].
      cbn [Product.id Product.set_cost_price Product.set_current_stock].
      congruence.
  - intros sess req db d prod pid q c dt rem Hd Hm Hform Hprod db'.
    subst db'.
    rewrite (sales_page_commits sess req db d prod pid q c dt rem)
      by assumption.
    cbn [fst].
    pose proof (find_key _ _ _ Hprod) as [Hk _]. apply Z.eqb_eq in Hk.
    split.
    + apply get_product_update with (prod := prod); [exact Hprod|reflexivity].
    + intros k Hne. rewrite get_product_update_other; [reflexivity|].
      cbn [Product.id Product.set_sell_price Product.set_current_stock].
      congruence.
Qed.

Lemma Decimal_or_0_empty : Decimal_or_0 EmptyString = inl (Q2Qc 0).
Proof. reflexivity. Qed.

(** X9.  An empty quantity or price of an entry or edit form counts as
    zero ([Decimal(... or 0)]).  So a stock-in entry with an empty cost
    sets the cost price of the product to zero. *)
Theorem empty_number_counts_as_zero :
  (forall (price_key : string) (req : Request) (pid : Z) (q c : Decimal)
          (dt : date) (rem : string),
      event_create_form price_key req = inl (pid, q, c, dt, rem) ->
      (lookup "qty" (form req) = Some EmptyString -> q = Q2Qc 0)
      /\ (lookup price_key (form req) = Some EmptyString -> c = Q2Qc 0))
  /\
  (forall (price_key : string) (req : Request) (q c : Decimal) (dt : date)
          (rem : string),
      event_edit_form price_key req = inl (q, c, dt, rem) ->
      (lookup "qty" (form req) = Some EmptyString -> q = Q2Qc 0)
      /\ (lookup price_key (form req) = Some EmptyString -> c = Q2Qc 0))
  /\
  (forall (sess : Session) (req : Request) (db : DB) (d : Dairy.t)
          (prod : Product.t) (pid : Z) (q c : Decimal) (dt : date)
          (rem : string),
      current_dairy sess db = Some d ->
      method req = POST ->
      event_create_form "cost_price" req = inl (pid, q, c, dt, rem) ->
      get_product db pid = Some prod ->
      lookup "cost_price" (form req) = Some EmptyString ->
      option_map Product.cost_price
        (get_product (fst (stock_in_page sess req db)) pid)
      = Some (Q2Qc 0)).
Proof.
  assert (Hcreate : forall price_key req pid q c dt rem,
             event_create_form price_key req = inl (pid, q, c, dt, rem) ->
             (lookup "qty" (form req) = Some EmptyString -> q = Q2Qc 0)
             /\ (lookup price_key (form req) = Some EmptyString
                 -> c = Q2Qc 0)).
  { intros price_key req pid q c dt rem Hform.
    unfold event_create_form, form_item in Hform.
    destruct (lookup "product_id" (form req)) as [pid_s|];
      cbn [bind ret fail] in Hform; [|discriminate].
    destruct (int pid_s); cbn [bind] in Hform; [|discriminate].
    destruct (lookup "qty" (form req)) as [qty_s|] eqn:Hqty;
      cbn [bind ret fail] in Hform; [|discriminate].
    destruct (Decimal_or_0 qty_s) as [q'|] eqn:Hq; cbn [bind] in Hform;
      [|discriminate].
    destruct (lookup price_key (form req)) as [price_s|] eqn:Hprice;
      cbn [bind ret fail] in Hform; [|discriminate].
    destruct (Decimal_or_0 price_s) as [c'|] eqn:Hc; cbn [bind] in Hform;
      [|discriminate].
    destruct (match truthy (lookup "date" (form req)) with
              | Some s => strptime (Some s)
              | None => ret (today req)
              end); cbn [bind ret] in Hform; [|discriminate].
    injection Hform as _ -> -> _ _.
    split; intros [= ->].
    - rewrite Decimal_or_0_empty in Hq. now injection Hq.
    - rewrite Decimal_or_0_empty in Hc. now injection Hc. }
  split; [exact Hcreate|]. split.
  - intros price_key req q c dt rem Hform.
    unfold event_edit_form, form_item in Hform.
    destruct (lookup "qty" (form req)) as [qty_s|] eqn:Hqty;
      cbn [bind ret fail] in Hform; [|discriminate].
    destruct (Decimal_or_0 qty_s) as [q'|] eqn:Hq; cbn [bind] in Hform;
      [|discriminate].
    destruct (lookup price_key (form req)) as [price_s|] eqn:Hprice;
      cbn [bind ret fail] in Hform; [|discriminate].
    destruct (Decimal_or_0 price_s) as [c'|] eqn:Hc; cbn [bind] in Hform;
      [|discriminate].
    destruct (strptime (lookup "date" (form req))); cbn [bind ret] in Hform;
      [|discriminate].
    injection Hform as -> -> _ _.
    split; intros [= ->].
    + rewrite Decimal_or_0_empty in Hq. now injection Hq.
    + rewrite Decimal_or_0_empty in Hc. now injection Hc.
  - intros sess req db d prod pid q c dt rem Hd Hm Hform Hprod Hempty.
    destruct (proj1 entry_sets_reference_price sess req db d prod pid q c dt
                rem Hd Hm Hform Hprod) as [Hget _].
    rewrite Hget. cbn [option_map Product.cost_price].
    now rewrite (proj2 (Hcreate _ _ _ _ _ _ _ Hform) Hempty).
Qed.

(** X10.  An entry that names a product that does not exist stores
    nothing: the handler raises after the event was added to the session
    and before the commit.  The same holds for the edit of an event whose
    product is gone; such a sale can still be deleted, and no product is
    touched by that. *)
Theorem missing_product_stores_nothing :
  forall (sess : Session) (req : Request) (db : DB) (d : Dairy.t),
    current_dairy sess db = Some d ->
    method req = POST ->
    (forall pid q c dt rem,
        get_product db pid = None ->
        (event_create_form "cost_price" req = inl (pid, q, c, dt, rem) ->
         stock_in_page sess req db = (db, Raise "AttributeError"))
        /\ (event_create_form "selling_price" req = inl (pid, q, c, dt, rem)
            -> sales_page sess req db = (db, Raise "AttributeError")))
    /\ (forall sid st q c dt rem,
           get_stock_in db sid = Some st ->
           StockIn.dairy_id st = Dairy.id d ->
           get_product db (StockIn.product_id st) = None ->
           event_edit_form "cost_price" req = inl (q, c, dt, rem) ->
           edit_stock_in sid sess req db = (db, Raise "AttributeError"))
    /\ (forall sid sale,
           get_sale db sid = Some sale ->
           Sale.dairy_id sale = Dairy.id d ->
           get_product db (Sale.product_id sale) = None ->
           (forall q c dt rem,
               event_edit_form "selling_price" req = inl (q, c, dt, rem) ->
               edit_sale sid sess req db = (db, Raise "AttributeError"))
           /\ delete_sale sid sess req db
              = (mkDB (dairies db) (products db) (stock_in db)
                   (remove_row (fun s => Sale.id s =? Sale.id sale) (sales db)),
                 Redirect "sales_page")).
Proof.
  intros sess req db d Hd Hm. split; [|split].
  - intros pid q c dt rem Hnone. split; intros Hform.
    + unfold stock_in_page, acting_dairy. rewrite Hd. cbn [bind]. rewrite Hm.
      unfold event_create_form in Hform.
      destruct (form_item req "product_id") as [pid_s|]; cbn [bind] in *;
        [|discriminate].
      destruct (int pid_s) as [pid'|]; cbn [bind] in *; [|discriminate].
      destruct (form_item req "qty") as [qty_s|]; cbn [bind] in *;
        [|discriminate].
      destruct (Decimal_or_0 qty_s) as [q'|]; cbn [bind] in *;
        [|discriminate].
      destruct (form_item req "cost_price") as [cost_s|]; cbn [bind] in *;
        [|discriminate].
      destruct (Decimal_or_0 cost_s) as [c'|]; cbn [bind] in *;
        [|discriminate].
      destruct (match truthy (lookup "date" (form req)) with
                | Some s => strptime (Some s)
                | None => ret (today req)
                end) as [dt'|]; cbn [bind ret] in *; [|discriminate].
      injection Hform as -> _ _ _ _.
      change (get_product (add_stock_in_row ?a ?b ?c ?d ?e ?f db))
        with (get_product db).
      rewrite Hnone. reflexivity.
    + unfold sales_page, acting_dairy. rewrite Hd. cbn [bind]. rewrite Hm.
      unfold event_create_form in Hform.
      destruct (form_item req "product_id") as [pid_s|]; cbn [bind] in *;
        [|discriminate].
      destruct (int pid_s) as [pid'|]; cbn [bind] in *; [|discriminate].
      destruct (form_item req "qty") as [qty_s|]; cbn [bind] in *;
        [|discriminate].
      destruct (Decimal_or_0 qty_s) as [q'|]; cbn [bind] in *;
        [|discriminate].
      destruct (form_item req "selling_price") as [cost_s|]; cbn [bind] in *;
        [|discriminate].
      destruct (Decimal_or_0 cost_s) as [c'|]; cbn [bind] in *;
        [|discriminate].
      destruct (match truthy (lookup "date" (form req)) with
                | Some s => strptime (Some s)
                | None => ret (today req)
                end) as [dt'|]; cbn [bind ret] in *; [|discriminate].
      injection Hform as -> _ _ _ _.
      change (get_product (add_sale_row ?a ?b ?c ?d ?e ?f db))
        with (get_product db).
      rewrite Hnone. reflexivity.
  - intros sid st q c dt rem Hst Hown Hnone Hform.
    destruct (edit_stock_in_cases sid sess req db)
      as [Hsame | (st' & prod & _ & _ & _ & _ & Hst' & Hprod & _)].
    + unfold edit_stock_in, acting_dairy in *. rewrite Hd, Hst in *.
      cbn [bind get_or_404 ret] in *. rewrite Hown, Z.eqb_refl, Hm in *.
      cbn [negb] in *.
      unfold event_edit_form in Hform.
      destruct (form_item req "qty") as [qty_s|]; cbn [bind] in *;
        [|discriminate].
      destruct (Decimal_or_0 qty_s) as [q'|]; cbn [bind] in *;
        [|discriminate].
      destruct (form_item req "cost_price") as [cost_s|]; cbn [bind] in *;
        [|discriminate].
      destruct (Decimal_or_0 cost_s) as [c'|]; cbn [bind] in *;
        [|discriminate].
      destruct (strptime (lookup "date" (form req))) as [dt'|];
        cbn [bind ret] in *; [|discriminate].
      change (get_product (update_stock_in ?s db)) with (get_product db).
      cbn [StockIn.product_id]. rewrite Hnone. reflexivity.
    + rewrite Hst in Hst'. injection Hst' as <-. congruence.
  - intros sid sale Hsale Hown Hnone. split.
    + intros q c dt rem Hform.
      destruct (edit_sale_cases sid sess req db)
        as [Hsame | (sale' & prod & _ & _ & _ & _ & Hsale' & Hprod & _)].
      * unfold edit_sale, acting_dairy in *. rewrite Hd, Hsale in *.
        cbn [bind get_or_404 ret] in *. rewrite Hown, Z.eqb_refl, Hm in *.
        cbn [negb] in *.
        unfold event_edit_form in Hform.
        destruct (form_item req "qty") as [qty_s|]; cbn [bind] in *;
          [|discriminate].
        destruct (Decimal_or_0 qty_s) as [q'|]; cbn [bind] in *;
          [|discriminate].
        destruct (form_item req "selling_price") as [cost_s|];
          cbn [bind] in *; [|discriminate].
        destruct (Decimal_or_0 cost_s) as [c'|]; cbn [bind] in *;
          [|discriminate].
        destruct (strptime (lookup "date" (form req))) as [dt'|];
          cbn [bind ret] in *; [|discriminate].
        change (get_product (update_sale ?s db)) with (get_product db).
        cbn [Sale.product_id]. rewrite Hnone. reflexivity.
      * rewrite Hsale in Hsale'. injection Hsale' as <-. congruence.
    + unfold delete_sale, acting_dairy, post_only.
      rewrite Hm, Hd, Hsale. cbn [bind get_or_404 ret].
      rewrite Hown, Z.eqb_refl, Hnone. reflexivity.
Qed.

(** ** Events and the rows they point to *)

Lemma current_dairy_resolves (sess : Session) (db : DB) (d : Dairy.t) :
  current_dairy sess db = Some d -> get_dairy db (Dairy.id d) = Some d.
Proof.
  unfold current_dairy.
  destruct (session_dairy_id sess) as [did|]; [|discriminate].
  destruct (did =? 0); [discriminate|]. intros Hget.
  pose proof (find_key _ _ _ Hget) as [Hk _]. apply Z.eqb_eq in Hk.
  now rewrite Hk.
Qed.

Lemma get_product_update_some (db db1 : DB) (p' prod : Product.t) (k pid : Z) :
  products db1 = products db ->
  get_product db pid = Some prod ->
  Product.id p' = Product.id prod ->
  get_product db k <> None ->
  get_product (update_product p' db1) k <> None.
Proof.
  intros Hsame Hprod Hid Hsome.
  unfold get_product, update_product in *; cbn [products]. rewrite Hsame.
  apply (find_replace_some Product.id); [reflexivity | exact Hsome].
Qed.

Lemma stock_in_page_cases_dairy (sess : Session) (req : Request) (db : DB) :
  fst (stock_in_page sess req db) = db
  \/ exists d prod pid q c dt rem,
       current_dairy sess db = Some d
       /\ get_product db pid = Some prod
       /\ fst (stock_in_page sess req db)
          = update_product
              (Product.set_cost_price c
                 (Product.set_current_stock
                    (Product.current_stock prod + q)%Qc prod))
              (add_stock_in_row (Dairy.id d) pid q c dt rem db).
Proof.
  unfold stock_in_page, acting_dairy.
  branch (current_dairy sess db) as [d|] eqn:Hd.
  branch (method req) as [|].
  branch (form_item req "product_id") as [pid_s|].
  branch (int pid_s) as [pid|].
  branch (form_item req "qty") as [qty_s|].
  branch (Decimal_or_0 qty_s) as [q|].
  branch (form_item req "cost_price") as [cost_s|].
  branch (Decimal_or_0 cost_s) as [c|].
  branch (match truthy (lookup "date" (form req)) with
          | Some s => strptime (Some s)
          | None => ret (today req)
          end) as [dt|].
  change (get_product (add_stock_in_row ?a ?b ?c ?d ?e ?f db))
    with (get_product db).
  branch (get_product db pid) as [prod|] eqn:Hprod.
  right.
  exists d, prod, pid, q, c, dt,
    (match truthy (lookup "remarks" (form req)) with
     | Some s => s
     | None => EmptyString
     end).
  repeat split; assumption.
Qed.

Lemma sales_page_cases_dairy (sess : Session) (req : Request) (db : DB) :
  fst (sales_page sess req db) = db
  \/ exists d prod pid q c dt rem,
       current_dairy sess db = Some d
       /\ get_product db pid = Some prod
       /\ fst (sales_page sess req db)
          = update_product
              (Product.set_sell_price c
                 (Product.set_current_stock
                    (Product.current_stock prod - q)%Qc prod))
              (add_sale_row (Dairy.id d) pid q c dt rem db).
Proof.
  unfold sales_page, acting_dairy.
  branch (current_dairy sess db) as [d|] eqn:Hd.
  branch (method req) as [|].
  branch (form_item req "product_id") as [pid_s|].
  branch (int pid_s) as [pid|].
  branch (form_item req "qty") as [qty_s|].
  branch (Decimal_or_0 qty_s) as [q|].
  branch (form_item req "selling_price") as [price_s|].
  branch (Decimal_or_0 price_s) as [c|].
  branch (match truthy (lookup "date" (form req)) with
          | Some s => strptime (Some s)
          | None => ret (today req)
          end) as [dt|].
  change (get_product (add_sale_row ?a ?b ?c ?d ?e ?f db))
    with (get_product db).
  branch (get_product db pid) as [prod|] eqn:Hprod.
  right.
  exists d, prod, pid, q, c, dt,
    (match truthy (lookup "remarks" (form req)) with
     | Some s => s
     | None => EmptyString
     end).
  repeat split; assumption.
Qed.

(** A store whose products are those of [db] with one of them rewritten
    under its key, and whose events are events of [db] or point to rows
    of [db], resolves its references when [db] does. *)
Lemma references_after_update (db db1 : DB) (p' prod : Product.t) (pid : Z) :
  references_resolve db ->
  dairies db1 = dairies db ->
  products db1 = products db ->
  get_product db pid = Some prod ->
  Product.id p' = Product.id prod ->
  (forall e, In e (stock_in db1) ->
     In e (stock_in db)
     \/ (get_dairy db (StockIn.dairy_id e) <> None
         /\ get_product db (StockIn.product_id e) <> None)) ->
  (forall s, In s (sales db1) ->
     In s (sales db)
     \/ (get_dairy db (Sale.dairy_id s) <> None
         /\ get_product db (Sale.product_id s) <> None)) ->
  references_resolve (update_product p' db1).
Proof.
  intros [Hin Hout] Hdairies Hproducts Hprod Hid Hev Hsa.
  assert (Hd : forall k, get_dairy (update_product p' db1) k = get_dairy db k).
  { intros k. unfold get_dairy, update_product; cbn [dairies].
    now rewrite Hdairies. }
  split.
  - intros e He. cbn [stock_in update_product] in He.
    rewrite Hd.
    assert (H : get_dairy db (StockIn.dairy_id e) <> None
                /\ get_product db (StockIn.product_id e) <> None).
    { destruct (Hev e He) as [Hold | Hnew]; [now apply Hin | exact Hnew]. }
    split; [apply H|].
    apply get_product_update_some with (db := db) (prod := prod) (pid := pid);
      try assumption. apply H.
  - intros s Hs. cbn [sales update_product] in Hs.
    rewrite Hd.
    assert (H : get_dairy db (Sale.dairy_id s) <> None
                /\ get_product db (Sale.product_id s) <> None).
    { destruct (Hsa s Hs) as [Hold | Hnew]; [now apply Hout | exact Hnew]. }
    split; [apply H|].
    apply get_product_update_some with (db := db) (prod := prod) (pid := pid);
      try assumption. apply H.
Qed.

Lemma handle_keeps_references (op : operation) (sess : Session)
    (req : Request) (db : DB) :
  references_resolve db -> references_resolve (fst (handle op sess req db)).
Proof.
  intros Href. destruct op as [|sid| |sid|sid]; cbn [handle].
  - destruct (stock_in_page_cases_dairy sess req db)
      as [-> | (d & prod & pid & q & c & dt & rem & Hd & Hprod & ->)];
      [exact Href|].
    apply references_after_update with (db := db) (prod := prod) (pid := pid);
      try assumption; try reflexivity; [|now left].
    intros e He. cbn [stock_in add_stock_in_row] in He.
    apply in_app_or in He as [He | [<- | []]]; [now left|].
    right. cbn [StockIn.dairy_id StockIn.product_id].
    rewrite (current_dairy_resolves _ _ _ Hd), Hprod. split; discriminate.
  - destruct (edit_stock_in_cases sid sess req db)
      as [-> | (st & prod & q & c & dt & rem & Hst & Hprod & ->)];
      [exact Href|].
    apply references_after_update
      with (db := db) (prod := prod) (pid := StockIn.product_id st);
      try assumption; try reflexivity; [|now left].
    intros e He. cbn [stock_in update_stock_in] in He.
    apply in_replaced in He as [-> | He]; [|now left].
    right. cbn [StockIn.dairy_id StockIn.product_id].
    apply find_key in Hst as [_ Hin]. now apply (proj1 Href).
  - destruct (sales_page_cases_dairy sess req db)
      as [-> | (d & prod & pid & q & c & dt & rem & Hd & Hprod & ->)];
      [exact Href|].
    apply references_after_update with (db := db) (prod := prod) (pid := pid);
      try assumption; try reflexivity; [now left|].
    intros s Hs. cbn [sales add_sale_row] in Hs.
    apply in_app_or in Hs as [Hs | [<- | []]]; [now left|].
    right. cbn [Sale.dairy_id Sale.product_id].
    rewrite (current_dairy_resolves _ _ _ Hd), Hprod. split; discriminate.
  - destruct (edit_sale_cases sid sess req db)
      as [-> | (sale & prod & q & c & dt & rem & Hsale & Hprod & _ & ->)];
      [exact Href|].
    cbn [fst].
    apply references_after_update
      with (db := db) (prod := prod) (pid := Sale.product_id sale);
      try assumption; try reflexivity; [now left|].
    intros s Hs. cbn [sales update_sale] in Hs.
    apply in_replaced in Hs as [-> | Hs]; [|now left].
    right. cbn [Sale.dairy_id Sale.product_id].
    apply find_key in Hsale as [_ Hin]. now apply (proj2 Href).
  - destruct (delete_sale_cases sid sess req db) as [-> | (sale & Hsale & ->)];
      [exact Href|].
    destruct (get_product db (Sale.product_id sale)) as [prod|] eqn:Hprod.
    + change (delete_sale_row (Sale.id sale) (update_product ?p db))
        with (update_product p (delete_sale_row (Sale.id sale) db)).
      apply references_after_update
        with (db := db) (prod := prod) (pid := Sale.product_id sale);
        try assumption; try reflexivity; [now left|].
      intros s Hs. cbn [sales delete_sale_row] in Hs.
      left. now apply remove_row_incl in Hs.
    + destruct Href as [Hin Hout]. split; [exact Hin|].
      intros s Hs. cbn [sales delete_sale_row] in Hs.
      apply remove_row_incl in Hs. now apply Hout.
Qed.

(** X11.  The entries, edits and deletions of events never leave an event
    that points to a missing dairy or product: after any sequence of them
    on a store whose references resolve, the references resolve, and the
    report comes out for every request whose filters are read. *)
Theorem event_requests_keep_references :
  forall (history : list (operation * Session * Request)) (db : DB),
    references_resolve db ->
    references_resolve (replay history db)
    /\ forall sess req f,
         reports_filters sess req (replay history db) = inl f ->
         exists rows totals,
           reports_rows sess req (replay history db) = inl (rows, totals).
Proof.
  intros history db Href.
  assert (H : references_resolve (replay history db)).
  { revert db Href.
    induction history as [|[[op sess] req] rest IH]; intros db Href;
      cbn [replay]; [exact Href|].
    apply IH. now apply handle_keeps_references. }
  split; [exact H|].
  intros sess req f Hf. unfold reports_rows. rewrite Hf. cbn [bind].
  destruct (build_rows_result true (replay history db)
              (filter_stock_in f (replay history db))
              (filter_sales f (replay history db))
              (filtered_stock_in_resolve _ f H)
              (filtered_sales_resolve _ f H))
    as (in_rows & out_rows & _ & _ & ->).
  eexists. eexists. reflexivity.
Qed.

(** ** How a report fails *)

Lemma foldM_raises {A B} (f : A -> B -> result A) (E : response)
    (l : list B) :
  (forall a b r, f a b = inr r -> r = E) ->
  forall a r, foldM f l a = inr r -> r = E.
Proof.
  intros Hf. induction l as [|b l IH]; intros a r; cbn [foldM].
  - discriminate.
  - destruct (f a b) as [a'|r'] eqn:Hfab; cbn [bind].
    + apply IH.
    + intros [= <-]. now apply (Hf a b).
Qed.

Lemma foldM_bad_entry {A B} (f : A -> B -> result A) (E : response)
    (l : list B) (b : B) :
  (forall a b r, f a b = inr r -> r = E) ->
  In b l ->
  (forall a, f a b = inr E) ->
  forall a, foldM f l a = inr E.
Proof.
  intros Hf Hin Hbad. induction l as [|x l IH]; intros a; [destruct Hin|].
  cbn [foldM].
  destruct (f a x) as [a'|r'] eqn:Hfax; cbn [bind].
  - destruct Hin as [-> | Hin]; [|now apply IH].
    rewrite Hbad in Hfax. discriminate.
  - f_equal. now apply (Hf a x).
Qed.

Lemma add_stock_in_entry_raises (with_logo : bool) (db : DB) acc e r :
  add_stock_in_entry with_logo db acc e = inr r -> r = Raise "AttributeError".
Proof.
  unfold add_stock_in_entry, stock_in_row.
  destruct (get_dairy db (StockIn.dairy_id e)); cbn [bind deref ret fail];
    [|now intros [= <-]].
  destruct (get_product db (StockIn.product_id e)); cbn [bind deref ret fail];
    [discriminate | now intros [= <-]].
Qed.

Lemma add_sale_entry_raises (with_logo : bool) (db : DB) acc s r :
  add_sale_entry with_logo db acc s = inr r -> r = Raise "AttributeError".
Proof.
  unfold add_sale_entry, sale_row.
  destruct (get_product db (Sale.product_id s)); cbn [bind deref ret fail];
    [|now intros [= <-]].
  destruct (get_dairy db (Sale.dairy_id s)); cbn [bind deref ret fail];
    [discriminate | now intros [= <-]].
Qed.

Lemma build_rows_raises (with_logo : bool) (db : DB) sis ss r :
  build_rows with_logo db sis ss = inr r -> r = Raise "AttributeError".
Proof.
  unfold build_rows.
  destruct (foldM (add_stock_in_entry with_logo db) sis _) as [acc1|r1]
    eqn:H1; cbn [bind].
  - destruct (foldM (add_sale_entry with_logo db) ss acc1) as [acc2|r2]
      eqn:H2; cbn [bind ret]; [discriminate|].
    intros [= <-].
    eapply foldM_raises; [|exact H2]. apply add_sale_entry_raises.
  - intros [= <-].
    eapply foldM_raises; [|exact H1]. apply add_stock_in_entry_raises.
Qed.

(** An entry whose product is gone stops the loops. *)
Lemma build_rows_orphan (with_logo : bool) (db : DB) sis ss :
  (exists e, In e sis /\ get_product db (StockIn.product_id e) = None)
  \/ (exists s, In s ss /\ get_product db (Sale.product_id s) = None) ->
  build_rows with_logo db sis ss = inr (Raise "AttributeError").
Proof.
  intros Horphan. unfold build_rows.
  destruct (foldM (add_stock_in_entry with_logo db) sis _) as [acc1|r1]
    eqn:H1; cbn [bind].
  - destruct Horphan as [(e & He & Hnone) | (s & Hs & Hnone)].
    + rewrite (foldM_bad_entry _ (Raise "AttributeError") sis e) in H1;
        [discriminate | apply add_stock_in_entry_raises | exact He |].
      intros a. unfold add_stock_in_entry, stock_in_row. rewrite Hnone.
      now destruct (get_dairy db (StockIn.dairy_id e)).
    + rewrite (foldM_bad_entry _ (Raise "AttributeError") ss s);
        [reflexivity | apply add_sale_entry_raises | exact Hs |].
      intros a. unfold add_sale_entry, sale_row. now rewrite Hnone.
  - f_equal. eapply foldM_raises; [|exact H1].
    apply add_stock_in_entry_raises.
Qed.

Lemma digits_of_raises (v : option str_or_int) (r : response) :
  digits_of v = inr r -> r = Raise "ValueError".
Proof.
  unfold digits_of, int.
  destruct v as [[s|n]|]; [| |discriminate].
  - destruct (truthy (Some s)) as [s'|]; [|discriminate].
    destruct (str_isdigit s'); [|discriminate].
    destruct (int_of_str s'); cbn [bind ret fail]; [discriminate|].
    now intros [= <-].
  - destruct (n =? 0); [discriminate|]. destruct (0 <=? n); discriminate.
Qed.

(** X12.  The report pages have no gate: they never redirect and never
    abort, whoever asks.  A report request that fails, fails by an
    uncaught exception: ValueError (from [int]) or AttributeError (from
    an event that points to a missing dairy or product). *)
Theorem report_fails_only_by_exception :
  forall (sess : Session) (req : Request) (db : DB) (r : response),
    (reports sess req db = inr r ->
     r = Raise "ValueError" \/ r = Raise "AttributeError")
    /\ (reports_pdf_rows req db = inr r ->
        r = Raise "ValueError" \/ r = Raise "AttributeError").
Proof.
  intros sess req db r. split.
  - unfold reports, reports_rows, reports_filters.
    destruct (digits_of (reports_did sess req db)) as [did_int|r1] eqn:Hdid;
      cbn [bind]; [|intros [= <-]; left; now apply digits_of_raises in Hdid].
    destruct (digits_of (opt_str _)) as [pid_int|r2] eqn:Hpid; cbn [bind ret];
      [|intros [= <-]; left; now apply digits_of_raises in Hpid].
    destruct (build_rows true db _ _) as [[rows totals]|r3] eqn:Hbuild;
      cbn [bind];
      [|intros [= <-]; right; now apply build_rows_raises in Hbuild].
    destruct (lookup "page" (args req)) as [s|]; cbn [bind ret];
      [|discriminate].
    unfold int. destruct (int_of_str s); cbn [bind ret fail];
      [discriminate|]. intros [= <-]. now left.
  - unfold reports_pdf_rows, reports_pdf_filters.
    destruct (digits_of (opt_str (lookup "product" (args req))))
      as [pid_int|r2] eqn:Hpid; cbn [bind ret];
      [|intros [= <-]; left; now apply digits_of_raises in Hpid].
    intros Hbuild. right. now apply build_rows_raises in Hbuild.
Qed.

(** X13.  Deleting a product leaves its stock-in events and sales in the
    store.  From then on every report whose filters let one of them
    through raises AttributeError instead of listing rows. *)
Theorem deleted_product_breaks_reports :
  forall (pid : Z) (sess : Session) (req : Request) (db : DB) (d : Dairy.t)
         (p : Product.t),
    product_keys_unique db ->
    current_dairy sess db = Some d ->
    method req = POST ->
    get_product db pid = Some p ->
    Product.dairy_id p = Dairy.id d ->
    let db' := fst (delete_product pid sess req db) in
    snd (delete_product pid sess req db) = Redirect "products"
    /\ get_product db' pid = None
    /\ stock_in db' = stock_in db
    /\ sales db' = sales db
    /\ forall sess' req' f,
         reports_filters sess' req' db' = inl f ->
         (exists e, In e (filter_stock_in f db')
                    /\ StockIn.product_id e = pid)
         \/ (exists s, In s (filter_sales f db') /\ Sale.product_id s = pid) ->
         reports_rows sess' req' db' = inr (Raise "AttributeError").
Proof.
  intros pid sess req db d p Huniq Hd Hm Hp Hown db'.
  assert (Hdel : delete_product pid sess req db
                 = (delete_product_row (Product.id p) db,
                    Redirect "products")).
  { unfold delete_product, acting_dairy, post_only.
    rewrite Hm, Hd, Hp. cbn [bind get_or_404 ret].
    now rewrite Hown, Z.eqb_refl. }
  subst db'. rewrite Hdel. cbn [fst snd].
  pose proof (find_key _ _ _ Hp) as [Hk _]. apply Z.eqb_eq in Hk.
  assert (Hgone : get_product (delete_product_row (Product.id p) db) pid
                  = None).
  { unfold get_product, delete_product_row; cbn [products]. rewrite Hk.
    now apply (find_remove_row Product.id). }
  split; [reflexivity|]. split; [exact Hgone|].
  split; [reflexivity|]. split; [reflexivity|].
  intros sess' req' f Hf Horphan.
  unfold reports_rows. rewrite Hf. cbn [bind].
  apply build_rows_orphan.
  destruct Horphan as [(e & He & Hpid) | (s & Hs & Hpid)].
  - left. exists e. split; [exact He|]. now rewrite Hpid.
  - right. exists s. split; [exact Hs|]. now rewrite Hpid.
Qed.

(** ** A sale entered and deleted *)



(** ** What a report lists *)

Lemma Forall2_right {A B} (R : A -> B -> Prop) (P : B -> Prop)
    (l : list A) (l' : list B) :
  Forall2 R l l' ->
  (forall a b, In a l -> R a b -> P b) ->
  Forall P l'.
Proof.
  induction 1 as [|a b l l' Hab _ IH]; intros HP; constructor.
  - apply (HP a b); [now left | exact Hab].
  - apply IH. intros a' b' Hin. apply HP. now right.
Qed.

Lemma stock_in_row_names (with_logo : bool) (db : DB) (e : StockIn.t)
    (r : ReportRow.t) :
  stock_in_row with_logo db e = inl r ->
  option_map Dairy.name (get_dairy db (StockIn.dairy_id e))
  = Some (ReportRow.dairy r)
  /\ option_map Product.name (get_product db (StockIn.product_id e))
     = Some (ReportRow.product r).
Proof.
  unfold stock_in_row.
  destruct (get_dairy db (StockIn.dairy_id e)); cbn [bind deref ret fail];
    [|discriminate].
  destruct (get_product db (StockIn.product_id e)); cbn [bind deref ret fail];
    [|discriminate].
  intros [= <-]. split; reflexivity.
Qed.

Lemma sale_row_names (with_logo : bool) (db : DB) (s : Sale.t)
    (r : ReportRow.t) :
  sale_row with_logo db s = inl r ->
  option_map Dairy.name (get_dairy db (Sale.dairy_id s))
  = Some (ReportRow.dairy r)
  /\ option_map Product.name (get_product db (Sale.product_id s))
     = Some (ReportRow.product r).
Proof.
  unfold sale_row.
  destruct (get_product db (Sale.product_id s)); cbn [bind deref ret fail];
    [|discriminate].
  destruct (get_dairy db (Sale.dairy_id s)); cbn [bind deref ret fail];
    [|discriminate].
  intros [= <-]. split; reflexivity.
Qed.

Lemma opt_test_eqb (x : Z) (o : option Z) (k : Z) :
  opt_test (fun y => x =? y) o = true -> o = Some k -> x = k.
Proof. intros H ->. now apply Z.eqb_eq in H. Qed.

(** X15.  The report has as many rows as there are stock-in events and
    sales that pass the filters.  Every row has a date between the two
    ends of the range, when they are set; when a dairy or a product is
    chosen, every row carries the name of that dairy or product. *)
Theorem report_rows_within_filters :
  forall (sess : Session) (req : Request) (db : DB) (f : Filters),
    references_resolve db ->
    reports_filters sess req db = inl f ->
    exists rows totals,
      reports_rows sess req db = inl (rows, totals)
      /\ List.length rows
         = (List.length (filter_stock_in f db)
            + List.length (filter_sales f db))%nat
      /\ Forall
           (fun r =>
              (forall a, date_from f = Some a ->
                         date_leb a (ReportRow.date r) = true)
              /\ (forall b, date_to f = Some b ->
                            date_leb (ReportRow.date r) b = true)
              /\ (forall k, by_dairy f = Some k ->
                    option_map Dairy.name (get_dairy db k)
                    = Some (ReportRow.dairy r))
              /\ (forall k, by_product f = Some k ->
                    option_map Product.name (get_product db k)
                    = Some (ReportRow.product r)))
           rows.
Proof.
  intros sess req db f Href Hf.
  unfold reports_rows. rewrite Hf. cbn [bind].
  destruct (build_rows_result true db (filter_stock_in f db)
              (filter_sales f db)
              (filtered_stock_in_resolve db f Href)
              (filtered_sales_resolve db f Href))
    as (in_rows & out_rows & Hin & Hout & ->).
  eexists. eexists. split; [reflexivity|].
  pose proof (sorted_reverse_perm _ ReportRow.date (in_rows ++ out_rows))
    as Hperm.
  split.
  - rewrite (Permutation_length Hperm), length_app.
    now rewrite (Forall2_length Hin), (Forall2_length Hout).
  - eapply Permutation_Forall; [symmetry; exact Hperm|].
    apply Forall_app. split.
    + eapply Forall2_right; [exact Hin|].
      intros e r He Hr. cbn beta.
      unfold filter_stock_in in He. apply filter_In in He as [_ Hpass].
      apply andb_prop in Hpass as [Hpass Hp].
      apply andb_prop in Hpass as [Hpass Hto].
      apply andb_prop in Hpass as [Hd Hfrom].
      pose proof (stock_in_row_fields _ _ _ _ Hr)
        as (_ & _ & _ & _ & _ & Hdate).
      pose proof (stock_in_row_names _ _ _ _ Hr) as [Hdn Hpn].
      rewrite Hdate.
      repeat split.
      * intros a Ha. now rewrite Ha in Hfrom.
      * intros b Hb. now rewrite Hb in Hto.
      * intros k Hk. now rewrite <- (opt_test_eqb _ _ k Hd Hk).
      * intros k Hk. now rewrite <- (opt_test_eqb _ _ k Hp Hk).
    + eapply Forall2_right; [exact Hout|].
      intros s r Hs Hr. cbn beta.
      unfold filter_sales in Hs. apply filter_In in Hs as [_ Hpass].
      apply andb_prop in Hpass as [Hpass Hp].
      apply andb_prop in Hpass as [Hpass Hto].
      apply andb_prop in Hpass as [Hd Hfrom].
      pose proof (sale_row_fields _ _ _ _ Hr)
        as (p & _ & _ & _ & _ & _ & _ & Hdate).
      pose proof (sale_row_names _ _ _ _ Hr) as [Hdn Hpn].
      rewrite Hdate.
      repeat split.
      * intros a Ha. now rewrite Ha in Hfrom.
      * intros b Hb. now rewrite Hb in Hto.
      * intros k Hk. now rewrite <- (opt_test_eqb _ _ k Hd Hk).
      * intros k Hk. now rewrite <- (opt_test_eqb _ _ k Hp Hk).
Qed.

(** X16.  Without dates in the request the report page and the dashboard
    cover today and nothing else, while the PDF report covers all
    dates: it has no default. *)
Theorem default_date_range :
  (forall (sess : Session) (req : Request) (db : DB) (f : Filters),
      truthy (or_else (lookup "from" (form req)) (lookup "from" (args req)))
      = None ->
      truthy (or_else (lookup "to" (form req)) (lookup "to" (args req)))
      = None ->
      reports_filters sess req db = inl f ->
      date_from f = Some (today req) /\ date_to f = Some (today req))
  /\
  (forall (req : Request),
      truthy (lookup "from" (args req)) = None ->
      truthy (lookup "to" (args req)) = None ->
      dashboard_dates req = (today req, today req))
  /\
  (forall (req : Request) (f : Filters),
      truthy (lookup "from" (args req)) = None ->
      truthy (lookup "to" (args req)) = None ->
      reports_pdf_filters req = inl f ->
      date_from f = None /\ date_to f = None).
Proof.
  split; [|split].
  - intros sess req db f Hfrom Hto.
    unfold reports_filters, reports_date. rewrite Hfrom, Hto.
    destruct (digits_of (reports_did sess req db)); cbn [bind];
      [|discriminate].
    destruct (digits_of (opt_str _)); cbn [bind ret]; [|discriminate].
    intros [= <-]. split; reflexivity.
  - intros req Hfrom Hto. unfold dashboard_dates. now rewrite Hfrom, Hto.
  - intros req f Hfrom Hto. unfold reports_pdf_filters. rewrite Hfrom, Hto.
    destruct (digits_of (opt_str (lookup "product" (args req))));
      cbn [bind ret]; [|discriminate].
    intros [= <-].
    destruct (digits_of (opt_str (lookup "dairy" (args req))));
      split; reflexivity.
Qed.

(** X17.  A report without any event in range shows one empty page with
    all totals at zero and writes no spreadsheet. *)
Theorem empty_report :
  forall (sess : Session) (req : Request) (db : DB) (f : Filters)
         (page : Z),
    reports_filters sess req db = inl f ->
    filter_stock_in f db = [] ->
    filter_sales f db = [] ->
    match lookup "page" (args req) with
    | Some s => int s
    | None => ret 1
    end = inl page ->
    exists pg,
      reports sess req db = inl pg
      /\ page_rows pg = []
      /\ page_number pg = page
      /\ page_total_pages pg = 1
      /\ page_totals pg
         = Totals.mk _ float_zero float_zero float_zero float_zero float_zero
      /\ page_out pg = false
      /\ excel pg = None.
Proof.
  intros sess req db f page Hf Hin Hout Hpage.
  assert (Hdid : exists did_int,
             digits_of (reports_did sess req db) = inl did_int).
  { unfold reports_filters in Hf.
    destruct (digits_of (reports_did sess req db)) as [did_int|];
      [eauto | discriminate]. }
  destruct Hdid as [did_int Hdid].
  unfold reports, reports_rows. rewrite Hf. cbn [bind].
  rewrite Hin, Hout. cbn [build_rows foldM bind ret fst snd sorted_reverse
                          fold_right].
  rewrite Hpage. cbn [bind]. rewrite Hdid. cbn [bind ret].
  eexists. split; [reflexivity|].
  cbn [page_rows page_number page_total_pages page_totals page_out excel].
  repeat split.
  unfold paginated_rows, slice. now rewrite skipn_nil, firstn_nil.
Qed.

(** X18.  The totals of a report page are those of all its rows, not of
    the page shown, and the spreadsheet written with it holds all the
    sorted rows; it is written exactly when there is a row. *)
Theorem report_spreadsheet :
  forall (sess : Session) (req : Request) (db : DB) (pg : ReportPage),
    reports sess req db = inl pg ->
    exists rows totals,
      reports_rows sess req db = inl (rows, totals)
      /\ page_totals pg = totals
      /\ (rows = [] -> excel pg = None /\ page_out pg = false)
      /\ (rows <> [] -> excel pg = Some rows /\ page_out pg = true).
Proof.
  intros sess req db pg. unfold reports.
  destruct (reports_rows sess req db) as [[rows totals]|]; cbn [bind];
    [|discriminate].
  destruct (match lookup "page" (args req) with
            | Some s => int s
            | None => ret 1
            end) as [page|]; cbn [bind]; [|discriminate].
  destruct (digits_of (reports_did sess req db)) as [did_int|]; cbn [bind];
    [|discriminate].
  intros [= <-]. exists rows, totals.
  cbn [fst snd page_totals excel page_out].
  split; [reflexivity|]. split; [reflexivity|].
  destruct rows as [|r rows]; split; intros H;
    try discriminate; try contradiction; split; reflexivity.
Qed.

(** ** Listings *)

Lemma StronglySorted_app_inv {A} (R : A -> A -> Prop) (l1 l2 : list A) :
  StronglySorted R (l1 ++ l2) ->
  StronglySorted R l1 /\ forall x y, In x l1 -> In y l2 -> R x y.
Proof.
  induction l1 as [|a l1 IH]; cbn [app]; intros Hs.
  - split; [constructor | intros x y []].
  - apply StronglySorted_inv in Hs as [Hs Ha]. destruct (IH Hs) as [H1 H2].
    split.
    + constructor; [exact H1|]. apply Forall_forall. intros x Hx.
      rewrite Forall_forall in Ha. apply Ha. apply in_or_app. now left.
    + intros x y [<- | Hx] Hy; [|now apply H2].
      rewrite Forall_forall in Ha. apply Ha. apply in_or_app. now right.
Qed.

(** The first [n] of a list sorted latest first: they are sorted, and
    what is cut off is not later than what is kept. *)
Lemma latest_kept {A} (key : A -> date) (n : nat) (l : list A) :
  let shown := firstn n (sorted_reverse key l) in
  (List.length shown <= n)%nat
  /\ StronglySorted (latest_first key) shown
  /\ (forall x, In x shown -> In x l)
  /\ ((List.length l <= n)%nat -> forall x, In x l -> In x shown)
  /\ (forall x y, In x l -> ~ In x shown -> In y shown ->
        date_leb (key x) (key y) = true).
Proof.
  intros shown. subst shown.
  pose proof (sorted_reverse_sorted _ key l) as Hsorted.
  pose proof (sorted_reverse_perm _ key l) as Hperm.
  rewrite <- (firstn_skipn n (sorted_reverse key l)) in Hsorted.
  apply StronglySorted_app_inv in Hsorted as [Hs Hcut].
  split; [apply firstn_le_length|]. split; [exact Hs|]. split; [|split].
  - intros x Hx. apply (Permutation_in _ Hperm).
    rewrite <- (firstn_skipn n (sorted_reverse key l)).
    apply in_or_app. now left.
  - intros Hlen x Hx.
    rewrite firstn_all2
      by (rewrite (Permutation_length Hperm); exact Hlen).
    now apply (Permutation_in _ (Permutation_sym Hperm)).
  - intros x y Hx Hnot Hy.
    apply (Permutation_in _ (Permutation_sym Hperm)) in Hx.
    rewrite <- (firstn_skipn n (sorted_reverse key l)) in Hx.
    apply in_app_or in Hx as [Hx | Hx]; [contradiction|].
    exact (Hcut y x Hy Hx).
Qed.

(** X19.  The pages of a dairy list its own rows only.  The products
    page lists all products of the acting dairy.  The stock-in and sales
    pages list at most 200 entries of the acting dairy, latest first: an
    entry of the dairy that is left out is never later than one that is
    shown. *)
Theorem listings_show_own_rows :
  forall (sess : Session) (db : DB) (d : Dairy.t),
    current_dairy sess db = Some d ->
    exists ps es ss,
      products_view sess db = inl ps
      /\ stock_in_trans sess db = inl es
      /\ sales_trans sess db = inl ss
      /\ (forall p, In p ps <->
                    In p (products db) /\ Product.dairy_id p = Dairy.id d)
      /\ (List.length es <= 200)%nat
      /\ StronglySorted (latest_first StockIn.date) es
      /\ (forall e, In e es ->
                    In e (stock_in db) /\ StockIn.dairy_id e = Dairy.id d)
      /\ (forall e x, In e (stock_in db) -> StockIn.dairy_id e = Dairy.id d ->
                      ~ In e es -> In x es ->
                      date_leb (StockIn.date e) (StockIn.date x) = true)
      /\ (List.length ss <= 200)%nat
      /\ StronglySorted (latest_first Sale.date) ss
      /\ (forall s, In s ss ->
                    In s (sales db) /\ Sale.dairy_id s = Dairy.id d)
      /\ (forall s x, In s (sales db) -> Sale.dairy_id s = Dairy.id d ->
                      ~ In s ss -> In x ss ->
                      date_leb (Sale.date s) (Sale.date x) = true).
Proof.
  intros sess db d Hd.
  unfold products_view, stock_in_trans, sales_trans, acting_dairy.
  rewrite Hd. cbn [bind ret].
  eexists. eexists. eexists.
  split; [reflexivity|]. split; [reflexivity|]. split; [reflexivity|].
  split.
  { intros p. rewrite filter_In, Z.eqb_eq. tauto. }
  destruct (latest_kept StockIn.date 200
              (filter (fun e => StockIn.dairy_id e =? Dairy.id d)
                 (stock_in db))) as (He1 & He2 & He3 & _ & He5).
  destruct (latest_kept Sale.date 200
              (filter (fun s => Sale.dairy_id s =? Dairy.id d) (sales db)))
    as (Hs1 & Hs2 & Hs3 & _ & Hs5).
  split; [exact He1|]. split; [exact He2|]. split.
  { intros e He. apply He3 in He. apply filter_In in He.
    now rewrite Z.eqb_eq in He. }
  split.
  { intros e x He Hown Hnot Hx. apply He5; try assumption.
    apply filter_In. split; [exact He|]. now apply Z.eqb_eq. }
  split; [exact Hs1|]. split; [exact Hs2|]. split.
  { intros s Hs. apply Hs3 in Hs. apply filter_In in Hs.
    now rewrite Z.eqb_eq in Hs. }
  intros s x Hs Hown Hnot Hx. apply Hs5; try assumption.
  apply filter_In. split; [exact Hs|]. now apply Z.eqb_eq.
Qed.

(** ** The dashboard *)

Lemma filter_within {A} (f g : A -> bool) (l : list A) :
  (forall x, In x l -> f x = true -> g x = true) ->
  filter f (filter g l) = filter f l.
Proof.
  induction l as [|x l IH]; intros H; [reflexivity|]. cbn [filter].
  assert (IH' : filter f (filter g l) = filter f l).
  { apply IH. intros y Hy. apply H. now right. }
  destruct (g x) eqn:Hg; cbn [filter].
  - now rewrite IH'.
  - destruct (f x) eqn:Hf; [|exact IH'].
    rewrite (H x (or_introl eq_refl) Hf) in Hg. discriminate.
Qed.

(** X20.  On a balanced store, when the date range of the dashboard
    takes in every event of the products of the acting dairy and those
    events were entered by the dairy itself, every line of the stock
    summary adds up: closing stock = stock in - stock out.  The lines
    are those of the products of the acting dairy, in their order. *)
Theorem dashboard_summary_adds_up :
  forall (sess : Session) (req : Request) (db : DB) (d : Dairy.t)
         (pg : DashboardPage),
    current_dairy sess db = Some d ->
    dashboard sess req db = inl pg ->
    balanced db ->
    (forall e p, In e (stock_in db) -> In p (products db) ->
       Product.dairy_id p = Dairy.id d ->
       StockIn.product_id e = Product.id p ->
       StockIn.dairy_id e = Dairy.id d
       /\ date_leb (fst (dashboard_dates req)) (StockIn.date e) = true
       /\ date_leb (StockIn.date e) (snd (dashboard_dates req)) = true) ->
    (forall s p, In s (sales db) -> In p (products db) ->
       Product.dairy_id p = Dairy.id d ->
       Sale.product_id s = Product.id p ->
       Sale.dairy_id s = Dairy.id d
       /\ date_leb (fst (dashboard_dates req)) (Sale.date s) = true
       /\ date_leb (Sale.date s) (snd (dashboard_dates req)) = true) ->
    map summary_name (dash_product_stock_summary pg)
    = map Product.name
        (filter (fun p => Product.dairy_id p =? Dairy.id d) (products db))
    /\ Forall
         (fun line =>
            summary_closing_stock line
            = (summary_stock_in line - summary_stock_out line)%Qc)
         (dash_product_stock_summary pg).
Proof.
  intros sess req db d pg Hd Hpg Hbal Hin Hout.
  unfold dashboard, acting_dairy in Hpg. rewrite Hd in Hpg.
  cbn [bind ret] in Hpg.
  destruct (dashboard_dates req) as [f1d f2d]. cbn [fst snd] in *.
  destruct (foldM _ _ _) as [cogs|]; cbn [bind ret] in Hpg; [|discriminate].
  injection Hpg as <-. cbn [dash_product_stock_summary].
  split; [now rewrite map_map|].
  apply Forall_forall. intros line Hline.
  apply in_map_iff in Hline as (p & <- & Hp).
  apply filter_In in Hp as [Hp Hown]. apply Z.eqb_eq in Hown.
  cbn [summary_closing_stock summary_stock_in summary_stock_out].
  rewrite (Hbal p Hp). unfold stock_in_total, sales_total, event_total.
  rewrite !filter_within; [reflexivity| |].
  - intros s Hs Hpid. apply Z.eqb_eq in Hpid.
    destruct (Hout s p Hs Hp Hown Hpid) as (H1 & H2 & H3).
    now rewrite H1, Z.eqb_refl, H2, H3.
  - intros e He Hpid. apply Z.eqb_eq in Hpid.
    destruct (Hin e p He Hp Hown Hpid) as (H1 & H2 & H3).
    now rewrite H1, Z.eqb_refl, H2, H3.
Qed.

(** ** Logging in and out *)

Lemma find_unique {A} (key : A -> Z) (x : A) (l : list A) :
  NoDup (map key l) -> In x l ->
  find (fun y => key y =? key x) l = Some x.
Proof.
  induction l as [|y l IH]; cbn [map In find]; [intros _ []|].
  intros Hnd Hin. inversion Hnd as [|? ? Hy Hl]; subst.
  destruct (key y =? key x) eqn:Hk.
  - destruct Hin as [-> | Hin]; [reflexivity|].
    apply Z.eqb_eq in Hk. exfalso. apply Hy. rewrite Hk. now apply in_map.
  - destruct Hin as [-> | Hin]; [now rewrite Z.eqb_refl in Hk|].
    now apply IH.
Qed.

Lemma loaded_user (users : list User.t) (u : User.t) :
  In u users -> load_user users (User.id u) <> None.
Proof.
  intros Hin. unfold load_user.
  destruct (find _ users) eqn:Hfind; [discriminate|].
  apply (find_none _ _ Hfind) in Hin. cbn beta in Hin.
  now rewrite Z.eqb_refl in Hin.
Qed.

(** X21.  What a login does.  Credentials that match an administrator
    log the administrator in and end any impersonation, also when a
    dairy has the same credentials.  Otherwise credentials that match a
    dairy make it the acting dairy.  Credentials that match nobody leave
    the session as it was and show the login page again. *)
Theorem login_outcomes :
  forall (users : list User.t) (c : Cookie.t) (req : Request) (db : DB)
         (username password : string),
    method req = POST ->
    lookup "username" (form req) = Some username ->
    lookup "password" (form req) = Some password ->
    (forall u,
        first_user username password users = Some u ->
        snd (login users c req db) = Redirect "admin_dashboard"
        /\ session_of users (fst (login users c req db))
           = mkSession true None
        /\ User.username u = username /\ User.password u = password)
    /\ (forall dairy,
           first_user username password users = None ->
           first_dairy username password db = Some dairy ->
           snd (login users c req db) = Redirect "dashboard"
           /\ Cookie.user_id (fst (login users c req db)) = Cookie.user_id c
           /\ Dairy.username dairy = username
           /\ Dairy.password dairy = password
           /\ (NoDup (map Dairy.id (dairies db)) -> Dairy.id dairy <> 0 ->
               current_dairy (session_of users (fst (login users c req db)))
                 db
               = Some dairy))
    /\ (first_user username password users = None ->
        first_dairy username password db = None ->
        login users c req db = (c, Render "login.html")).
Proof.
  intros users c req db username password Hm Hu Hp.
  unfold login, form_item. rewrite Hm, Hu, Hp. cbn [bind ret].
  split; [|split].
  - intros u Hfind. rewrite Hfind. cbn [run_session ret fst snd].
    split; [reflexivity|].
    pose proof (find_some _ _ Hfind) as [Hin Hmatch].
    apply andb_prop in Hmatch as [H1 H2].
    apply String.eqb_eq in H1, H2.
    split; [|now split].
    unfold session_of, current_user_is_authenticated.
    cbn [Cookie.user_id Cookie.dairy_id].
    pose proof (loaded_user users u Hin) as Hload.
    destruct (load_user users (User.id u)); [reflexivity | contradiction].
  - intros dairy Hnone Hfind. rewrite Hnone, Hfind.
    cbn [run_session ret fst snd].
    pose proof (find_some _ _ Hfind) as [Hin Hmatch].
    apply andb_prop in Hmatch as [H1 H2].
    apply String.eqb_eq in H1, H2.
    split; [reflexivity|]. split; [reflexivity|].
    split; [exact H1|]. split; [exact H2|].
    intros Hnd Hnz. unfold current_dairy, session_of, enter_dairy.
    cbn [session_dairy_id Cookie.dairy_id].
    apply Z.eqb_neq in Hnz. rewrite Hnz.
    now apply (find_unique Dairy.id).
  - intros Hnone Hnone'. now rewrite Hnone, Hnone'.
Qed.

(** X22.  After a logout nobody is logged in: no administrator and no
    acting dairy, whatever the session held, so the start page and every
    page of a dairy lead to the login page. *)
Theorem logout_leaves_nobody :
  forall (users : list User.t) (c : Cookie.t) (db : DB),
    let c' := fst (logout users c) in
    snd (logout users c) = Redirect "login"
    /\ session_of users c' = mkSession false None
    /\ current_dairy (session_of users c') db = None
    /\ index users c' = Redirect "login"
    /\ admin_dashboard users c' db = inr (Redirect "login").
Proof.
  intros users c db c'. subst c'.
  assert (Hauth : current_user_is_authenticated users (fst (logout users c))
                  = false).
  { unfold logout, current_user_is_authenticated.
    cbn [fst Cookie.user_id].
    destruct (Cookie.user_id c) as [k|]; [|reflexivity].
    destruct (load_user users k) eqn:Hload; [reflexivity|].
    now rewrite Hload. }
  split; [reflexivity|].
  assert (Hsess : session_of users (fst (logout users c))
                  = mkSession false None).
  { unfold session_of. now rewrite Hauth. }
  split; [exact Hsess|]. rewrite Hsess.
  split; [reflexivity|].
  unfold index, admin_dashboard, login_required. rewrite Hauth.
  split; reflexivity.
Qed.

(** X23.  The pages of the administrator are closed to everybody else:
    a caller who is not logged in as administrator, a logged-in dairy
    included, is sent to the login page by the dashboard of the
    administrator, by the page that adds a dairy and by the impersonation,
    and neither the store nor the session changes. *)
Theorem admin_pages_need_admin :
  forall (users : list User.t) (c : Cookie.t) (req : Request) (db : DB)
         (did : Z) (upload : option string),
    current_user_is_authenticated users c = false ->
    admin_dashboard users c db = inr (Redirect "login")
    /\ add_dairy users c req upload db = (db, Redirect "login")
    /\ admin_view_dairy did users c db = (c, Redirect "login").
Proof.
  intros users c req db did upload Hauth.
  unfold admin_dashboard, add_dairy, admin_view_dairy, login_required.
  rewrite Hauth. repeat split.
Qed.

(** X24.  An administrator who views a dairy acts as that dairy and stays
    logged in as administrator; a key that names no dairy gives 404 and
    leaves the session as it was. *)
Theorem impersonation :
  forall (users : list User.t) (c : Cookie.t) (db : DB) (did : Z),
    current_user_is_authenticated users c = true ->
    (forall dairy,
        get_dairy db did = Some dairy ->
        did <> 0 ->
        let c' := fst (admin_view_dairy did users c db) in
        snd (admin_view_dairy did users c db) = Redirect "dashboard"
        /\ current_user_is_authenticated users c' = true
        /\ current_dairy (session_of users c') db = Some dairy
        /\ index users c' = Redirect "admin_dashboard")
    /\ (get_dairy db did = None ->
        admin_view_dairy did users c db = (c, Abort 404)).
Proof.
  intros users c db did Hauth. unfold admin_view_dairy, login_required.
  rewrite Hauth. cbn [bind ret]. split.
  - intros dairy Hget Hnz. rewrite Hget.
    cbn [get_or_404 bind ret run_session fst snd].
    assert (Hauth' : current_user_is_authenticated users (enter_dairy dairy c)
                     = true) by exact Hauth.
    split; [reflexivity|]. split; [exact Hauth'|]. split.
    + unfold current_dairy, session_of, enter_dairy.
      cbn [session_dairy_id Cookie.dairy_id].
      pose proof (find_key _ _ _ Hget) as [Hk _]. apply Z.eqb_eq in Hk.
      rewrite Hk. apply Z.eqb_neq in Hnz. now rewrite Hnz.
    + unfold index. now rewrite Hauth'.
  - intros Hnone. now rewrite Hnone.
Qed.

(** ** New dairies and the first start *)

Lemma find_added_pred {A} (f : A -> bool) (r : A) (l : list A) :
  find f l = None -> f r = true -> find f (l ++ [r]) = Some r.
Proof.
  induction l as [|y l IH]; cbn [app find]; intros Hnone Hr.
  - now rewrite Hr.
  - destruct (f y); [discriminate|]. now apply IH.
Qed.

(** X25.  A dairy added by the administrator is put behind the dairies
    already there under a fresh key, and can log in with the credentials
    it was given (unless an administrator has the same ones).  A user
    name that a dairy already has is refused, and nothing is stored. *)
Theorem add_dairy_then_login :
  forall (users : list User.t) (c c2 : Cookie.t) (req req2 : Request)
         (db : DB) (upload : option string) (name username password : string),
    current_user_is_authenticated users c = true ->
    method req = POST ->
    lookup "name" (form req) = Some name ->
    lookup "username" (form req) = Some username ->
    lookup "password" (form req) = Some password ->
    let taken := existsb (fun d => String.eqb (Dairy.username d) username)
                   (dairies db) in
    let new := Dairy.mk (next_id (map Dairy.id (dairies db))) name username
                 password upload in
    (taken = true ->
     add_dairy users c req upload db = (db, Raise "IntegrityError"))
    /\ (taken = false ->
        add_dairy users c req upload db
        = (mkDB (dairies db ++ [new]) (products db) (stock_in db) (sales db),
           Redirect "admin_dashboard")
        /\ get_dairy db (Dairy.id new) = None
        /\ (method req2 = POST ->
            lookup "username" (form req2) = Some username ->
            lookup "password" (form req2) = Some password ->
            first_user username password users = None ->
            login users c2 req2 (fst (add_dairy users c req upload db))
            = (enter_dairy new c2, Redirect "dashboard"))).
Proof.
  intros users c c2 req req2 db upload name username password Hauth Hm Hn Hu
    Hp taken new.
  assert (Hadd : taken = false ->
                 add_dairy users c req upload db
                 = (mkDB (dairies db ++ [new]) (products db) (stock_in db)
                      (sales db),
                    Redirect "admin_dashboard")).
  { intros Hfree. unfold add_dairy, login_required, form_item.
    rewrite Hauth, Hm, Hn, Hu, Hp. cbn [bind ret]. fold taken.
    now rewrite Hfree. }
  split.
  - intros Htaken. unfold add_dairy, login_required, form_item.
    rewrite Hauth, Hm, Hn, Hu, Hp. cbn [bind ret]. fold taken.
    now rewrite Htaken.
  - intros Hfree. split; [now apply Hadd|]. split.
    + unfold get_dairy.
      destruct (find _ (dairies db)) as [x|] eqn:Hfind; [|reflexivity].
      apply find_key in Hfind as [Hk Hin]. apply Z.eqb_eq in Hk.
      exfalso. apply (next_id_fresh (map Dairy.id (dairies db))).
      cbn [Dairy.id new] in Hk. rewrite <- Hk. now apply in_map.
    + intros Hm2 Hu2 Hp2 Hnoadmin. rewrite (Hadd Hfree). cbn [fst].
      unfold login, form_item. rewrite Hm2, Hu2, Hp2. cbn [bind ret].
      rewrite Hnoadmin. unfold first_dairy. cbn [dairies].
      rewrite (find_added_pred _ new); [reflexivity| |].
      * destruct (find _ (dairies db)) as [x|] eqn:Hfind; [|reflexivity].
        apply find_some in Hfind as [Hin Hmatch].
        apply andb_prop in Hmatch as [H1 _].
        assert (Hex : taken = true).
        { apply existsb_exists. exists x. split; assumption. }
        rewrite Hfree in Hex. discriminate.
      * cbn [Dairy.username Dairy.password new].
        now rewrite !String.eqb_refl.
Qed.

(** X26.  [initdb] can be run again and again: the second run changes
    nothing.  After it there is a user called admin and at least one
    dairy; the users and dairies that were there stay in front, unchanged,
    and keys stay unique.  On a store without users the default
    administrator can log in with admin and admin. *)
Theorem initdb_idempotent :
  forall (users : list User.t) (db : DB),
    let users' := fst (initdb users db) in
    let db' := snd (initdb users db) in
    initdb users' db' = (users', db')
    /\ find (fun u => String.eqb (User.username u) "admin") users' <> None
    /\ dairies db' <> []
    /\ (exists new_users, users' = users ++ new_users)
    /\ (exists new_dairies, dairies db' = dairies db ++ new_dairies)
    /\ products db' = products db
    /\ stock_in db' = stock_in db
    /\ sales db' = sales db
    /\ (NoDup (map User.id users) -> NoDup (map User.id users'))
    /\ (all_keys_unique db -> all_keys_unique db')
    /\ (users = [] -> first_user "admin" "admin" users' <> None).
Proof.
  intros users db users' db'. subst users' db'. unfold initdb.
  cbn [fst snd].
  set (is_admin := fun u => String.eqb (User.username u) "admin").
  assert (Hu : exists extra,
             match find is_admin users with
             | Some _ => users
             | None => users ++ [User.mk (next_id (map User.id users))
                                   "admin" "admin"]
             end = users ++ extra
             /\ find is_admin (users ++ extra) <> None
             /\ (NoDup (map User.id users)
                 -> NoDup (map User.id (users ++ extra)))
             /\ (users = [] -> first_user "admin" "admin" (users ++ extra)
                               <> None)).
  { destruct (find is_admin users) as [u|] eqn:Hfind.
    - exists []. rewrite app_nil_r. rewrite Hfind.
      repeat split; try discriminate; try tauto.
      intros ->. discriminate Hfind.
    - eexists. split; [reflexivity|]. split; [|split].
      + rewrite (find_added_pred is_admin); [discriminate|exact Hfind|].
        reflexivity.
      + intros Hnd. rewrite map_app. cbn [map User.id].
        now apply NoDup_added.
      + intros ->. discriminate. }
  destruct Hu as (extra & -> & Hadmin & Hnd & Hfirst).
  assert (Hd : exists extra',
             dairies match dairies db with
                     | [] => add_dairy_row "Sample Dairy" "dairy" "dairy"
                               None db
                     | _ :: _ => db
                     end = dairies db ++ extra'
             /\ dairies db ++ extra' <> []
             /\ (NoDup (map Dairy.id (dairies db))
                 -> NoDup (map Dairy.id (dairies db ++ extra')))).
  { destruct (dairies db) as [|x xs] eqn:Hdairies.
    - eexists. cbn [dairies add_dairy_row]. rewrite Hdairies.
      split; [reflexivity|]. split; [discriminate|].
      intros _. repeat constructor. intros [].
    - exists []. rewrite app_nil_r. rewrite Hdairies.
      split; [reflexivity|]. split; [discriminate | tauto]. }
  destruct Hd as (extra' & Hdairies & Hnonempty & Hndd).
  assert (Hrest : forall x,
             x = match dairies db with
                 | [] => add_dairy_row "Sample Dairy" "dairy" "dairy" None db
                 | _ :: _ => db
                 end ->
             products x = products db /\ stock_in x = stock_in db
             /\ sales x = sales db).
  { intros x ->. now destruct (dairies db). }
  set (db' := match dairies db with
              | [] => add_dairy_row "Sample Dairy" "dairy" "dairy" None db
              | _ :: _ => db
              end) in *.
  destruct (Hrest db' eq_refl) as (Hp & He & Hs).
  split.
  - destruct (find is_admin (users ++ extra)); [|contradiction].
    rewrite Hdairies.
    destruct (dairies db ++ extra'); [contradiction | reflexivity].
  - split; [exact Hadmin|]. rewrite Hdairies.
    split; [exact Hnonempty|].
    split; [now exists extra|]. split; [now exists extra'|].
    split; [exact Hp|]. split; [exact He|]. split; [exact Hs|].
    split; [exact Hnd|]. split; [|exact Hfirst].
    intros (H1 & H2 & H3 & H4). unfold all_keys_unique.
    rewrite Hdairies, Hp, He, Hs. repeat split; auto.
Qed.

(** ** The page and the PDF *)

Lemma date_leb_antisym (a b : date) :
  date_leb a b = true -> date_leb b a = true -> a = b.
Proof.
  rewrite !date_leb_spec. intros H1 H2.
  destruct a as [ya ma da], b as [yb mb db]. cbn [year month day] in *.
  f_equal; lia.
Qed.

Lemma date_eqb_refl (a : date) : date_eqb a a = true.
Proof.
  unfold date_eqb. now rewrite (proj2 (date_compare_eq a a) eq_refl).
Qed.

Lemma date_eqb_eq (a b : date) : date_eqb a b = true -> a = b.
Proof.
  unfold date_eqb. destruct (date_compare a b) eqn:H; try discriminate.
  intros _. now apply date_compare_eq.
Qed.

(** A list sorted latest first is fixed by the rows it has for each
    date, in their order. *)
Lemma sorted_unique {A} (key : A -> date) (l1 l2 : list A) :
  StronglySorted (latest_first key) l1 ->
  StronglySorted (latest_first key) l2 ->
  (forall d, filter (fun r => date_eqb (key r) d) l1
             = filter (fun r => date_eqb (key r) d) l2) ->
  l1 = l2.
Proof.
  intros H1. revert l2.
  induction H1 as [|x l1 Hl1 IH Hx]; intros l2 H2 Hsame.
  - destruct l2 as [|y l2]; [reflexivity|].
    specialize (Hsame (key y)). cbn [filter] in Hsame.
    rewrite date_eqb_refl in Hsame. discriminate.
  - destruct l2 as [|y l2].
    { specialize (Hsame (key x)). cbn [filter] in Hsame.
      rewrite date_eqb_refl in Hsame. discriminate. }
    apply StronglySorted_inv in H2 as [Hl2 Hy].
    rewrite Forall_forall in Hx, Hy.
    assert (Hxy : date_leb (key x) (key y) = true).
    { pose proof (Hsame (key x)) as H. cbn [filter] in H.
      rewrite date_eqb_refl in H.
      destruct (date_eqb (key y) (key x)) eqn:Hyx.
      - apply date_eqb_eq in Hyx. rewrite Hyx. apply date_leb_spec. lia.
      - assert (Hin : In x (filter (fun r => date_eqb (key r) (key x)) l2)).
        { rewrite <- H. now left. }
        apply filter_In in Hin as [Hin _]. exact (Hy x Hin). }
    assert (Hyx : date_leb (key y) (key x) = true).
    { pose proof (Hsame (key y)) as H. cbn [filter] in H.
      rewrite date_eqb_refl in H.
      destruct (date_eqb (key x) (key y)) eqn:Hxy'.
      - apply date_eqb_eq in Hxy'. rewrite Hxy'. apply date_leb_spec. lia.
      - assert (Hin : In y (filter (fun r => date_eqb (key r) (key y)) l1)).
        { rewrite H. now left. }
        apply filter_In in Hin as [Hin _]. exact (Hx y Hin). }
    pose proof (date_leb_antisym _ _ Hxy Hyx) as Hkey.
    assert (Heq : x = y).
    { pose proof (Hsame (key x)) as H. cbn [filter] in H.
      rewrite <- Hkey, date_eqb_refl in H. now injection H. }
    subst y. f_equal. apply IH; [exact Hl2|].
    intros d. specialize (Hsame d). cbn [filter] in Hsame.
    destruct (date_eqb (key x) d); [now injection Hsame | exact Hsame].
Qed.

Lemma sort_of_sorted_runs {A} (key : A -> date) (l1 l2 : list A) :
  sorted_reverse key (sorted_reverse key l1 ++ sorted_reverse key l2)
  = sorted_reverse key (l1 ++ l2).
Proof.
  apply (sorted_unique key); try apply sorted_reverse_sorted.
  intros d. rewrite !sorted_reverse_same_date, !filter_app.
  now rewrite !sorted_reverse_same_date.
Qed.

Lemma insert_desc_map {A B} (g : A -> B) (keyA : A -> date)
    (keyB : B -> date) (x : A) (l : list A) :
  (forall a, keyB (g a) = keyA a) ->
  map g (insert_desc keyA x l) = insert_desc keyB (g x) (map g l).
Proof.
  intros Hkey. induction l as [|y l IH]; [reflexivity|].
  cbn [insert_desc map]. rewrite !Hkey.
  destruct (date_ltb (keyA x) (keyA y)); cbn [map]; [now rewrite IH|].
  reflexivity.
Qed.

Lemma sorted_reverse_map {A B} (g : A -> B) (keyA : A -> date)
    (keyB : B -> date) (l : list A) :
  (forall a, keyB (g a) = keyA a) ->
  map g (sorted_reverse keyA l) = sorted_reverse keyB (map g l).
Proof.
  intros Hkey. induction l as [|x l IH]; [reflexivity|].
  cbn [sorted_reverse fold_right map].
  fold (sorted_reverse keyA l). fold (sorted_reverse keyB (map g l)).
  now rewrite (insert_desc_map g keyA keyB), IH.
Qed.

(** Rows made entry by entry by a function that keeps the date: sorting
    the entries first gives the rows sorted. *)
Lemma rows_of_sorted {A} (row : A -> result ReportRow.t) (key : A -> date)
    (l : list A) (rows rows' : list ReportRow.t) :
  (forall a r, row a = inl r -> ReportRow.date r = key a) ->
  Forall2 (fun a r => row a = inl r) l rows ->
  Forall2 (fun a r => row a = inl r) (sorted_reverse key l) rows' ->
  rows' = sorted_reverse ReportRow.date rows.
Proof.
  intros Hkey Hrows.
  assert (Hsorted : Forall2 (fun a r => row a = inl r)
                      (sorted_reverse key l)
                      (sorted_reverse ReportRow.date rows)).
  { induction Hrows as [|a r l rows Har _ IH]; [constructor|].
    cbn [sorted_reverse fold_right].
    fold (sorted_reverse key l). fold (sorted_reverse ReportRow.date rows).
    revert IH. generalize (sorted_reverse key l).
    generalize (sorted_reverse ReportRow.date rows).
    intros rs ls IH.
    induction IH as [|a' r' ls rs Har' Htail IH']; cbn [insert_desc].
    - constructor; [exact Har | constructor].
    - rewrite (Hkey a r Har), (Hkey a' r' Har').
      destruct (date_ltb (key a) (key a')).
      + constructor; [exact Har' | exact IH'].
      + constructor; [exact Har|]. constructor; assumption. }
  revert rows'. generalize (sorted_reverse ReportRow.date rows) Hsorted.
  generalize (sorted_reverse key l).
  intros ls rs H1. induction H1 as [|a r ls rs Har _ IH]; intros rows' H2.
  - now inversion H2.
  - inversion H2 as [|a' r' ls' rs' Har' Hrest]; subst.
    rewrite Har in Har'. injection Har' as <-. f_equal. now apply IH.
Qed.

Lemma stock_in_row_without_logo (db : DB) (e : StockIn.t) (r r' : ReportRow.t) :
  stock_in_row true db e = inl r ->
  stock_in_row false db e = inl r' ->
  r' = without_logo r.
Proof.
  unfold stock_in_row.
  destruct (get_dairy db (StockIn.dairy_id e)); cbn [bind deref ret fail];
    [|discriminate].
  destruct (get_product db (StockIn.product_id e)); cbn [bind deref ret fail];
    [|discriminate].
  now intros [= <-] [= <-].
Qed.

Lemma sale_row_without_logo (db : DB) (s : Sale.t) (r r' : ReportRow.t) :
  sale_row true db s = inl r ->
  sale_row false db s = inl r' ->
  r' = without_logo r.
Proof.
  unfold sale_row.
  destruct (get_product db (Sale.product_id s)); cbn [bind deref ret fail];
    [|discriminate].
  destruct (get_dairy db (Sale.dairy_id s)); cbn [bind deref ret fail];
    [|discriminate].
  now intros [= <-] [= <-].
Qed.

Lemma rows_without_logo {A} (row row' : A -> result ReportRow.t) (l : list A)
    (rows rows' : list ReportRow.t) :
  (forall a r r', row a = inl r -> row' a = inl r' -> r' = without_logo r) ->
  Forall2 (fun a r => row a = inl r) l rows ->
  Forall2 (fun a r => row' a = inl r) l rows' ->
  rows' = map without_logo rows.
Proof.
  intros Hrow H1. revert rows'.
  induction H1 as [|a r l rows Har _ IH]; intros rows' H2.
  - now inversion H2.
  - inversion H2 as [|a' r' l' rs' Har' Hrest]; subst. cbn [map].
    f_equal; [now apply (Hrow a) | now apply IH].
Qed.

(** X27.  When the page and the PDF read the same filters from a
    request, the PDF lists the rows of the page, all of them, in the same
    order; only the logo is left out of its rows. *)
Theorem pdf_lists_rows_of_page :
  forall (sess : Session) (req : Request) (db : DB) (f : Filters),
    references_resolve db ->
    reports_filters sess req db = inl f ->
    reports_pdf_filters req = inl f ->
    exists rows totals rows' totals',
      reports_rows sess req db = inl (rows, totals)
      /\ reports_pdf_rows req db = inl (rows', totals')
      /\ rows' = map without_logo rows.
Proof.
  intros sess req db f Href Hf Hpdf.
  unfold reports_rows, reports_pdf_rows. rewrite Hf, Hpdf. cbn [bind].
  destruct (build_rows_result true db (filter_stock_in f db)
              (filter_sales f db)
              (filtered_stock_in_resolve db f Href)
              (filtered_sales_resolve db f Href))
    as (I & O & HI & HO & ->).
  assert (Hsis : forall e,
             In e (sorted_reverse StockIn.date (filter_stock_in f db)) ->
             get_dairy db (StockIn.dairy_id e) <> None
             /\ get_product db (StockIn.product_id e) <> None).
  { intros e He.
    apply (Permutation_in _ (sorted_reverse_perm _ StockIn.date _)) in He.
    now apply (filtered_stock_in_resolve db f). }
  assert (Hss : forall s,
             In s (sorted_reverse Sale.date (filter_sales f db)) ->
             get_dairy db (Sale.dairy_id s) <> None
             /\ get_product db (Sale.product_id s) <> None).
  { intros s Hs.
    apply (Permutation_in _ (sorted_reverse_perm _ Sale.date _)) in Hs.
    now apply (filtered_sales_resolve db f). }
  destruct (build_rows_result false db _ _ Hsis Hss)
    as (I' & O' & HI' & HO' & ->).
  eexists. eexists. eexists. eexists.
  split; [reflexivity|]. split; [reflexivity|].
  (* the rows of the PDF, entry by entry, without sorting the entries *)
  destruct (build_rows_result false db (filter_stock_in f db)
              (filter_sales f db)
              (filtered_stock_in_resolve db f Href)
              (filtered_sales_resolve db f Href))
    as (J & P & HJ & HP & _).
  assert (HI'' : I' = sorted_reverse ReportRow.date J).
  { apply (rows_of_sorted (stock_in_row false db) StockIn.date
             (filter_stock_in f db)); [|exact HJ|exact HI'].
    intros a r Hr.
    now apply stock_in_row_fields in Hr as (_ & _ & _ & _ & _ & ?). }
  assert (HO'' : O' = sorted_reverse ReportRow.date P).
  { apply (rows_of_sorted (sale_row false db) Sale.date
             (filter_sales f db)); [|exact HP|exact HO'].
    intros a r Hr.
    now apply sale_row_fields in Hr as (? & _ & _ & _ & _ & _ & _ & ?). }
  rewrite HI'', HO''.
  rewrite sort_of_sorted_runs.
  rewrite (rows_without_logo _ _ _ I J (stock_in_row_without_logo db) HI HJ).
  rewrite (rows_without_logo _ _ _ O P (sale_row_without_logo db) HO HP).
  rewrite <- map_app. symmetry.
  now apply sorted_reverse_map.
Qed.

End Further.

(* ================================================================== *)
(** * The properties on the example store *)

Section Examples.
#[local] Existing Instance example_runtime.

Lemma example_db_keys_unique : product_keys_unique example_db.
Proof.
  unfold product_keys_unique; simpl.
  constructor; [simpl; intros [H | []]; discriminate H|].
  constructor; [intros []|]. constructor.
Defined.

Lemma example_db_balanced : balanced example_db.
Proof.
  intros p [<- | [<- | []]]; reflexivity.
Defined.

Lemma example_db_references : references_resolve example_db.
Proof.
  split.
  - intros e [<- | [<- | []]]; split; discriminate.
  - intros s [<- | [<- | []]]; split; discriminate.
Defined.



(** C5 on the example store: the second dairy goes for the records of
    the first. *)
Lemma foreign_mutation_forbidden_witness :
  current_dairy nandini_session example_db
  = Some (Dairy.mk 2 "Nandini" "nandini" "secret" (Some "static/logos/n.png"))
  /\ owner example_db (EditProduct 1) = Some 1
  /\ owner example_db (DeleteSale 1) = Some 1
  /\ 1 <> 2
  /\ routed (DeleteSale 1) (post [])
  /\ perform (EditProduct 1) nandini_session
       (post [("name", "Water"); ("unit", "litre"); ("cost_price", "1");
              ("sell_price", "1")])
       example_db
     = (example_db, Abort 403)
  /\ perform (DeleteSale 1) nandini_session (post []) example_db
     = (example_db, Abort 403).
Proof.
  split; [reflexivity|]. split; [reflexivity|]. split; [reflexivity|].
  split; [discriminate|]. split; [reflexivity|].
  split.
  - apply (foreign_mutation_forbidden (EditProduct 1) nandini_session _
             example_db
             (Dairy.mk 2 "Nandini" "nandini" "secret"
                (Some "static/logos/n.png")) 1);
      [reflexivity | reflexivity | discriminate | exact I].
  - apply (foreign_mutation_forbidden (DeleteSale 1) nandini_session _
             example_db
             (Dairy.mk 2 "Nandini" "nandini" "secret"
                (Some "static/logos/n.png")) 1);
      [reflexivity | reflexivity | discriminate | reflexivity].
Defined.



(** C3 on the example store: the first dairy asks for January 2024.  One
    receipt of 100 litres at 40 and one sale of 30 litres at 55 against a
    cost of 40: a profit of 450. *)
Lemma report_rows_and_totals_witness :
  let req := get [("from", "2024-01-01"); ("to", "2024-01-31")] in
  let f := mkFilters (Some 1) (Some (mkdate 2024 1 1))
             (Some (mkdate 2024 1 31)) None in
  references_resolve example_db
  /\ reports_filters gokul_session req example_db = inl f
  /\ exists in_rows out_rows totals,
       reports_rows gokul_session req example_db
       = inl (sorted_reverse ReportRow.date (in_rows ++ out_rows), totals)
       /\ Totals.profit totals = float_sum (map ReportRow.profit out_rows)
       /\ Totals.in_qty totals
          = float_sum (map (fun e => float_of_Decimal (StockIn.qty e))
                         (filter_stock_in f example_db))
       /\ map ReportRow.profit out_rows = [dec 450]
       /\ Totals.profit totals = dec 450
       /\ Totals.in_qty totals = dec 100
       /\ Totals.cost_val totals = dec 4000
       /\ Totals.sell_val totals = dec 1650.
Proof.
  intros req f.
  split; [exact example_db_references|]. split; [vm_compute; reflexivity|].
  destruct (report_rows_and_totals (rt := example_runtime) gokul_session req
              example_db f
              example_db_references ltac:(vm_compute; reflexivity))
    as (in_rows & out_rows & totals & Hrows & _ & Hin & Hout & Hq & _ & _
        & _ & Hprofit).
  exists in_rows, out_rows, totals.
  split; [exact Hrows|]. split; [exact Hprofit|]. split; [exact Hq|].
  assert (Hmap : map ReportRow.profit out_rows = [dec 450]).
  { inversion Hout as [|s r ss rs (p & Hp & Hpr & _) Hrest]; subst.
    inversion Hrest; subst. simpl. rewrite Hpr.
    injection Hp as <-. reflexivity. }
  split; [exact Hmap|].
  split; [rewrite Hprofit, Hmap; reflexivity|].
  split; [rewrite Hq; reflexivity|].
  injection Hrows as _ <-. split; reflexivity.
Defined.

(** C4, the code at the failing input: the first dairy, not an
    administrator, asks for the report of dairy 2 and is given the rows
    of dairy 2. *)
Theorem tenant_reads_report_of_other_tenant :
  let req := get [("dairy", "2"); ("from", "2024-01-01");
                  ("to", "2024-01-31")] in
  is_authenticated gokul_session = false
  /\ option_map Dairy.name (current_dairy gokul_session example_db)
     = Some "Gokul"
  /\ exists rows totals,
       reports_rows gokul_session req example_db = inl (rows, totals)
       /\ map ReportRow.dairy rows = ["Nandini"; "Nandini"]
       /\ map ReportRow.product rows = ["Curd"; "Curd"]
       /\ (exists rows' totals',
             reports_pdf_rows (get []) example_db = inl (rows', totals')
             /\ map ReportRow.dairy rows'
                = ["Nandini"; "Nandini"; "Gokul"; "Gokul"]).
Proof.
  intros req. split; [reflexivity|]. split; [reflexivity|].
  eexists. eexists. split; [reflexivity|].
  split; [reflexivity|]. split; [reflexivity|].
  eexists. eexists. split; reflexivity.
Qed.


(** A page number below 1 is not past the end: Python counts a negative
    slice bound from the end of the list. *)
Remark negative_page_counts_from_the_end :
  paginated_rows (seq 0 25) 0 = []
  /\ paginated_rows (seq 0 25) (-1) = seq 5 10.
Proof. split; reflexivity. Qed.

(** C9 on the example store: the administrator asks for January 2024 of
    all dairies.  On 2 January the receipt of curd comes before the sale
    of milk. *)
Lemma report_rows_sorted_witness :
  let req := get [("from", "2024-01-01"); ("to", "2024-01-31")] in
  let f := mkFilters None (Some (mkdate 2024 1 1)) (Some (mkdate 2024 1 31))
             None in
  references_resolve example_db
  /\ reports_filters admin_session req example_db = inl f
  /\ reports_pdf_filters req = inl f
  /\ (exists rows totals,
        reports_rows admin_session req example_db = inl (rows, totals)
        /\ StronglySorted (latest_first ReportRow.date) rows
        /\ map (fun r => (ReportRow.date r, is_stock_in_row r)) rows
           = [(mkdate 2024 1 3, false); (mkdate 2024 1 2, true);
              (mkdate 2024 1 2, false); (mkdate 2024 1 1, true)])
  /\ (exists rows totals,
        reports_pdf_rows req example_db = inl (rows, totals)
        /\ StronglySorted (latest_first ReportRow.date) rows
        /\ map (fun r => (ReportRow.date r, is_stock_in_row r)) rows
           = [(mkdate 2024 1 3, false); (mkdate 2024 1 2, true);
              (mkdate 2024 1 2, false); (mkdate 2024 1 1, true)]).
Proof.
  intros req f.
  split; [exact example_db_references|]. split; [vm_compute; reflexivity|].
  split; [reflexivity|].
  split.
  - destruct (proj1 (report_rows_sorted (rt := example_runtime))
                admin_session req example_db f
                example_db_references ltac:(vm_compute; reflexivity))
      as (rows & totals & Hrows & Hsorted & _).
    exists rows, totals. split; [exact Hrows|]. split; [exact Hsorted|].
    injection Hrows as <- _. reflexivity.
  - destruct (proj2 (report_rows_sorted (rt := example_runtime)) req
                example_db f
                example_db_references ltac:(vm_compute; reflexivity))
      as (rows & totals & Hrows & Hsorted & _).
    exists rows, totals. split; [exact Hrows|]. split; [exact Hsorted|].
    injection Hrows as <- _. reflexivity.
Defined.

(** C8, the claim as the specification has it, fails on the report page:
    with a start date that does not parse the report lists the rows of
    all dates, where today's date in its place (20 January 2024) lists
    none. *)
Lemma unparsed_report_date_is_not_today :
  let bad := get [("from", "01/01/2024")] in
  let replaced := get [("from", "2024-01-20")] in
  strptime_ymd "01/01/2024" = None
  /\ strptime_ymd "2024-01-20" = Some example_today
  /\ (exists totals,
        reports_rows gokul_session replaced example_db = inl ([], totals))
  /\ (exists rows totals,
        reports_rows gokul_session bad example_db = inl (rows, totals)
        /\ map ReportRow.date rows = [mkdate 2024 1 2; mkdate 2024 1 1])
  /\ reports_rows gokul_session bad example_db
     <> reports_rows gokul_session replaced example_db.
Proof.
  intros bad replaced.
  split; [reflexivity|]. split; [reflexivity|].
  split; [eexists; reflexivity|].
  split; [eexists; eexists; split; reflexivity|].
  intros H.
  apply (f_equal (fun r => match r with
                           | inl (rows, _) => List.length rows
                           | inr _ => 0%nat
                           end)) in H.
  discriminate H.
Qed.

(** C8 as the code has it, on the example store. *)
Lemma unparsed_date_handling_witness :
  let bad := get [("from", "01/01/2024"); ("to", "2024-01-31")] in
  let entry := post [("product_id", "1"); ("qty", "5");
                     ("cost_price", "40")] in
  strptime_ymd "01/01/2024" = None
  /\ truthy (lookup "from" (args bad)) = Some "01/01/2024"
  /\ dashboard_dates bad = (example_today, example_today)
  /\ (exists f,
        reports_filters gokul_session bad example_db = inl f
        /\ date_from f = None /\ date_to f = None)
  /\ (exists f,
        reports_pdf_filters bad = inl f
        /\ date_from f = None /\ date_to f = None)
  /\ truthy (lookup "date" (form entry)) = None
  /\ event_create_form "cost_price" entry
     = inl (1, dec 5, dec 40, example_today, EmptyString).
Proof.
  intros bad entry.
  destruct (unparsed_date_handling (rt := example_runtime))
    as (Hdash & Hreport & Hpdf & Hentry).
  split; [reflexivity|]. split; [reflexivity|].
  split.
  { exact (proj1 (Hdash bad "01/01/2024" (or_introl eq_refl) eq_refl)). }
  split.
  { eexists. split.
    - rewrite (Hreport gokul_session bad example_db "01/01/2024"
                 (or_introl eq_refl) eq_refl).
      reflexivity.
    - split; reflexivity. }
  split.
  { exists (mkFilters None None None None). split; [reflexivity|].
    exact (proj1 (Hpdf bad (mkFilters None None None None) "01/01/2024"
                    eq_refl eq_refl) eq_refl). }
  split; [reflexivity|].
  assert (Hform : exists dt,
             event_create_form "cost_price" entry
             = inl (1, dec 5, dec 40, dt, EmptyString)).
  { eexists. reflexivity. }
  destruct Hform as [dt Hform]. rewrite Hform.
  now rewrite (Hentry "cost_price" entry 1 (dec 5) (dec 40) dt EmptyString
                 eq_refl Hform).
Defined.

(** The scenario of the specification, replayed through the handlers
    from a store with one dairy and nothing else: the product is created
    at cost 40 and price 50, 100 litres are received, 30 litres are sold
    at 55 (stock 70, the report shows a profit of 450), and the sale is
    edited to 20 litres (stock 80). *)
Example milk_scenario :
  let db0 := mkDB [Dairy.mk 1 "Gokul" "gokul" "secret" None] [] [] [] in
  let db1 := fst (add_product gokul_session
                    (post [("name", "Milk"); ("unit", "litre");
                           ("cost_price", "40"); ("sell_price", "50")])
                    db0) in
  let db2 := fst (stock_in_page gokul_session
                    (post [("product_id", "1"); ("qty", "100");
                           ("cost_price", "40"); ("date", "2024-01-01")])
                    db1) in
  let db3 := fst (sales_page gokul_session
                    (post [("product_id", "1"); ("qty", "30");
                           ("selling_price", "55"); ("date", "2024-01-02")])
                    db2) in
  let db4 := fst (edit_sale 1 gokul_session
                    (post [("qty", "20"); ("selling_price", "55");
                           ("date", "2024-01-02")])
                    db3) in
  let january := get [("from", "2024-01-01"); ("to", "2024-01-31")] in
  map Product.current_stock (products db2) = [dec 100]
  /\ map Product.current_stock (products db3) = [dec 70]
  /\ (exists rows totals,
        reports_rows gokul_session january db3 = inl (rows, totals)
        /\ map ReportRow.profit rows = [dec 450; dec 0]
        /\ Totals.profit totals = dec 450)
  /\ map Product.current_stock (products db4) = [dec 80].
Proof.
  cbv zeta. split; [reflexivity|]. split; [reflexivity|].
  split; [|reflexivity].
  eexists. eexists. split; [reflexivity|]. split; reflexivity.
Qed.

(** ** The further properties on the example store *)

Lemma example_db_all_keys_unique : all_keys_unique example_db.
Proof.
  unfold all_keys_unique; cbn.
  repeat split;
    (constructor; [intros [H | []]; discriminate H|];
     constructor; [intros []|]; constructor).
Defined.

Lemma get_leaves_store_unchanged_witness :
  method (get []) = GET
  /\ fst (edit_product 1 gokul_session (get []) example_db) = example_db
  /\ fst (stock_in_page gokul_session (get []) example_db) = example_db
  /\ delete_sale 1 gokul_session (get []) example_db
     = (example_db, Abort 405).
Proof.
  destruct (get_leaves_store_unchanged (rt := example_runtime) gokul_session
              (get []) example_db 1 eq_refl)
    as (_ & H2 & _ & H4 & _ & _ & _ & H8).
  split; [reflexivity|]. split; [exact H2|]. split; [exact H4 | exact H8].
Defined.

Lemma no_acting_dairy_sent_to_login_witness :
  let req := post [("product_id", "1"); ("qty", "5"); ("cost_price", "40")] in
  current_dairy anonymous_session example_db = None
  /\ method req = POST
  /\ stock_in_page anonymous_session req example_db
     = (example_db, Redirect "login")
  /\ delete_sale 1 anonymous_session req example_db
     = (example_db, Redirect "login")
  /\ dashboard anonymous_session req example_db = inr (Redirect "login").
Proof.
  intros req.
  destruct (no_acting_dairy_sent_to_login (rt := example_runtime)
              anonymous_session req example_db 1 eq_refl)
    as (_ & _ & H3 & _ & _ & _ & H7 & H8 & _).
  split; [reflexivity|]. split; [reflexivity|]. split; [exact H3|].
  split; [exact (proj2 (H7 eq_refl)) | exact H8].
Defined.

Lemma unknown_record_not_found_witness :
  current_dairy gokul_session example_db
  = Some (Dairy.mk 1 "Gokul" "gokul" "secret" None)
  /\ get_product example_db 99 = None
  /\ get_stock_in example_db 99 = None
  /\ get_sale example_db 99 = None
  /\ method (post []) = POST
  /\ edit_product 99 gokul_session (post []) example_db
     = (example_db, Abort 404)
  /\ edit_stock_in 99 gokul_session (post []) example_db
     = (example_db, Abort 404)
  /\ delete_sale 99 gokul_session (post []) example_db
     = (example_db, Abort 404).
Proof.
  destruct (unknown_record_not_found (rt := example_runtime) gokul_session
              (post []) example_db _ 99 eq_refl) as (H1 & H2 & H3).
  do 5 (split; [reflexivity|]).
  split; [exact (proj1 (H1 eq_refl))|].
  split; [exact (H2 eq_refl)|].
  exact (proj2 (H3 eq_refl) eq_refl).
Defined.

Lemma add_product_appends_fresh_product_witness :
  let req := post [("name", "Ghee"); ("unit", "kg"); ("cost_price", "500");
                   ("sell_price", "600")] in
  current_dairy gokul_session example_db
  = Some (Dairy.mk 1 "Gokul" "gokul" "secret" None)
  /\ method req = POST
  /\ product_form req = inl ("Ghee", "kg", dec 500, dec 600, dec 0)
  /\ products (fst (add_product gokul_session req example_db))
     = products example_db
       ++ [Product.mk 3 1 "Ghee" "kg" (dec 500) (dec 600) (dec 0) (dec 0)]
  /\ get_product example_db 3 = None.
Proof.
  intros req.
  destruct (add_product_appends_fresh_product (rt := example_runtime)
              gokul_session req example_db
              (Dairy.mk 1 "Gokul" "gokul" "secret" None)
              "Ghee" "kg" (dec 500) (dec 600) (dec 0)
              eq_refl eq_refl ltac:(reflexivity))
    as (Hadd & Hfresh & _).
  do 3 (split; [reflexivity|]).
  split; [rewrite Hadd; reflexivity | exact Hfresh].
Defined.

Lemma product_handlers_keep_balance_witness :
  let req := post [("name", "Ghee"); ("unit", "kg"); ("cost_price", "500");
                   ("sell_price", "600")] in
  balanced example_db
  /\ stock_in_total example_db (next_id (map Product.id (products example_db)))
     = Q2Qc 0
  /\ sales_total example_db (next_id (map Product.id (products example_db)))
     = Q2Qc 0
  /\ balanced (fst (add_product gokul_session req example_db))
  /\ balanced (fst (edit_product 1 gokul_session req example_db))
  /\ balanced (fst (delete_product 1 gokul_session req example_db)).
Proof.
  intros req.
  destruct (product_handlers_keep_balance (rt := example_runtime) 1
              gokul_session req example_db example_db_balanced)
    as (H1 & H2 & H3).
  split; [exact example_db_balanced|].
  split; [reflexivity|]. split; [reflexivity|].
  split; [exact (H3 eq_refl eq_refl)|]. split; [exact H1 | exact H2].
Defined.

Lemma handlers_keep_keys_unique_witness :
  let req := post [("product_id", "1"); ("qty", "5"); ("cost_price", "40")] in
  all_keys_unique example_db
  /\ all_keys_unique (fst (stock_in_page gokul_session req example_db))
  /\ map StockIn.id
       (stock_in (fst (stock_in_page gokul_session req example_db)))
     = [1; 2; 3]
  /\ all_keys_unique (fst (delete_sale 1 gokul_session req example_db)).
Proof.
  intros req.
  destruct (handlers_keep_keys_unique (rt := example_runtime) 1 gokul_session
              req example_db example_users admin_cookie None
              example_db_all_keys_unique)
    as (_ & _ & _ & H4 & _ & _ & _ & H8 & _).
  split; [exact example_db_all_keys_unique|].
  split; [exact H4|]. split; [reflexivity | exact H8].
Defined.

Lemma entry_sets_reference_price_witness :
  let req1 := post [("product_id", "1"); ("qty", "20"); ("cost_price", "42");
                    ("date", "2024-01-10")] in
  let req2 := post [("product_id", "1"); ("qty", "10");
                    ("selling_price", "58"); ("date", "2024-01-10")] in
  let milk := Product.mk 1 1 "Milk" "litre" (dec 40) (dec 55) (dec 0)
                (dec 70) in
  current_dairy gokul_session example_db
  = Some (Dairy.mk 1 "Gokul" "gokul" "secret" None)
  /\ get_product example_db 1 = Some milk
  /\ event_create_form "cost_price" req1
     = inl (1, dec 20, dec 42, mkdate 2024 1 10, EmptyString)
  /\ event_create_form "selling_price" req2
     = inl (1, dec 10, dec 58, mkdate 2024 1 10, EmptyString)
  /\ get_product (fst (stock_in_page gokul_session req1 example_db)) 1
     = Some (Product.mk 1 1 "Milk" "litre" (dec 42) (dec 55) (dec 0)
               (dec 70 + dec 20)%Qc)
  /\ get_product (fst (sales_page gokul_session req2 example_db)) 1
     = Some (Product.mk 1 1 "Milk" "litre" (dec 40) (dec 58) (dec 0)
               (dec 70 - dec 10)%Qc)
  /\ get_product (fst (sales_page gokul_session req2 example_db)) 2
     = get_product example_db 2.
Proof.
  intros req1 req2 milk.
  destruct (proj1 (entry_sets_reference_price (rt := example_runtime))
              gokul_session req1 example_db _ milk 1 (dec 20) (dec 42)
              (mkdate 2024 1 10) EmptyString
              eq_refl eq_refl ltac:(reflexivity) eq_refl) as [H1 _].
  destruct (proj2 (entry_sets_reference_price (rt := example_runtime))
              gokul_session req2 example_db _ milk 1 (dec 10) (dec 58)
              (mkdate 2024 1 10) EmptyString
              eq_refl eq_refl ltac:(reflexivity) eq_refl) as [H2 H3].
  do 4 (split; [reflexivity|]).
  split; [exact H1|]. split; [exact H2|].
  apply H3. discriminate.
Defined.

Lemma empty_number_counts_as_zero_witness :
  let req := post [("product_id", "1"); ("qty", EmptyString);
                   ("cost_price", EmptyString)] in
  event_create_form "cost_price" req
  = inl (1, dec 0, dec 0, example_today, EmptyString)
  /\ lookup "qty" (form req) = Some EmptyString
  /\ lookup "cost_price" (form req) = Some EmptyString
  /\ dec 0 = Q2Qc 0
  /\ option_map Product.cost_price
       (get_product (fst (stock_in_page gokul_session req example_db)) 1)
     = Some (Q2Qc 0).
Proof.
  intros req.
  destruct (empty_number_counts_as_zero (rt := example_runtime))
    as (Hcreate & _ & Hstore).
  split; [reflexivity|]. split; [reflexivity|]. split; [reflexivity|].
  split.
  - exact (proj1 (Hcreate "cost_price" req 1 (dec 0) (dec 0) example_today
                    EmptyString ltac:(reflexivity)) eq_refl).
  - exact (Hstore gokul_session req example_db
             (Dairy.mk 1 "Gokul" "gokul" "secret" None)
             (Product.mk 1 1 "Milk" "litre" (dec 40) (dec 55) (dec 0)
                (dec 70))
             1 (dec 0) (dec 0) example_today EmptyString
             eq_refl eq_refl ltac:(reflexivity) eq_refl eq_refl).
Defined.

Lemma missing_product_stores_nothing_witness :
  let entry := post [("product_id", "1"); ("qty", "5"); ("cost_price", "40")] in
  let edit := post [("qty", "5"); ("selling_price", "55");
                    ("date", "2024-01-02")] in
  let db := example_db_without_milk in
  current_dairy gokul_session db
  = Some (Dairy.mk 1 "Gokul" "gokul" "secret" None)
  /\ get_product db 1 = None
  /\ event_create_form "cost_price" entry
     = inl (1, dec 5, dec 40, example_today, EmptyString)
  /\ get_sale db 1
     = Some (Sale.mk 1 1 1 (dec 30) (dec 55) (mkdate 2024 1 2) EmptyString)
  /\ event_edit_form "selling_price" edit
     = inl (dec 5, dec 55, mkdate 2024 1 2, EmptyString)
  /\ stock_in_page gokul_session entry db = (db, Raise "AttributeError")
  /\ edit_sale 1 gokul_session edit db = (db, Raise "AttributeError")
  /\ snd (delete_sale 1 gokul_session edit db) = Redirect "sales_page".
Proof.
  intros entry edit db.
  destruct (missing_product_stores_nothing (rt := example_runtime)
              gokul_session entry db _ eq_refl eq_refl) as (H1 & _ & _).
  destruct (missing_product_stores_nothing (rt := example_runtime)
              gokul_session edit db _ eq_refl eq_refl) as (_ & _ & H3).
  destruct (H3 1 _ eq_refl eq_refl eq_refl) as [Hedit Hdel].
  do 5 (split; [reflexivity|]).
  split.
  - exact (proj1 (H1 1 (dec 5) (dec 40) example_today EmptyString eq_refl)
             ltac:(reflexivity)).
  - split.
    + exact (Hedit (dec 5) (dec 55) (mkdate 2024 1 2) EmptyString
               ltac:(reflexivity)).
    + rewrite Hdel. reflexivity.
Defined.

Lemma event_requests_keep_references_witness :
  let history :=
    [(StockInCreate, gokul_session,
      post [("product_id", "2"); ("qty", "20"); ("cost_price", "42");
            ("date", "2024-01-10")]);
     (SaleEdit 1, gokul_session,
      post [("qty", "20"); ("selling_price", "55"); ("date", "2024-01-02")]);
     (SaleDelete 2, nandini_session, post [])] in
  references_resolve example_db
  /\ references_resolve (replay history example_db)
  /\ List.length (stock_in (replay history example_db)) = 3%nat
  /\ exists f rows totals,
       reports_filters gokul_session january (replay history example_db)
       = inl f
       /\ reports_rows gokul_session january (replay history example_db)
          = inl (rows, totals).
Proof.
  intros history.
  destruct (event_requests_keep_references (rt := example_runtime) history
              example_db example_db_references) as [H1 H2].
  split; [exact example_db_references|]. split; [exact H1|].
  split; [reflexivity|].
  exists (mkFilters (Some 1) (Some (mkdate 2024 1 1))
            (Some (mkdate 2024 1 31)) None).
  destruct (H2 gokul_session january _ ltac:(vm_compute; reflexivity))
    as (rows & totals & Hrows).
  exists rows, totals. split; [vm_compute; reflexivity | exact Hrows].
Defined.

Lemma report_fails_only_by_exception_witness :
  reports gokul_session (get [("page", "two")]) example_db
  = inr (Raise "ValueError")
  /\ reports_pdf_rows (get []) example_db_without_milk
     = inr (Raise "AttributeError")
  /\ (Raise "ValueError" = Raise "ValueError"
      \/ Raise "ValueError" = Raise "AttributeError")
  /\ (Raise "AttributeError" = Raise "ValueError"
      \/ Raise "AttributeError" = Raise "AttributeError").
Proof.
  split; [reflexivity|]. split; [reflexivity|]. split.
  - exact (proj1 (report_fails_only_by_exception (rt := example_runtime)
                    gokul_session (get [("page", "two")]) example_db _)
             ltac:(reflexivity)).
  - exact (proj2 (report_fails_only_by_exception (rt := example_runtime)
                    gokul_session (get []) example_db_without_milk _)
             ltac:(reflexivity)).
Defined.

Lemma deleted_product_breaks_reports_witness :
  let db' := fst (delete_product 1 gokul_session (post []) example_db) in
  let f := mkFilters (Some 1) (Some (mkdate 2024 1 1))
             (Some (mkdate 2024 1 31)) None in
  product_keys_unique example_db
  /\ get_product example_db 1
     = Some (Product.mk 1 1 "Milk" "litre" (dec 40) (dec 55) (dec 0) (dec 70))
  /\ db' = example_db_without_milk
  /\ stock_in db' = stock_in example_db
  /\ reports_filters gokul_session january db' = inl f
  /\ In (StockIn.mk 1 1 1 (dec 100) (dec 40) (mkdate 2024 1 1) EmptyString)
       (filter_stock_in f db')
  /\ reports_rows gokul_session january db' = inr (Raise "AttributeError").
Proof.
  intros db' f.
  destruct (deleted_product_breaks_reports (rt := example_runtime) 1
              gokul_session (post []) example_db _ _
              example_db_keys_unique eq_refl eq_refl eq_refl eq_refl)
    as (_ & _ & Hin & _ & Hreports).
  split; [exact example_db_keys_unique|]. split; [reflexivity|].
  split; [reflexivity|]. split; [exact Hin|].
  split; [vm_compute; reflexivity|].
  split; [left; reflexivity|].
  apply (Hreports gokul_session january f); [vm_compute; reflexivity|].
  left. eexists. split; [left; reflexivity | reflexivity].
Defined.


Lemma report_rows_within_filters_witness :
  let f := mkFilters (Some 1) (Some (mkdate 2024 1 1))
             (Some (mkdate 2024 1 31)) None in
  references_resolve example_db
  /\ reports_filters gokul_session january example_db = inl f
  /\ exists rows totals,
       reports_rows gokul_session january example_db = inl (rows, totals)
       /\ List.length rows = 2%nat
       /\ Forall (fun r => date_leb (mkdate 2024 1 1) (ReportRow.date r) = true
                           /\ ReportRow.dairy r = "Gokul")
            rows.
Proof.
  intros f.
  destruct (report_rows_within_filters (rt := example_runtime) gokul_session
              january example_db f example_db_references
              ltac:(vm_compute; reflexivity))
    as (rows & totals & Hrows & Hlen & Hall).
  split; [exact example_db_references|].
  split; [vm_compute; reflexivity|].
  exists rows, totals. split; [exact Hrows|]. split; [exact Hlen|].
  eapply Forall_impl; [|exact Hall].
  intros r (Hfrom & _ & Hdairy & _). split.
  - exact (Hfrom _ eq_refl).
  - specialize (Hdairy 1 eq_refl). now injection Hdairy.
Defined.

Lemma default_date_range_witness :
  truthy (or_else (lookup "from" (form (get [])))
            (lookup "from" (args (get []))))
  = None
  /\ truthy (or_else (lookup "to" (form (get [])))
               (lookup "to" (args (get []))))
     = None
  /\ truthy (lookup "to" (args (get []))) = None
  /\ (exists f,
        reports_filters gokul_session (get []) example_db = inl f
        /\ date_from f = Some example_today
        /\ date_to f = Some example_today)
  /\ dashboard_dates (get []) = (example_today, example_today)
  /\ (exists f,
        reports_pdf_filters (get []) = inl f
        /\ date_from f = None /\ date_to f = None).
Proof.
  destruct (default_date_range (rt := example_runtime)) as (H1 & H2 & H3).
  do 3 (split; [reflexivity|]). split.
  - exists (mkFilters (Some 1) (Some example_today) (Some example_today)
              None).
    split; [vm_compute; reflexivity|].
    exact (H1 gokul_session (get []) example_db _ eq_refl eq_refl
             ltac:(vm_compute; reflexivity)).
  - split; [exact (H2 (get []) eq_refl eq_refl)|].
    exists (mkFilters None None None None). split; [reflexivity|].
    exact (H3 (get []) _ eq_refl eq_refl eq_refl).
Defined.

Lemma empty_report_witness :
  let f := mkFilters (Some 1) (Some example_today) (Some example_today)
             None in
  reports_filters gokul_session (get []) example_db = inl f
  /\ filter_stock_in f example_db = []
  /\ filter_sales f example_db = []
  /\ exists pg,
       reports gokul_session (get []) example_db = inl pg
       /\ page_rows pg = []
       /\ page_total_pages pg = 1
       /\ page_out pg = false
       /\ excel pg = None.
Proof.
  intros f.
  destruct (empty_report (rt := example_runtime) gokul_session (get [])
              example_db f 1 ltac:(vm_compute; reflexivity) eq_refl eq_refl
              eq_refl)
    as (pg & Hpg & Hrows & _ & Htotal & _ & Hout & Hexcel).
  split; [vm_compute; reflexivity|]. split; [reflexivity|].
  split; [reflexivity|].
  exists pg. repeat split; assumption.
Defined.

Lemma report_spreadsheet_witness :
  exists pg rows totals,
    reports gokul_session january example_db = inl pg
    /\ reports_rows gokul_session january example_db = inl (rows, totals)
    /\ rows <> []
    /\ excel pg = Some rows
    /\ page_out pg = true
    /\ page_totals pg = totals.
Proof.
  destruct (reports gokul_session january example_db) as [pg|] eqn:Hpg;
    [|discriminate Hpg].
  destruct (report_spreadsheet (rt := example_runtime) gokul_session january
              example_db pg Hpg) as (rows & totals & Hrows & Ht & _ & Hfull).
  assert (Hlen : match reports_rows gokul_session january example_db with
                 | inl (r, _) => List.length r
                 | inr _ => 0%nat
                 end = 2%nat) by reflexivity.
  assert (Hne : rows <> []).
  { intros ->. rewrite Hrows in Hlen. discriminate Hlen. }
  exists pg, rows, totals. split; [reflexivity|]. split; [exact Hrows|].
  split; [exact Hne|]. destruct (Hfull Hne) as [H1 H2].
  split; [exact H1|]. split; [exact H2 | exact Ht].
Defined.

Lemma listings_show_own_rows_witness :
  current_dairy gokul_session example_db
  = Some (Dairy.mk 1 "Gokul" "gokul" "secret" None)
  /\ exists ps es ss,
       products_view gokul_session example_db = inl ps
       /\ stock_in_trans gokul_session example_db = inl es
       /\ sales_trans gokul_session example_db = inl ss
       /\ map Product.name ps = ["Milk"]
       /\ (List.length es <= 200)%nat
       /\ (forall e, In e es -> StockIn.dairy_id e = 1).
Proof.
  destruct (listings_show_own_rows gokul_session example_db _ eq_refl)
    as (ps & es & ss & Hps & Hes & Hss & _ & Hlen & _ & Hown & _).
  split; [reflexivity|].
  exists ps, es, ss. split; [exact Hps|]. split; [exact Hes|].
  split; [exact Hss|]. split.
  - injection Hps as <-. reflexivity.
  - split; [exact Hlen|]. intros e He. exact (proj2 (Hown e He)).
Defined.

Lemma dashboard_summary_adds_up_witness :
  let req := get [("from", "2024-01-01"); ("to", "2024-01-31")] in
  balanced example_db
  /\ dashboard_dates req = (mkdate 2024 1 1, mkdate 2024 1 31)
  /\ exists pg,
       dashboard gokul_session req example_db = inl pg
       /\ map summary_name (dash_product_stock_summary pg) = ["Milk"]
       /\ Forall
            (fun line =>
               summary_closing_stock line
               = (summary_stock_in line - summary_stock_out line)%Qc)
            (dash_product_stock_summary pg)
       /\ map summary_stock_in (dash_product_stock_summary pg) = [dec 100]
       /\ map summary_stock_out (dash_product_stock_summary pg) = [dec 30]
       /\ map summary_closing_stock (dash_product_stock_summary pg)
          = [dec 70].
Proof.
  intros req.
  destruct (dashboard gokul_session req example_db) as [pg|] eqn:Hpg;
    [|discriminate Hpg].
  assert (Hin : forall e p, In e (stock_in example_db) ->
            In p (products example_db) ->
            Product.dairy_id p = 1 ->
            StockIn.product_id e = Product.id p ->
            StockIn.dairy_id e = 1
            /\ date_leb (fst (dashboard_dates req)) (StockIn.date e) = true
            /\ date_leb (StockIn.date e) (snd (dashboard_dates req)) = true).
  { intros e p [<- | [<- | []]] [<- | [<- | []]] H1 H2;
      try discriminate H1; try discriminate H2; repeat split. }
  assert (Hout : forall s p, In s (sales example_db) ->
            In p (products example_db) ->
            Product.dairy_id p = 1 ->
            Sale.product_id s = Product.id p ->
            Sale.dairy_id s = 1
            /\ date_leb (fst (dashboard_dates req)) (Sale.date s) = true
            /\ date_leb (Sale.date s) (snd (dashboard_dates req)) = true).
  { intros s p [<- | [<- | []]] [<- | [<- | []]] H1 H2;
      try discriminate H1; try discriminate H2; repeat split. }
  destruct (dashboard_summary_adds_up (rt := example_runtime) gokul_session
              req example_db (Dairy.mk 1 "Gokul" "gokul" "secret" None) pg
              eq_refl Hpg example_db_balanced Hin Hout) as [Hnames Hall].
  split; [exact example_db_balanced|]. split; [reflexivity|].
  exists pg. split; [reflexivity|]. split; [exact Hnames|].
  split; [exact Hall|].
  injection Hpg as <-. repeat split.
Defined.

Lemma login_outcomes_witness :
  let gokul := post [("username", "gokul"); ("password", "secret")] in
  let admin := post [("username", "admin"); ("password", "admin")] in
  let nobody := post [("username", "gokul"); ("password", "guess")] in
  login example_users gokul_cookie admin example_db
  = (Cookie.mk (Some 1) None (Some "Gokul") (Some None),
     Redirect "admin_dashboard")
  /\ session_of example_users
       (fst (login example_users gokul_cookie admin example_db))
     = mkSession true None
  /\ snd (login example_users anonymous_cookie gokul example_db)
     = Redirect "dashboard"
  /\ current_dairy
       (session_of example_users
          (fst (login example_users anonymous_cookie gokul example_db)))
       example_db
     = Some (Dairy.mk 1 "Gokul" "gokul" "secret" None)
  /\ login example_users anonymous_cookie nobody example_db
     = (anonymous_cookie, Render "login.html").
Proof.
  intros gokul admin nobody.
  destruct (login_outcomes example_users gokul_cookie admin example_db
              "admin" "admin" eq_refl eq_refl eq_refl) as (Hadmin & _ & _).
  destruct (login_outcomes example_users anonymous_cookie gokul example_db
              "gokul" "secret" eq_refl eq_refl eq_refl) as (_ & Hdairy & _).
  destruct (login_outcomes example_users anonymous_cookie nobody example_db
              "gokul" "guess" eq_refl eq_refl eq_refl) as (_ & _ & Hnone).
  destruct (Hadmin _ eq_refl) as (_ & Hsess & _).
  destruct (Hdairy _ eq_refl eq_refl) as (Hto & _ & _ & _ & Hacting).
  split; [reflexivity|]. split; [exact Hsess|]. split; [exact Hto|].
  split; [|exact (Hnone eq_refl eq_refl)].
  apply Hacting; [|discriminate].
  exact (proj1 example_db_all_keys_unique).
Defined.

Lemma admin_pages_need_admin_witness :
  current_user_is_authenticated example_users gokul_cookie = false
  /\ admin_dashboard example_users gokul_cookie example_db
     = inr (Redirect "login")
  /\ add_dairy example_users gokul_cookie
       (post [("name", "Amul"); ("username", "amul"); ("password", "butter")])
       None example_db
     = (example_db, Redirect "login")
  /\ admin_view_dairy 2 example_users gokul_cookie example_db
     = (gokul_cookie, Redirect "login").
Proof.
  split; [reflexivity|].
  exact (admin_pages_need_admin example_users gokul_cookie
           (post [("name", "Amul"); ("username", "amul");
                  ("password", "butter")])
           example_db 2 None eq_refl).
Defined.

Lemma impersonation_witness :
  current_user_is_authenticated example_users admin_cookie = true
  /\ admin_view_dairy 2 example_users admin_cookie example_db
     = (Cookie.mk (Some 1) (Some 2) (Some "Nandini")
          (Some (Some "static/logos/n.png")),
        Redirect "dashboard")
  /\ current_dairy
       (session_of example_users
          (fst (admin_view_dairy 2 example_users admin_cookie example_db)))
       example_db
     = Some (Dairy.mk 2 "Nandini" "nandini" "secret"
               (Some "static/logos/n.png"))
  /\ admin_view_dairy 7 example_users admin_cookie example_db
     = (admin_cookie, Abort 404).
Proof.
  destruct (impersonation example_users admin_cookie example_db 2 eq_refl)
    as [Hview _].
  destruct (impersonation example_users admin_cookie example_db 7 eq_refl)
    as [_ Hnone].
  destruct (Hview _ eq_refl ltac:(discriminate)) as (_ & _ & Hacting & _).
  split; [reflexivity|]. split; [reflexivity|]. split; [exact Hacting|].
  exact (Hnone eq_refl).
Defined.

Lemma add_dairy_then_login_witness :
  let amul := post [("name", "Amul"); ("username", "amul");
                    ("password", "butter")] in
  let again := post [("name", "Gokul 2"); ("username", "gokul");
                     ("password", "butter")] in
  let enter := post [("username", "amul"); ("password", "butter")] in
  let new := Dairy.mk 3 "Amul" "amul" "butter" (Some "static/logos/a.png") in
  current_user_is_authenticated example_users admin_cookie = true
  /\ add_dairy example_users admin_cookie again None example_db
     = (example_db, Raise "IntegrityError")
  /\ dairies (fst (add_dairy example_users admin_cookie amul
                     (Some "static/logos/a.png") example_db))
     = dairies example_db ++ [new]
  /\ login example_users anonymous_cookie enter
       (fst (add_dairy example_users admin_cookie amul
               (Some "static/logos/a.png") example_db))
     = (enter_dairy new anonymous_cookie, Redirect "dashboard").
Proof.
  intros amul again enter new.
  destruct (add_dairy_then_login example_users admin_cookie anonymous_cookie
              again enter example_db None "Gokul 2" "gokul" "butter"
              eq_refl eq_refl eq_refl eq_refl eq_refl) as [Htaken _].
  destruct (add_dairy_then_login example_users admin_cookie anonymous_cookie
              amul enter example_db (Some "static/logos/a.png") "Amul" "amul"
              "butter" eq_refl eq_refl eq_refl eq_refl eq_refl)
    as [_ Hfree].
  destruct (Hfree eq_refl) as (Hadd & _ & Hlogin).
  split; [reflexivity|]. split; [exact (Htaken eq_refl)|].
  split; [rewrite Hadd; reflexivity|].
  exact (Hlogin eq_refl eq_refl eq_refl eq_refl).
Defined.

Lemma initdb_idempotent_witness :
  let empty := mkDB [] [] [] [] in
  initdb [] empty
  = ([User.mk 1 "admin" "admin"],
     mkDB [Dairy.mk 1 "Sample Dairy" "dairy" "dairy" None] [] [] [])
  /\ initdb (fst (initdb [] empty)) (snd (initdb [] empty)) = initdb [] empty
  /\ first_user "admin" "admin" (fst (initdb [] empty)) <> None
  /\ all_keys_unique (snd (initdb [] empty))
  /\ initdb example_users example_db = (example_users, example_db).
Proof.
  intros empty.
  destruct (initdb_idempotent [] empty)
    as (Hagain & _ & _ & _ & _ & _ & _ & _ & _ & Hkeys & Hadmin).
  split; [reflexivity|]. split; [exact Hagain|].
  split; [exact (Hadmin eq_refl)|].
  split; [|reflexivity].
  apply Hkeys. repeat split; constructor.
Defined.

Lemma pdf_lists_rows_of_page_witness :
  let f := mkFilters (Some 1) (Some (mkdate 2024 1 1))
             (Some (mkdate 2024 1 31)) None in
  references_resolve example_db
  /\ reports_filters gokul_session january example_db = inl f
  /\ reports_pdf_filters january = inl f
  /\ exists rows totals rows' totals',
       reports_rows gokul_session january example_db = inl (rows, totals)
       /\ reports_pdf_rows january example_db = inl (rows', totals')
       /\ rows' = map without_logo rows
       /\ List.length rows' = 2%nat.
Proof.
  intros f.
  destruct (pdf_lists_rows_of_page (rt := example_runtime) gokul_session
              january example_db f example_db_references
              ltac:(vm_compute; reflexivity) ltac:(vm_compute; reflexivity))
    as (rows & totals & rows' & totals' & Hrows & Hpdf & Hsame).
  assert (Hlen : match reports_pdf_rows january example_db with
                 | inl (r, _) => List.length r
                 | inr _ => 0%nat
                 end = 2%nat) by reflexivity.
  rewrite Hpdf in Hlen.
  split; [exact example_db_references|].
  split; [vm_compute; reflexivity|]. split; [vm_compute; reflexivity|].
  exists rows, totals, rows', totals'.
  split; [exact Hrows|]. split; [exact Hpdf|]. split; [exact Hsame|].
  exact Hlen.
Defined.

End Examples.
